(** * The irrigation dashboard: telemetry decoder and command dispatcher

    A shallow embedding of the message handler of the dashboard page
    ([client.on('message', ...)]), of [publishPumpControl] and
    [controlPump], and of the pump relay route ([app/api/pump/route.ts]),
    together with the part of the JavaScript runtime they rely on.

    Conventions of the embedding.
    - JavaScript numbers are IEEE 754 binary64 values: Rocq's primitive
      [float].
    - Text is a [string] whose characters stand for the code units
      U+0000..U+00FF; the device's payloads are ASCII. A code unit above
      U+00FF is written U+00A0 when it is a blank of the language and
      U+00FF when it is not: the decoder only ever asks of such a unit
      whether it is a blank.
    - A value that came out of [JSON.parse] is a [value]; an object is the
      list of its own properties, looked up by key.
    - An exception is an explicit result ([Throw]); the handler's
      [try]/[catch] is [try_catch].
    - React state is one record [State]; a setter is a state update, and
      updates made before an exception stay. *)

From Stdlib Require Import String Ascii List ZArith Bool Floats Lia.
From Stdlib Require Import DecimalString.
Import ListNotations.
Set Warnings "-inexact-float,-register-all".

Open Scope string_scope.
Open Scope bool_scope.

(** ** Text: the [String.prototype] operations the page uses *)

Module Text.

Definition code (c : ascii) : nat := nat_of_ascii c.

Definition between (lo hi : nat) (c : ascii) : bool :=
  (lo <=? code c)%nat && (code c <=? hi)%nat.

(** [\d] *)
Definition is_digit (c : ascii) : bool := between 48 57 c.

(** [\w] *)
Definition is_word (c : ascii) : bool :=
  is_digit c || between 65 90 c || between 97 122 c || (code c =? 95)%nat.

(** [\s], over the code units below 256 *)
Definition is_space (c : ascii) : bool :=
  between 9 13 c || (code c =? 32)%nat || (code c =? 160)%nat.

(** [[\d.]] *)
Definition is_digit_or_dot (c : ascii) : bool :=
  is_digit c || (code c =? 46)%nat.

(** [s.startsWith(p)] *)
Definition startsWith (s p : string) : bool := String.prefix p s.

(** [s.includes(sub)] *)
Fixpoint includes (s sub : string) : bool :=
  String.prefix sub s
  || match s with
     | EmptyString => false
     | String _ rest => includes rest sub
     end.

(** The rest of [s] after the literal [p], when [s] starts with [p]. *)
Fixpoint strip_prefix (p s : string) : option string :=
  match p, s with
  | EmptyString, _ => Some s
  | String a p', String b s' =>
      if Ascii.eqb a b then strip_prefix p' s' else None
  | String _ _, EmptyString => None
  end.

(** The longest prefix of [s] made of characters of the class [f], and the
    rest: a greedy [f*]. *)
Fixpoint span (f : ascii -> bool) (s : string) : string * string :=
  match s with
  | EmptyString => (EmptyString, EmptyString)
  | String c rest =>
      if f c then let (a, b) := span f rest in (String c a, b)
      else (EmptyString, s)
  end.

(** [s.replace(pat, rep)] for a string pattern: the first occurrence only. *)
Fixpoint replace (s pat rep : string) : string :=
  match strip_prefix pat s with
  | Some rest => rep ++ rest
  | None =>
      match s with
      | EmptyString => EmptyString
      | String c rest => String c (replace rest pat rep)
      end
  end.

(** [s.toUpperCase()], character by character. The small letters of
    U+0000..U+00FF are [a]..[z] and U+00E0..U+00FE without the division sign
    U+00F7, which move down by 32; the sharp s U+00DF, which becomes [SS];
    and U+00B5 and U+00FF, whose capitals lie above U+00FF. *)
Definition upper_char (c : ascii) : string :=
  if between 97 122 c then String (ascii_of_nat (code c - 32)) EmptyString
  else if between 224 254 c && negb (code c =? 247)%nat
  then String (ascii_of_nat (code c - 32)) EmptyString
  else if (code c =? 223)%nat then "SS"
  else if (code c =? 181)%nat || (code c =? 255)%nat
  then String (ascii_of_nat 255) EmptyString
  else String c EmptyString.

Fixpoint toUpperCase (s : string) : string :=
  match s with
  | EmptyString => EmptyString
  | String c rest => upper_char c ++ toUpperCase rest
  end.

(** An unanchored regular expression tries every start position from the
    left: [search m s] is the result of [m] at the first suffix of [s]
    where [m] succeeds. *)
Fixpoint search {A : Type} (m : string -> option A) (s : string) : option A :=
  match m s with
  | Some a => Some a
  | None =>
      match s with
      | EmptyString => None
      | String _ rest => search m rest
      end
  end.

(** A non-empty greedy run of the class [f] at the head of [s]: [(f+)] and
    what follows it. *)
Definition run1 (f : ascii -> bool) (s : string) : option (string * string) :=
  let (a, b) := span f s in
  match a with
  | EmptyString => None
  | _ => Some (a, b)
  end.

(** [\s*] at the head of [s]: what follows the blanks. *)
Definition skip_spaces (s : string) : string := snd (span is_space s).

End Text.

(** ** Numbers: the conversions between text and binary64 values *)

Module Number.

Import Text.
Open Scope Z_scope.

(** The binary64 value nearest to the integer [z] (ties to even). *)
Definition of_Z (z : Z) : float :=
  SF2Prim (binary_normalize prec emax z 0 false).

(** The binary64 value nearest to [m * 10 ^ e10], for [0 <= m]. A negative
    exponent divides exactly in [Z] with enough extra bits and a sticky bit,
    so that the one rounding of [binary_normalize] is the rounding of the
    exact quotient. *)
Definition of_decimal (m e10 : Z) : float :=
  if m =? 0 then PrimFloat.zero
  else if 0 <=? e10 then of_Z (m * 10 ^ e10)
  else
    let d := 10 ^ (- e10) in
    let s := Z.max 0 (Z.log2 d - Z.log2 m + 64) in
    let q := (m * 2 ^ s) / d in
    let r := (m * 2 ^ s) mod d in
    let q' := 2 * q + (if r =? 0 then 0 else 1) in
    SF2Prim (binary_normalize prec emax q' (- (s + 1)) false).

Definition digit_val (c : ascii) : Z := Z.of_nat (code c - 48).

Fixpoint digits_val_from (acc : Z) (s : string) : Z :=
  match s with
  | EmptyString => acc
  | String c rest => digits_val_from (10 * acc + digit_val c) rest
  end.

(** The integer a string of decimal digits denotes. *)
Definition digits_val (s : string) : Z := digits_val_from 0 s.

Definition is_hex (c : ascii) : bool :=
  is_digit c || between 65 70 c || between 97 102 c.

Definition hex_val (c : ascii) : Z :=
  if is_digit c then Z.of_nat (code c - 48)
  else if between 65 70 c then Z.of_nat (code c - 55)
  else Z.of_nat (code c - 87).

Fixpoint radix_val_from (radix : Z) (acc : Z) (s : string) : Z :=
  match s with
  | EmptyString => acc
  | String c rest => radix_val_from radix (radix * acc + hex_val c) rest
  end.

Definition is_empty (s : string) : bool :=
  match s with EmptyString => true | _ => false end.

(** An optional sign at the head of [s]: whether it is [-], and the rest. *)
Definition scan_sign (s : string) : bool * string :=
  match s with
  | String "+" rest => (false, rest)
  | String "-" rest => (true, rest)
  | _ => (false, s)
  end.

(** An exponent part ([e] or [E], an optional sign, digits) at the head of
    [s]; [(0, s)] when there is none. *)
Definition scan_exponent (s : string) : Z * string :=
  match s with
  | String c r =>
      if Ascii.eqb c "e" || Ascii.eqb c "E" then
        let (neg, r') := scan_sign r in
        match run1 is_digit r' with
        | Some (d, rest) =>
            ((if neg then - digits_val d else digits_val d), rest)
        | None => (0, s)
        end
      else (0, s)
  | EmptyString => (0, s)
  end.

(** The longest unsigned decimal literal at the head of [s], as mantissa and
    power of ten, and the rest of [s]. *)
Definition scan_decimal (s : string) : option (Z * Z * string) :=
  let (ip, r) := span is_digit s in
  match r with
  | String "." r1 =>
      let (fp, r2) := span is_digit r1 in
      if is_empty ip && is_empty fp then None
      else
        let (ex, r3) := scan_exponent r2 in
        Some (digits_val (ip ++ fp), ex - Z.of_nat (String.length fp), r3)
  | _ =>
      if is_empty ip then None
      else let (ex, r3) := scan_exponent r in Some (digits_val ip, ex, r3)
  end.

Definition with_sign (neg : bool) (x : float) : float :=
  if neg then PrimFloat.opp x else x.

(** [parseFloat(s)] *)
Definition parseFloat (s : string) : float :=
  let (neg, u) := scan_sign (skip_spaces s) in
  if startsWith u "Infinity" then with_sign neg infinity
  else
    match scan_decimal u with
    | Some (m, e, _) => with_sign neg (of_decimal m e)
    | None => nan
    end.

(** [parseInt(s)], without a radix argument. *)
Definition parseInt (s : string) : float :=
  let (neg, u) := scan_sign (skip_spaces s) in
  let hex :=
    match strip_prefix "0x" u, strip_prefix "0X" u with
    | Some r, _ | None, Some r => Some r
    | None, None => None
    end in
  match hex with
  | Some r =>
      match run1 is_hex r with
      | Some (d, _) => with_sign neg (of_Z (radix_val_from 16 0 d))
      | None => nan
      end
  | None =>
      match run1 is_digit u with
      | Some (d, _) => with_sign neg (of_Z (digits_val d))
      | None => nan
      end
  end.

(** [Math.round(x)]: the integer nearest to [x], a tie going up. *)
Definition Math_round (x : float) : float :=
  match Prim2SF x with
  | S754_finite s m e =>
      if 0 <=? e then x
      else
        let sm := if s then Z.neg m else Z.pos m in
        let n := (2 * sm + 2 ^ (- e)) / 2 ^ (1 - e) in
        if n =? 0 then (if s then neg_zero else PrimFloat.zero) else of_Z n
  | _ => x
  end.

(** Blanks removed at the end of [s]. *)
Fixpoint rtrim (s : string) : string :=
  match s with
  | EmptyString => EmptyString
  | String c rest =>
      let rest' := rtrim rest in
      if is_space c && is_empty rest' then EmptyString else String c rest'
  end.

Definition all_of (f : ascii -> bool) (s : string) : bool :=
  is_empty (snd (span f s)).

(** A literal [0x..], [0o..] or [0b..] (either case of the letter). *)
Definition scan_radix_literal (t : string) : option float :=
  match t with
  | String "0" (String c r) =>
      let lit (f : ascii -> bool) (radix : Z) :=
        if negb (is_empty r) && all_of f r
        then Some (of_Z (radix_val_from radix 0 r)) else Some nan in
      if Ascii.eqb c "x" || Ascii.eqb c "X" then lit is_hex 16
      else if Ascii.eqb c "o" || Ascii.eqb c "O" then lit (between 48 55) 8
      else if Ascii.eqb c "b" || Ascii.eqb c "B" then lit (between 48 49) 2
      else None
  | _ => None
  end.

(** [StringToNumber]: the number a string converts to ([Number(s)]). *)
Definition StringToNumber (s : string) : float :=
  let t := rtrim (skip_spaces s) in
  if is_empty t then PrimFloat.zero
  else
    match scan_radix_literal t with
    | Some x => x
    | None =>
        let (neg, u) := scan_sign t in
        if String.eqb u "Infinity" then with_sign neg infinity
        else
          match scan_decimal u with
          | Some (m, e, EmptyString) => with_sign neg (of_decimal m e)
          | _ => nan
          end
    end.

(** *** [Number::toString]: the shortest decimal text that reads back *)

Definition string_of_nonneg (z : Z) : string :=
  NilZero.string_of_uint (N.to_uint (Z.to_N z)).

Fixpoint zeros (n : nat) : string :=
  match n with
  | O => EmptyString
  | S k => String "0" (zeros k)
  end.

(** [num / den < 10 ^ n] *)
Definition below_pow10 (num den n : Z) : bool :=
  if 0 <=? n then num <? den * 10 ^ n else num * 10 ^ (- n) <? den.

(** The [n] with [10 ^ (n - 1) <= num / den < 10 ^ n]. *)
Definition decimal_exponent (num den : Z) : Z :=
  let est := ((Z.log2 num - Z.log2 den) * 30103) / 100000 in
  let candidates := map (fun i => est - 2 + Z.of_nat i) (seq 0 7) in
  match find (below_pow10 num den) candidates with
  | Some n => n
  | None => est
  end.

(** With [k] digits: the digit strings [s] next to [num / den / 10 ^ (n - k)]
    whose value [s * 10 ^ (n - k)] reads back as [x], the nearer one first. *)
Definition digits_at (x : float) (num den n : Z) (k : Z) : option Z :=
  let j := n - k in
  let (a, b) := if 0 <=? j then (num, den * 10 ^ j) else (num * 10 ^ (- j), den) in
  let lo := a / b in
  let hi := lo + 1 in
  let ok c := PrimFloat.eqb (of_decimal c j) x in
  let lo_nearer :=
    match (2 * a ?= (2 * lo + 1) * b) with
    | Lt => true
    | Gt => false
    | Eq => Z.even lo
    end in
  match ok lo, ok hi with
  | true, true => Some (if lo_nearer then lo else hi)
  | true, false => Some lo
  | false, true => Some hi
  | false, false => None
  end.

Fixpoint shortest_from (x : float) (num den n : Z) (k : Z) (fuel : nat)
  : Z * Z :=
  match fuel with
  | O => (0, k)
  | S fuel' =>
      match digits_at x num den n k with
      | Some s => (s, k)
      | None => shortest_from x num den n (k + 1) fuel'
      end
  end.

(** The text of a positive finite number given by its digits [s] (there are
    [k] of them) and its decimal exponent [n]. *)
Definition layout (s k n : Z) : string :=
  let ds := string_of_nonneg s in
  if (k <=? n) && (n <=? 21) then ds ++ zeros (Z.to_nat (n - k))
  else if (0 <? n) && (n <=? 21) then
    substring 0 (Z.to_nat n) ds ++ "."
      ++ substring (Z.to_nat n) (Z.to_nat (k - n)) ds
  else if (-6 <? n) && (n <=? 0) then "0." ++ zeros (Z.to_nat (- n)) ++ ds
  else
    let e := n - 1 in
    let mant :=
      if k =? 1 then ds
      else substring 0 1 ds ++ "." ++ substring 1 (Z.to_nat (k - 1)) ds in
    mant ++ "e" ++ (if e <? 0 then "-" else "+") ++ string_of_nonneg (Z.abs e).

(** [Number::toString(x)] in radix 10. *)
Definition NumberToString (x : float) : string :=
  match Prim2SF x with
  | S754_nan => "NaN"
  | S754_zero _ => "0"
  | S754_infinity s => if s then "-Infinity" else "Infinity"
  | S754_finite sg m e =>
      let ax := PrimFloat.abs x in
      let (num, den) :=
        if 0 <=? e then (Z.pos m * 2 ^ e, 1) else (Z.pos m, 2 ^ (- e)) in
      let n := decimal_exponent num den in
      let (s, k) := shortest_from ax num den n 1 17 in
      let (s', n') := if s =? 10 ^ k then (10 ^ (k - 1), n + 1) else (s, n) in
      (if sg then "-" else "") ++ layout s' k n'
  end.

End Number.


(** ** Values and the operators of the language *)

Module JS.

Import Text Number.

(** What [JSON.parse] can return, and [undefined]. An object is the list of
    its own properties; a key is looked up from the left. *)
Inductive value : Type :=
| Undefined
| Null
| Bool (b : bool)
| Num (x : float)
| Str (s : string)
| Arr (items : list value)
| Obj (props : list (string * value)).

Inductive exn : Type :=
| TypeError
| SyntaxError
| OtherError.

Inductive result (A : Type) : Type :=
| Ok (a : A)
| Throw (e : exn).

Arguments Ok {A} a.
Arguments Throw {A} e.

Definition rbind {A B : Type} (r : result A) (k : A -> result B) : result B :=
  match r with
  | Ok a => k a
  | Throw e => Throw e
  end.

Notation "x <-r c ;; k" := (rbind c (fun x => k))
  (at level 61, c at next level, right associativity).

(** [ToBoolean] *)
Definition truthy (v : value) : bool :=
  match v with
  | Undefined | Null => false
  | Bool b => b
  | Num x => negb (PrimFloat.eqb x 0 || PrimFloat.is_nan x)
  | Str s => negb (is_empty s)
  | Arr _ | Obj _ => true
  end.

(** [a || b] *)
Definition or_else (a b : value) : value := if truthy a then a else b.

(** [a ?? b] *)
Definition nullish (a b : value) : value :=
  match a with
  | Undefined | Null => b
  | _ => a
  end.

(** [typeof v === 'object'] *)
Definition typeof_object (v : value) : bool :=
  match v with
  | Null | Arr _ | Obj _ => true
  | _ => false
  end.

(** [typeof v === 'number'] *)
Definition typeof_number (v : value) : bool :=
  match v with
  | Num _ => true
  | _ => false
  end.

(** [v !== undefined] *)
Definition is_defined (v : value) : bool :=
  match v with
  | Undefined => false
  | _ => true
  end.

(** [v === 1] *)
Definition is_one (v : value) : bool :=
  match v with
  | Num x => PrimFloat.eqb x 1
  | _ => false
  end.

Fixpoint lookup (k : string) (props : list (string * value)) : value :=
  match props with
  | [] => Undefined
  | (k', v) :: rest => if String.eqb k k' then v else lookup k rest
  end.

Definition has_key (k : string) (props : list (string * value)) : bool :=
  existsb (fun kv => String.eqb k (fst kv)) props.

Definition num_of_nat (n : nat) : float := of_Z (Z.of_nat n).

(** [v.k] for the property names the page reads: [bme], [t], [p], [h], the
    series and channel names, none of which a prototype provides. Reading a
    property of [undefined] or [null] throws. *)
Definition get (v : value) (k : string) : result value :=
  match v with
  | Undefined | Null => Throw TypeError
  | Obj props => Ok (lookup k props)
  | _ => Ok Undefined
  end.

(** [v.length] *)
Definition get_length (v : value) : result value :=
  match v with
  | Undefined | Null => Throw TypeError
  | Arr items => Ok (Num (num_of_nat (List.length items)))
  | Str s => Ok (Num (num_of_nat (String.length s)))
  | Obj props => Ok (lookup "length" props)
  | _ => Ok Undefined
  end.

(** [v[i]] for an index [i] *)
Definition get_index (v : value) (i : nat) : result value :=
  match v with
  | Undefined | Null => Throw TypeError
  | Arr items => Ok (nth i items Undefined)
  | Str s =>
      Ok (match String.get i s with
          | Some c => Str (String c EmptyString)
          | None => Undefined
          end)
  | Obj props => Ok (lookup (string_of_nonneg (Z.of_nat i)) props)
  | _ => Ok Undefined
  end.

(** [ToPrimitive] and [ToString]. An array converts through [join]; an
    ordinary object converts to ["[object Object]"], unless it has an own
    property [toString], which (not being callable) leaves no conversion:
    a [TypeError]. *)
Fixpoint ToString (v : value) : result string :=
  match v with
  | Undefined => Ok "undefined"
  | Null => Ok "null"
  | Bool b => Ok (if b then "true" else "false")
  | Num x => Ok (NumberToString x)
  | Str s => Ok s
  | Arr items =>
      (fix join (l : list value) : result string :=
         match l with
         | [] => Ok ""
         | x :: rest =>
             s <-r match x with
                   | Undefined | Null => Ok ""
                   | _ => ToString x
                   end ;;
             match rest with
             | [] => Ok s
             | _ => t <-r join rest ;; Ok (s ++ "," ++ t)
             end
         end) items
  | Obj props =>
      if has_key "toString" props then Throw TypeError
      else Ok "[object Object]"
  end.

Definition ToPrimitive (v : value) : result value :=
  match v with
  | Arr _ | Obj _ => s <-r ToString v ;; Ok (Str s)
  | _ => Ok v
  end.

(** [ToNumber] *)
Definition ToNumber (v : value) : result float :=
  p <-r ToPrimitive v ;;
  Ok match p with
     | Undefined => nan
     | Null => PrimFloat.zero
     | Bool b => if b then PrimFloat.one else PrimFloat.zero
     | Num x => x
     | Str s => StringToNumber s
     | Arr _ | Obj _ => nan
     end.

Definition is_string (v : value) : bool :=
  match v with
  | Str _ => true
  | _ => false
  end.

(** [a + b] *)
Definition add (a b : value) : result value :=
  pa <-r ToPrimitive a ;;
  pb <-r ToPrimitive b ;;
  if is_string pa || is_string pb then
    sa <-r ToString pa ;;
    sb <-r ToString pb ;;
    Ok (Str (sa ++ sb))
  else
    x <-r ToNumber pa ;;
    y <-r ToNumber pb ;;
    Ok (Num (x + y)).

(** [a / b] *)
Definition div (a b : value) : result value :=
  x <-r ToNumber a ;;
  y <-r ToNumber b ;;
  Ok (Num (x / y)).

(** [v > c] for a number [c] *)
Definition gt (v : value) (c : float) : result bool :=
  x <-r ToNumber v ;;
  Ok (PrimFloat.ltb c x).

(** [v.length > 0]. The length of an array is a whole number from 0 to
    2^32 - 1, which is positive when the array has an element. *)
Definition has_items (v : value) : result bool :=
  match v with
  | Arr items => Ok (match items with [] => false | _ :: _ => true end)
  | _ => n <-r get_length v ;; gt n 0
  end.

(** [v.filter(keep)]: only an array has the method. *)
Fixpoint filter_items (keep : value -> result bool) (l : list value)
  : result (list value) :=
  match l with
  | [] => Ok []
  | x :: rest =>
      b <-r keep x ;;
      l' <-r filter_items keep rest ;;
      Ok (if b then x :: l' else l')
  end.

Definition filter (v : value) (keep : value -> result bool) : result value :=
  match v with
  | Arr items => l <-r filter_items keep items ;; Ok (Arr l)
  | _ => Throw TypeError
  end.

(** [v.reduce(f, init)]: only an array has the method. *)
Fixpoint reduce_items (f : value -> value -> result value) (acc : value)
  (l : list value) : result value :=
  match l with
  | [] => Ok acc
  | x :: rest => acc' <-r f acc x ;; reduce_items f acc' rest
  end.

Definition reduce (v : value) (f : value -> value -> result value)
  (init : value) : result value :=
  match v with
  | Arr items => reduce_items f init items
  | _ => Throw TypeError
  end.

(** [x.toFixed(d)] is called for its text only; what matters here is that a
    value other than a number has no such method. *)
Definition toFixed (v : value) : result unit :=
  match v with
  | Num _ => Ok tt
  | _ => Throw TypeError
  end.

End JS.

(** ** [JSON.parse] *)

Module JSON.

Import Text Number JS.
Open Scope nat_scope.

(** The blanks of JSON text: space, tab, line feed, carriage return. *)
Definition is_ws (c : ascii) : bool :=
  (code c =? 32) || (code c =? 9) || (code c =? 10) || (code c =? 13).

Definition skip_ws (s : string) : string := snd (span is_ws s).

(** The character a one-letter escape stands for. *)
Definition escape (c : ascii) : option ascii :=
  if Ascii.eqb c "034" then Some "034"%char
  else if Ascii.eqb c "\" then Some "\"%char
  else if Ascii.eqb c "/" then Some "/"%char
  else if Ascii.eqb c "b" then Some "008"%char
  else if Ascii.eqb c "f" then Some "012"%char
  else if Ascii.eqb c "n" then Some "010"%char
  else if Ascii.eqb c "r" then Some "013"%char
  else if Ascii.eqb c "t" then Some "009"%char
  else None.

(** The blanks of the language above U+00FF. *)
Definition is_high_blank (u : N) : bool :=
  ((u =? 5760) || ((8192 <=? u) && (u <=? 8202)) || (u =? 8232) || (u =? 8233)
   || (u =? 8239) || (u =? 8287) || (u =? 12288) || (u =? 65279))%N.

(** The character that stands for the code unit [u]. *)
Definition unit_char (u : N) : ascii :=
  if (u <? 256)%N then ascii_of_N u
  else if is_high_blank u then ascii_of_N 160
  else ascii_of_N 255.

Definition hex4 (a b c d : ascii) : option N :=
  if is_hex a && is_hex b && is_hex c && is_hex d
  then Some (Z.to_N (radix_val_from 16 0
               (String a (String b (String c (String d EmptyString))))))
  else None.

(** The characters of a string literal after its opening quote, and what
    follows the closing quote. A control character may not appear raw. *)
Fixpoint scan_string (s : string) : option (string * string) :=
  match s with
  | EmptyString => None
  | String c rest =>
      if Ascii.eqb c "034" then Some (EmptyString, rest)
      else if Ascii.eqb c "\" then
        match rest with
        | String e rest1 =>
            match escape e with
            | Some ch =>
                match scan_string rest1 with
                | Some (t, r) => Some (String ch t, r)
                | None => None
                end
            | None =>
                if Ascii.eqb e "u" then
                  match rest1 with
                  | String h1 (String h2 (String h3 (String h4 rest5))) =>
                      match hex4 h1 h2 h3 h4 with
                      | Some u =>
                          match scan_string rest5 with
                          | Some (t, r) => Some (String (unit_char u) t, r)
                          | None => None
                          end
                      | None => None
                      end
                  | _ => None
                  end
                else None
            end
        | EmptyString => None
        end
      else if code c <? 32 then None
      else
        match scan_string rest with
        | Some (t, r) => Some (String c t, r)
        | None => None
        end
  end.

(** A number literal at the head of [s]: an optional minus, an integer part
    without a superfluous leading zero, an optional fraction and an optional
    exponent, both with at least one digit. *)
Definition scan_number (s : string) : option (float * string) :=
  let (neg, u) :=
    match s with
    | String "-" r => (true, r)
    | _ => (false, s)
    end in
  let int_part :=
    match u with
    | String "0" r => Some ("0", r)
    | _ => run1 is_digit u
    end in
  match int_part with
  | None => None
  | Some (ip, r1) =>
      let frac :=
        match r1 with
        | String "." r2 => run1 is_digit r2
        | _ => Some (EmptyString, r1)
        end in
      match frac with
      | None => None
      | Some (fp, r3) =>
          let expo :=
            match r3 with
            | String c r4 =>
                if Ascii.eqb c "e" || Ascii.eqb c "E" then
                  let (eneg, r5) := scan_sign r4 in
                  match run1 is_digit r5 with
                  | Some (d, r6) =>
                      Some ((if eneg then - digits_val d else digits_val d)%Z,
                            r6)
                  | None => None
                  end
                else Some (0%Z, r3)
            | EmptyString => Some (0%Z, r3)
            end in
          match expo with
          | None => None
          | Some (ex, r7) =>
              Some (with_sign neg
                      (of_decimal (digits_val (ip ++ fp))
                         (ex - Z.of_nat (String.length fp))),
                    r7)
          end
      end
  end.

(** A value at the head of [s], and what follows it. An object keeps its
    members latest first, so that of two members with the same key the later
    one is the one looked up. Each call reads at least one character, so
    that a fuel of twice the length of the text is never used up. *)
Fixpoint parse_value (fuel : nat) (s : string) {struct fuel}
  : option (value * string) :=
  match fuel with
  | O => None
  | S n =>
      match s with
      | EmptyString => None
      | String c r =>
          if Ascii.eqb c "{" then
            match skip_ws r with
            | String "}" r' => Some (Obj [], r')
            | r' => parse_members n r' []
            end
          else if Ascii.eqb c "[" then
            match skip_ws r with
            | String "]" r' => Some (Arr [], r')
            | r' => parse_elements n r' []
            end
          else if Ascii.eqb c "034" then
            match scan_string r with
            | Some (t, r') => Some (Str t, r')
            | None => None
            end
          else
            match strip_prefix "true" s, strip_prefix "false" s,
                  strip_prefix "null" s with
            | Some r', _, _ => Some (Bool true, r')
            | _, Some r', _ => Some (Bool false, r')
            | _, _, Some r' => Some (Null, r')
            | None, None, None =>
                match scan_number s with
                | Some (x, r') => Some (Num x, r')
                | None => None
                end
            end
      end
  end

with parse_elements (fuel : nat) (s : string) (acc : list value) {struct fuel}
  : option (value * string) :=
  match fuel with
  | O => None
  | S n =>
      match parse_value n s with
      | Some (v, r) =>
          match skip_ws r with
          | String "," r' => parse_elements n (skip_ws r') (v :: acc)
          | String "]" r' => Some (Arr (rev (v :: acc)), r')
          | _ => None
          end
      | None => None
      end
  end

with parse_members (fuel : nat) (s : string) (acc : list (string * value))
  {struct fuel} : option (value * string) :=
  match fuel with
  | O => None
  | S n =>
      match s with
      | String "034" r =>
          match scan_string r with
          | Some (k, r1) =>
              match skip_ws r1 with
              | String ":" r2 =>
                  match parse_value n (skip_ws r2) with
                  | Some (v, r3) =>
                      match skip_ws r3 with
                      | String "," r' =>
                          parse_members n (skip_ws r') ((k, v) :: acc)
                      | String "}" r' => Some (Obj ((k, v) :: acc), r')
                      | _ => None
                      end
                  | None => None
                  end
              | _ => None
              end
          | None => None
          end
      | _ => None
      end
  end.

(** [JSON.parse(text)] *)
Definition parse (text : string) : result value :=
  let s := skip_ws text in
  match parse_value (2 * String.length s + 1) s with
  | Some (v, r) => if is_empty (skip_ws r) then Ok v else Throw SyntaxError
  | None => Throw SyntaxError
  end.

End JSON.

(** ** The patterns the decoder matches a payload against

    Every pattern of the page is a literal followed by runs of one character
    class, each run closed by a literal outside the class or by nothing: the
    greedy run is then the only way the pattern can match at a position,
    and the match is the one at the leftmost such position. *)

Module Pattern.

Import Text.

Definition obind {A B : Type} (o : option A) (k : A -> option B) : option B :=
  match o with
  | Some a => k a
  | None => None
  end.

Notation "x <-o c ;; k" := (obind c (fun x => k))
  (at level 61, c at next level, right associativity).

(** [lit(\d+)] at the head of [s]: the digits, and the rest. *)
Definition lit_digits_at (lit s : string) : option (string * string) :=
  r <-o strip_prefix lit s ;; run1 is_digit r.

(** [s.match(/lit(\d+)/)?.[1]] *)
Definition capture_digits (lit s : string) : option string :=
  search (fun t => p <-o lit_digits_at lit t ;; Some (fst p)) s.

(** [s.match(/lit(\w+)/)?.[1]] *)
Definition capture_word (lit s : string) : option string :=
  search (fun t => r <-o strip_prefix lit t ;;
                   p <-o run1 is_word r ;; Some (fst p)) s.

(** [s.match(/lit(\d+)$/)?.[1]] *)
Definition capture_digits_at_end (lit s : string) : option string :=
  search (fun t => p <-o lit_digits_at lit t ;;
                   if Number.is_empty (snd p) then Some (fst p) else None) s.

(** [s.match(/^P\d+T\d+H\d+W\d+A\d+H\d+$/)] as a condition *)
Definition is_ultra_short (s : string) : bool :=
  match
    (p1 <-o lit_digits_at "P" s ;;
     p2 <-o lit_digits_at "T" (snd p1) ;;
     p3 <-o lit_digits_at "H" (snd p2) ;;
     p4 <-o lit_digits_at "W" (snd p3) ;;
     p5 <-o lit_digits_at "A" (snd p4) ;;
     p6 <-o lit_digits_at "H" (snd p5) ;;
     Some (Number.is_empty (snd p6)))
  with
  | Some b => b
  | None => false
  end.

(** [\s*(class+)lit] at the head of [s]: the run, and what follows [lit]. *)
Definition field_at (class : ascii -> bool) (lit s : string)
  : option (string * string) :=
  p <-o run1 class (skip_spaces s) ;;
  r <-o strip_prefix lit (snd p) ;;
  Some (fst p, r).

(** [/BME:\s*([\d.]+)C,\s*([\d.]+)hPa,\s*([\d.]+)%/] *)
Definition match_bme (s : string) : option (string * string * string) :=
  search (fun t =>
    r0 <-o strip_prefix "BME:" t ;;
    f1 <-o field_at is_digit_or_dot "C," r0 ;;
    f2 <-o field_at is_digit_or_dot "hPa," (snd f1) ;;
    f3 <-o field_at is_digit_or_dot "%" (snd f2) ;;
    Some (fst f1, fst f2, fst f3)) s.

(** [/Soil:\s*(\d+)%,\s*(\d+)%,\s*(\d+)%/] *)
Definition match_soil (s : string) : option (string * string * string) :=
  search (fun t =>
    r0 <-o strip_prefix "Soil:" t ;;
    f1 <-o field_at is_digit "%," r0 ;;
    f2 <-o field_at is_digit "%," (snd f1) ;;
    f3 <-o field_at is_digit "%" (snd f2) ;;
    Some (fst f1, fst f2, fst f3)) s.

(** [/Water:\s*([\d.]+)%,\s*([\d.]+)%/] *)
Definition match_water (s : string) : option (string * string) :=
  search (fun t =>
    r0 <-o strip_prefix "Water:" t ;;
    f1 <-o field_at is_digit_or_dot "%," r0 ;;
    f2 <-o field_at is_digit_or_dot "%" (snd f1) ;;
    Some (fst f1, fst f2)) s.

(** [/Pompa:\s*(\w+),\s*(\w+)/] *)
Definition match_pompa (s : string) : option (string * string) :=
  search (fun t =>
    r0 <-o strip_prefix "Pompa:" t ;;
    f1 <-o field_at is_word "," r0 ;;
    f2 <-o run1 is_word (skip_spaces (snd f1)) ;;
    Some (fst f1, fst f2)) s.

(** The capture of the compact temperature pattern: after [temp=], one or
    more digits, an optional dot and any further digits. *)
Definition capture_temp (s : string) : option string :=
  search (fun t =>
    r0 <-o strip_prefix "temp=" t ;;
    p <-o run1 is_digit r0 ;;
    match snd p with
    | String "." r1 => Some (fst p ++ "." ++ fst (span is_digit r1))
    | _ => Some (fst p)
    end) s.

End Pattern.

(** ** The dashboard page: its state *)

Module Page.

Import Text Number JS Pattern.

(** The fields hold whatever the decoder stores: the nested and the legacy
    JSON branches store values of the payload as they are. The three series
    are [Undefined] when the stored object has none. *)
Record Sensors : Type := mkSensors {
  pressure : value;
  soilTemp : value;
  soilHumidity : value;
  waterLevel : value;
  airTemp : value;
  airHumidity : value;
  ds_t : value;
  soil : value;
  water : value
}.

Record Pumps : Type := mkPumps {
  irrigation : value;
  suction : value
}.

Record Valves : Type := mkValves {
  valve1 : value;
  valve2 : value;
  valve3 : value
}.

(** A line of the log is named after the [addLog] call that writes it, with
    texts it interpolates; its wording and its time stamp are left out. *)
Inductive log : Type :=
| System_initialized
| Received (topic head : string)
| Irrigation_pump (state : string)
| Suction_pump (state : string)
| Test_message (payload : string)
| STM32_JSON
| Legacy_JSON
| Simple_JSON
| STM32_simple (counter : string)
| STM32_ultra_short (pressure soilTemp waterLevel : string)
| STM32_BME280
| STM32_comprehensive (soilTemp airTemp pressure : string)
| STM32_compact (temp hum : string)
| STM32_Status (status uptime : string)
| Unknown_data_format (payload : string)
| Failed_to_parse (e : exn)
| Raw_payload (head : string)
| Unhandled_topic (topic head : string)
| Control_pump (type : string)
| Command_not_saved
| Command_logged
| Client_not_initialized
| Not_connected (reconnecting : bool)
| Publish_failed
| All_pumps_stopped
| Using_serverless_API
| API_ok
| Control_failed
| API_error.

Record State : Type := mkState {
  sensors : Sensors;
  pumps : Pumps;
  valves : Valves;
  dataSource : string;
  logs : list log;
  showPopup : bool
}.

(** The state the page starts with ([useState]). *)
Definition initial : State :=
  {| sensors := {| pressure := Num 825; soilTemp := Num 25;
                   soilHumidity := Num 70; waterLevel := Num 10;
                   airTemp := Num 27; airHumidity := Num 65;
                   ds_t := Undefined; soil := Undefined; water := Undefined |};
     pumps := {| irrigation := Bool false; suction := Bool false |};
     valves := {| valve1 := Bool false; valve2 := Bool false;
                  valve3 := Bool false |};
     dataSource := "unknown";
     logs := [System_initialized];
     showPopup := false |}.

(** *** Statements: state changes that may throw *)

Definition M (A : Type) : Type := State -> State * result A.

Definition ret {A : Type} (a : A) : M A := fun st => (st, Ok a).

Definition bind {A B : Type} (m : M A) (k : A -> M B) : M B :=
  fun st =>
    match m st with
    | (st', Ok a) => k a st'
    | (st', Throw e) => (st', Throw e)
    end.

Notation "x <- c ;; k" := (bind c (fun x => k))
  (at level 61, c at next level, right associativity).
Notation "c ;;; k" := (bind c (fun _ => k))
  (at level 61, right associativity).

(** An expression evaluated for its value: the state stays. *)
Definition eval {A : Type} (r : result A) : M A := fun st => (st, r).

(** [try { body } catch (e) { handler }]: what [body] changed before it
    threw is kept. *)
Definition try_catch (body : M unit) (handler : exn -> M unit) : M unit :=
  fun st =>
    match body st with
    | (st', Ok a) => (st', Ok a)
    | (st', Throw e) => handler e st'
    end.

Definition setSensors (f : Sensors -> Sensors) : M unit :=
  fun st => (mkState (f (sensors st)) (pumps st) (valves st) (dataSource st)
               (logs st) (showPopup st), Ok tt).

Definition setPumps (f : Pumps -> Pumps) : M unit :=
  fun st => (mkState (sensors st) (f (pumps st)) (valves st) (dataSource st)
               (logs st) (showPopup st), Ok tt).

Definition setValves (f : Valves -> Valves) : M unit :=
  fun st => (mkState (sensors st) (pumps st) (f (valves st)) (dataSource st)
               (logs st) (showPopup st), Ok tt).

Definition setDataSource (tag : string) : M unit :=
  fun st => (mkState (sensors st) (pumps st) (valves st) tag
               (logs st) (showPopup st), Ok tt).

Definition setShowPopup (b : bool) : M unit :=
  fun st => (mkState (sensors st) (pumps st) (valves st) (dataSource st)
               (logs st) b, Ok tt).

(** [addLog]: the new line first, the ten latest lines kept. *)
Definition addLog (l : log) : M unit :=
  fun st => (mkState (sensors st) (pumps st) (valves st) (dataSource st)
               (firstn 10 (l :: logs st)) (showPopup st), Ok tt).

(** The tag the handler reads: the effect that installs the handler runs
    again whenever the tag changes, so that the handler sees the tag of the
    state. *)
Definition readDataSource : M string := fun st => (st, Ok (dataSource st)).

(** [s.substring(0, n)] *)
Definition head (n : nat) (s : string) : string := substring 0 n s.

(** *** The message handler: [client.on('message', ...)] *)

(** [process.env.NEXT_PUBLIC_MQTT_TOPIC || 'd02/telemetry'] *)
Definition TOPIC_TELEMETRY (env : option string) : string :=
  match env with
  | Some t => if is_empty t then "d02/telemetry" else t
  | None => "d02/telemetry"
  end.

(** [xs.reduce((a, b) => a + b, 0) / xs.length] *)
Definition mean (xs : value) : result value :=
  total <-r reduce xs add (Num 0) ;;
  n <-r get_length xs ;;
  div total n.

(** [xs.length > 0 ? xs.reduce((a, b) => a + b, 0) / xs.length : otherwise] *)
Definition mean_or (xs : value) (otherwise : value) : result value :=
  some <-r has_items xs ;;
  if some then mean xs else Ok otherwise.

(** [typeof data === 'object' && data.bme && data.bme.t !== undefined] *)
Definition is_stm32_json (data : value) : result bool :=
  if typeof_object data then
    bme <-r get data "bme" ;;
    if truthy bme then t <-r get bme "t" ;; Ok (is_defined t)
    else Ok false
  else Ok false.

(** [typeof data === 'object' && data.bme_t] *)
Definition is_legacy_json (data : value) : result bool :=
  if typeof_object data then bme_t <-r get data "bme_t" ;; Ok (truthy bme_t)
  else Ok false.

(** [typeof data === 'object' && typeof data.pressure === 'number' &&
    typeof data.soilTemp === 'number'] *)
Definition is_simple_json (data : value) : result bool :=
  if typeof_object data then
    p <-r get data "pressure" ;;
    if typeof_number p then st <-r get data "soilTemp" ;; Ok (typeof_number st)
    else Ok false
  else Ok false.

(** The nested JSON of the STM32 (lines 380 to 416). *)
Definition stm32_json (data : value) : M unit :=
  ds18b20 <- eval (get data "ds18b20") ;;
  let soilTemps := or_else ds18b20 (Arr []) in
  soil_ <- eval (get data "soil") ;;
  let soilMoisture := or_else soil_ (Arr []) in
  water_ <- eval (get data "water") ;;
  let waterLevels := or_else water_ (Arr []) in
  valve_ <- eval (get data "valve") ;;
  let valves_ := or_else valve_ (Arr [Num 0; Num 0; Num 0]) in
  pump_ <- eval (get data "pump") ;;
  let pumps_ := or_else pump_ (Arr [Num 0; Num 0]) in
  validSoilTemps <- eval (filter soilTemps (fun temp => gt temp (-100))) ;;
  bme <- eval (get data "bme") ;;
  avgSoilTemp <- eval (some <-r has_items validSoilTemps ;;
                       if some then mean validSoilTemps else get bme "t") ;;
  p <- eval (get bme "p") ;;
  t <- eval (get bme "t") ;;
  h <- eval (get bme "h") ;;
  sh <- eval (mean_or soilMoisture (Num 0)) ;;
  wl <- eval (mean_or waterLevels (Num 0)) ;;
  setSensors (fun _ =>
    {| pressure := p; airTemp := t; airHumidity := h; soilTemp := avgSoilTemp;
       soilHumidity := sh; waterLevel := wl;
       ds_t := soilTemps; soil := soilMoisture; water := waterLevels |}) ;;;
  p0 <- eval (get_index pumps_ 0) ;;
  p1 <- eval (get_index pumps_ 1) ;;
  setPumps (fun _ =>
    {| irrigation := Bool (is_one p0); suction := Bool (is_one p1) |}) ;;;
  v0 <- eval (get_index valves_ 0) ;;
  v1 <- eval (get_index valves_ 1) ;;
  v2 <- eval (get_index valves_ 2) ;;
  setValves (fun _ =>
    {| valve1 := Bool (is_one v0); valve2 := Bool (is_one v1);
       valve3 := Bool (is_one v2) |}) ;;;
  setDataSource "stm32-json" ;;;
  eval (toFixed t) ;;;
  eval (ToString p) ;;;
  mode <- eval (get data "mode") ;;
  eval (ToString mode) ;;;
  eval (ToString p0) ;;;
  eval (ToString p1) ;;;
  addLog STM32_JSON.

(** The legacy flat JSON (lines 420 to 448). *)
Definition legacy_json (data : value) : M unit :=
  ds_t_ <- eval (get data "ds_t") ;;
  let soilTemps := or_else ds_t_ (Arr []) in
  soil0 <- eval (get data "soil0") ;;
  soil1 <- eval (get data "soil1") ;;
  soil2 <- eval (get data "soil2") ;;
  let soilMoisture := Arr [soil0; soil1; soil2] in
  water1 <- eval (get data "water1") ;;
  water2 <- eval (get data "water2") ;;
  let waterLevels := Arr [water1; water2] in
  p <- eval (get data "bme_p") ;;
  t <- eval (get data "bme_t") ;;
  h <- eval (get data "bme_h") ;;
  st_ <- eval (mean_or soilTemps (Num 0)) ;;
  sh <- eval (mean soilMoisture) ;;
  wl <- eval (mean waterLevels) ;;
  setSensors (fun _ =>
    {| pressure := p; airTemp := t; airHumidity := h; soilTemp := st_;
       soilHumidity := sh; waterLevel := wl;
       ds_t := soilTemps; soil := soilMoisture; water := waterLevels |}) ;;;
  pump1 <- eval (get data "pump1") ;;
  pump2 <- eval (get data "pump2") ;;
  setPumps (fun _ => {| irrigation := pump1; suction := pump2 |}) ;;;
  v1 <- eval (get data "valve1") ;;
  v2 <- eval (get data "valve2") ;;
  v3 <- eval (get data "valve3") ;;
  setValves (fun _ => {| valve1 := v1; valve2 := v2; valve3 := v3 |}) ;;;
  setDataSource "mqtt-json-legacy" ;;;
  addLog Legacy_JSON.

(** The old flat JSON (lines 450 to 459). *)
Definition simple_json (data : value) : M unit :=
  p <- eval (get data "pressure") ;;
  st_ <- eval (get data "soilTemp") ;;
  sh <- eval (get data "soilHumidity") ;;
  wl <- eval (get data "waterLevel") ;;
  at_ <- eval (get data "airTemp") ;;
  ah <- eval (get data "airHumidity") ;;
  setSensors (fun prev =>
    {| pressure := nullish p (pressure prev);
       soilTemp := nullish st_ (soilTemp prev);
       soilHumidity := nullish sh (soilHumidity prev);
       waterLevel := nullish wl (waterLevel prev);
       airTemp := nullish at_ (airTemp prev);
       airHumidity := nullish ah (airHumidity prev);
       ds_t := Undefined; soil := Undefined; water := Undefined |}) ;;;
  setDataSource "mqtt-json-simple" ;;;
  addLog Simple_JSON.

(** The JSON branch (lines 376 to 460): a parsed payload of none of the three
    shapes is dropped without a word. *)
Definition json_branch (payloadStr : string) : M unit :=
  data <- eval (JSON.parse payloadStr) ;;
  nested <- eval (is_stm32_json data) ;;
  if nested then stm32_json data
  else
    legacy <- eval (is_legacy_json data) ;;
    if legacy then legacy_json data
    else
      simple <- eval (is_simple_json data) ;;
      if simple then simple_json data
      else ret tt.

(** A capture used as a condition: it is there and not empty. *)
Definition present (cap : option string) : bool :=
  match cap with
  | Some c => negb (is_empty c)
  | None => false
  end.

(** [cap || other] *)
Definition text_or (cap : option string) (other : string) : string :=
  match cap with
  | Some c => if is_empty c then other else c
  | None => other
  end.

(** [parseInt(cap) || prev] *)
Definition parseInt_or (cap : string) (prev : value) : value :=
  or_else (Num (parseInt cap)) prev.

(** The six fields of the positional and of the key=value formats, each
    [parseInt(...) || prev....] (lines 476 to 483, 499 to 506, 576 to 583). *)
Definition six_fields (p st_ sh wl at_ ah : string) (prev : Sensors) : Sensors :=
  {| pressure := parseInt_or p (pressure prev);
     soilTemp := parseInt_or st_ (soilTemp prev);
     soilHumidity := parseInt_or sh (soilHumidity prev);
     waterLevel := parseInt_or wl (waterLevel prev);
     airTemp := parseInt_or at_ (airTemp prev);
     airHumidity := parseInt_or ah (airHumidity prev);
     ds_t := Undefined; soil := Undefined; water := Undefined |}.

(** The prefixed positional format (lines 464 to 486). *)
Definition stm32_simple (payloadStr : string) : M unit :=
  let cleanData := replace payloadStr "STM32_DATA_" "" in
  let pressure_ := capture_digits "P" cleanData in
  let soilTemp_ := capture_digits "ST" cleanData in
  let soilHumidity_ := capture_digits "SH" cleanData in
  let waterLevel_ := capture_digits "WL" cleanData in
  let airTemp_ := capture_digits "AT" cleanData in
  let airHumidity_ := capture_digits "AH" cleanData in
  let counter := capture_digits "C" cleanData in
  if present pressure_ && present soilTemp_ then
    setSensors (six_fields (text_or pressure_ "") (text_or soilTemp_ "")
                  (text_or soilHumidity_ "0") (text_or waterLevel_ "0")
                  (text_or airTemp_ "0") (text_or airHumidity_ "0")) ;;;
    setDataSource "stm32-simple" ;;;
    addLog (STM32_simple (text_or counter "0"))
  else ret tt.

(** The ultra-short positional format (lines 491 to 509). *)
Definition stm32_ultra (payloadStr : string) : M unit :=
  let pressure_ := capture_digits "P" payloadStr in
  let soilTemp_ := capture_digits "T" payloadStr in
  let soilHumidity_ := capture_digits "H" payloadStr in
  let waterLevel_ := capture_digits "W" payloadStr in
  let airTemp_ := capture_digits "A" payloadStr in
  let airHumidity_ := capture_digits_at_end "H" payloadStr in
  if present pressure_ && present soilTemp_ then
    setSensors (six_fields (text_or pressure_ "") (text_or soilTemp_ "")
                  (text_or soilHumidity_ "0") (text_or waterLevel_ "0")
                  (text_or airTemp_ "0") (text_or airHumidity_ "0")) ;;;
    setDataSource "stm32-ultra" ;;;
    addLog (STM32_ultra_short (text_or pressure_ "") (text_or soilTemp_ "")
              (text_or waterLevel_ "0"))
  else ret tt.

(** The BME summary (lines 514 to 562). *)
Definition stm32_bme280 (payloadStr : string) : M unit :=
  let bmeMatch := match_bme payloadStr in
  let soilMatch := match_soil payloadStr in
  let waterMatch := match_water payloadStr in
  let pompaMatch := match_pompa payloadStr in
  match bmeMatch with
  | Some (b1, b2, b3) =>
      let airTemp_ := parseFloat b1 in
      let pressure_ := parseFloat b2 in
      let airHumidity_ := parseFloat b3 in
      let avgSoilHumidity :=
        match soilMatch with
        | Some (s1, s2, s3) =>
            Math_round ((parseInt s1 + parseInt s2 + parseInt s3) / 3)
        | None => 0%float
        end in
      let avgWaterLevel :=
        match waterMatch with
        | Some (w1, w2) => Math_round ((parseFloat w1 + parseFloat w2) / 2)
        | None => 0%float
        end in
      setSensors (fun prev =>
        {| pressure := or_else (Num pressure_) (pressure prev);
           soilTemp := or_else (Num airTemp_) (soilTemp prev);
           soilHumidity := or_else (Num avgSoilHumidity) (soilHumidity prev);
           waterLevel := or_else (Num avgWaterLevel) (waterLevel prev);
           airTemp := or_else (Num airTemp_) (airTemp prev);
           airHumidity := or_else (Num airHumidity_) (airHumidity prev);
           ds_t := Undefined; soil := Undefined; water := Undefined |}) ;;;
      match pompaMatch with
      | Some (pump1, pump2) =>
          setPumps (fun _ =>
            {| irrigation := Bool (String.eqb pump1 "ON");
               suction := Bool (String.eqb pump2 "ON") |})
      | None => ret tt
      end ;;;
      setDataSource "stm32-bme280" ;;;
      addLog STM32_BME280
  | None => ret tt
  end.

(** The key=value format (lines 567 to 586). *)
Definition stm32_comprehensive (payloadStr : string) : M unit :=
  let soilTemp_ := capture_digits "st=" payloadStr in
  let airTemp_ := capture_digits "at=" payloadStr in
  let soilHum := capture_digits "sh=" payloadStr in
  let airHum := capture_digits "ah=" payloadStr in
  let pressure_ := capture_digits "p=" payloadStr in
  let waterLevel_ := capture_digits "wl=" payloadStr in
  if present soilTemp_ && present airTemp_ && present pressure_ then
    setSensors (six_fields (text_or pressure_ "") (text_or soilTemp_ "")
                  (text_or soilHum "0") (text_or waterLevel_ "0")
                  (text_or airTemp_ "") (text_or airHum "0")) ;;;
    setDataSource "stm32-comprehensive" ;;;
    addLog (STM32_comprehensive (text_or soilTemp_ "") (text_or airTemp_ "")
              (text_or pressure_ ""))
  else ret tt.

(** The compact format (lines 591 to 606). *)
Definition stm32_compact (payloadStr : string) : M unit :=
  let temp := capture_temp payloadStr in
  let hum := capture_digits "hum=" payloadStr in
  if present temp && present hum then
    let t := Num (Math_round (parseFloat (text_or temp ""))) in
    let h := Num (parseInt (text_or hum "")) in
    setSensors (fun prev =>
      {| pressure := pressure prev;
         soilTemp := or_else t (soilTemp prev);
         soilHumidity := or_else h (soilHumidity prev);
         waterLevel := waterLevel prev;
         airTemp := or_else t (airTemp prev);
         airHumidity := or_else h (airHumidity prev);
         ds_t := Undefined; soil := Undefined; water := Undefined |}) ;;;
    setDataSource "stm32-compact" ;;;
    addLog (STM32_compact (text_or temp "") (text_or hum ""))
  else ret tt.

(** The status format (lines 610 to 619). *)
Definition stm32_status (payloadStr : string) : M unit :=
  let status := capture_word "status=" payloadStr in
  let uptime := capture_digits "uptime=" payloadStr in
  if present status && present uptime then
    addLog (STM32_Status (toUpperCase (text_or status ""))
              (text_or uptime "")) ;;;
    tag <- readDataSource ;;
    if negb (String.eqb tag "stm32-comprehensive")
       && negb (String.eqb tag "stm32-compact")
    then setDataSource "stm32-status"
    else ret tt
  else ret tt.

(** The chain of format tests on a telemetry payload (lines 375 to 623). *)
Definition decode (payloadStr : string) : M unit :=
  if startsWith payloadStr "{" then json_branch payloadStr
  else if includes payloadStr "STM32_DATA_"
          || includes payloadStr "P" && includes payloadStr "_"
  then stm32_simple payloadStr
  else if is_ultra_short payloadStr then stm32_ultra payloadStr
  else if includes payloadStr "BME:" && includes payloadStr "Soil:"
          && includes payloadStr "Water:"
  then stm32_bme280 payloadStr
  else if includes payloadStr "st=" && includes payloadStr "at="
          && includes payloadStr "p="
  then stm32_comprehensive payloadStr
  else if includes payloadStr "temp=" && includes payloadStr "hum="
  then stm32_compact payloadStr
  else if includes payloadStr "status=" && includes payloadStr "uptime="
  then stm32_status payloadStr
  else addLog (Unknown_data_format payloadStr).

(** A message on [d02/status] (lines 340 to 360). *)
Definition status_topic (payloadStr : string) : M unit :=
  (if includes payloadStr "pump_irrigation=" then
     let irrigationState := capture_word "pump_irrigation=" payloadStr in
     if present irrigationState then
       setPumps (fun prev =>
         {| irrigation := Bool (String.eqb (text_or irrigationState "") "ON");
            suction := suction prev |}) ;;;
       addLog (Irrigation_pump (text_or irrigationState ""))
     else ret tt
   else ret tt) ;;;
  (if includes payloadStr "pump_suction=" then
     let suctionState := capture_word "pump_suction=" payloadStr in
     if present suctionState then
       setPumps (fun prev =>
         {| irrigation := irrigation prev;
            suction := Bool (String.eqb (text_or suctionState "") "ON") |}) ;;;
       addLog (Suction_pump (text_or suctionState ""))
     else ret tt
   else ret tt).

(** A message on [test] (lines 365 to 371). *)
Definition test_topic (payloadStr : string) : M unit :=
  addLog (Test_message payloadStr) ;;;
  tag <- readDataSource ;;
  if String.eqb tag "unknown" || String.eqb tag "awaiting-mqtt"
  then setDataSource "mqtt-test"
  else ret tt.

(** The handler (lines 334 to 635); [telemetry] is [TOPIC_TELEMETRY]. *)
Definition on_message (telemetry topic payloadStr : string) : M unit :=
  if String.eqb topic telemetry || String.eqb topic "d02/status"
     || String.eqb topic "d02/telemetry" || String.eqb topic "test"
  then
    try_catch
      (addLog (Received topic (head 80 payloadStr)) ;;;
       if String.eqb topic "d02/status" then status_topic payloadStr
       else if String.eqb topic "test" then test_topic payloadStr
       else decode payloadStr)
      (fun parseError =>
         addLog (Failed_to_parse parseError) ;;;
         addLog (Raw_payload (head 100 payloadStr)))
  else addLog (Unhandled_topic topic (head 50 payloadStr)).

(** The state after a message. *)
Definition after_message (telemetry topic payloadStr : string) (st : State)
  : State :=
  fst (on_message telemetry topic payloadStr st).

(** The topics whose payload goes through the chain of formats: the
    telemetry topics, unless they are [d02/status] or [test], which the
    handler serves first. *)
Definition is_telemetry_topic (telemetry topic : string) : bool :=
  (String.eqb topic telemetry || String.eqb topic "d02/telemetry")
  && negb (String.eqb topic "d02/status") && negb (String.eqb topic "test").

(** *** What statements leave alone *)

(** The statements [m] never change the part [f] of the state. *)
Definition keeps {A B : Type} (f : State -> B) (m : M A) : Prop :=
  forall st, f (fst (m st)) = f st.



(** A text that stands for no reading: the capture is absent, or what
    [parseInt] makes of it is zero. *)
Definition zero_or_absent (cap : option string) : Prop :=
  PrimFloat.eqb (parseInt (text_or cap "0")) 0 = true.

(** The state after the statements [m] is related by [R] to the state
    before them. *)
Definition steps {A : Type} (R : State -> State -> Prop) (m : M A) : Prop :=
  forall st, R st (fst (m st)).


(** From any two states the statements [m] treat the part [f] alike: they
    keep it in both, or they give it the same value in both. *)
Definition same_on {A B : Type} (f : State -> B) (m : M A) : Prop :=
  forall st st',
    (f (fst (m st)) = f st /\ f (fst (m st')) = f st')
    \/ f (fst (m st)) = f (fst (m st')).


(** The tags the handler sets. *)
Definition handler_tags : list string :=
  ["stm32-json"; "mqtt-json-legacy"; "mqtt-json-simple"; "stm32-simple";
   "stm32-ultra"; "stm32-bme280"; "stm32-comprehensive"; "stm32-compact";
   "stm32-status"; "mqtt-test"].

(** The six readings are numbers. *)
Definition all_numbers (s : Sensors) : bool :=
  typeof_number (pressure s) && typeof_number (soilTemp s)
  && typeof_number (soilHumidity s) && typeof_number (waterLevel s)
  && typeof_number (airTemp s) && typeof_number (airHumidity s).

(** [typeof v === 'boolean'] *)
Definition typeof_boolean (v : value) : bool :=
  match v with
  | Bool _ => true
  | _ => false
  end.

(** The sensor grid of the page (lines 949 to 970): each of five readings
    is shown through [toFixed(1)]. *)
Definition render_readings (s : Sensors) : result unit :=
  _ <-r toFixed (soilTemp s) ;;
  _ <-r toFixed (soilHumidity s) ;;
  _ <-r toFixed (waterLevel s) ;;
  _ <-r toFixed (airTemp s) ;;
  toFixed (airHumidity s).

(** The relation [Q] between the part [f] of two states. *)
Definition on {B : Type} (f : State -> B) (Q : B -> B -> Prop)
  : State -> State -> Prop :=
  fun a b => Q (f a) (f b).

(** A log of at most ten lines stays one. *)
Definition stays_short (l l' : list log) : Prop :=
  (List.length l <= 10)%nat -> (List.length l' <= 10)%nat.

(** The tag stays, or becomes one of [tags]. *)
Definition tag_among (tags : list string) (t t' : string) : Prop :=
  t' = t \/ In t' tags.

(** Readings that are numbers stay numbers. *)
Definition stay_numbers (s s' : Sensors) : Prop :=
  all_numbers s = true -> all_numbers s' = true.

(** Pump states that are booleans stay booleans. *)
Definition stay_booleans (p p' : Pumps) : Prop :=
  typeof_boolean (irrigation p) && typeof_boolean (suction p) = true ->
  typeof_boolean (irrigation p') && typeof_boolean (suction p') = true.

(** A value is kept, or gives way to a number of the payload that is
    neither zero nor NaN. *)
Definition kept_or_read (v v' : value) : Prop :=
  v' = v \/ exists x, v' = Num x /\ truthy (Num x) = true.

(** Each of the six readings is kept or read; the series are not counted. *)
Definition readings_kept_or_read (s s' : Sensors) : Prop :=
  kept_or_read (pressure s) (pressure s')
  /\ kept_or_read (soilTemp s) (soilTemp s')
  /\ kept_or_read (soilHumidity s) (soilHumidity s')
  /\ kept_or_read (waterLevel s) (waterLevel s')
  /\ kept_or_read (airTemp s) (airTemp s')
  /\ kept_or_read (airHumidity s) (airHumidity s').

(** A value is kept, or gives way to a boolean. *)
Definition kept_or_switched (v v' : value) : Prop :=
  v' = v \/ exists b, v' = Bool b.

(** Each of the two pump states is kept or switched. *)
Definition pumps_kept_or_switched (p p' : Pumps) : Prop :=
  kept_or_switched (irrigation p) (irrigation p')
  /\ kept_or_switched (suction p) (suction p').

End Page.

(** ** Series of numbers *)

Module Series.

Import Number JS.

(** The array of the numbers [l]. *)
Definition nums (l : list float) : value := Arr (map Num l).

(** The member [v] of a payload is the series [l]: the array of these
    numbers, or no member at all for the empty series. *)
Definition is_series (v : value) (l : list float) : Prop :=
  v = nums l \/ (v = Undefined /\ l = []).

(** The numbers added from the left, starting from 0. *)
Definition sum (l : list float) : float := fold_left PrimFloat.add l 0%float.

(** The arithmetic mean in binary64. *)
Definition average (l : list float) : float :=
  (sum l / num_of_nat (List.length l))%float.

(** The mean of a series, and [otherwise] when it is empty. *)
Definition average_or (l : list float) (otherwise : value) : value :=
  match l with
  | [] => otherwise
  | _ :: _ => Num (average l)
  end.

(** The soil temperatures that are no fault value: those above -100. *)
Definition valid (temps : list float) : list float :=
  List.filter (fun x => PrimFloat.ltb (-100) x) temps.

End Series.

(** ** The command dispatcher of the page, and the pump relay route *)

Module Dispatch.

Import Text Number JS Page.

(** What leaves the page or the route. *)
Inductive effect : Type :=
| Db_insert (command pump_type source : string)
| Mqtt_publish (topic payload : string)
| Http_post (url : string) (command : string) (duration_seconds : float).

(** The MQTT client of the page as [publishPumpControl] sees it. *)
Record Client : Type := mkClient {
  connected : bool;
  reconnecting : bool;
  publish_throws : bool
}.

(** What the insert into [pump_commands] meets: the library cannot be loaded
    or set up (an exception, caught in silence), the insert is refused, or
    the row is saved. *)
Inductive db_outcome : Type :=
| Db_unavailable
| Db_refused
| Db_saved.

(** What [fetch('/api/pump')] brings back: nothing (the call or the reading
    of the body fails), or a reply with its [ok] flag and the truth of its
    [success] member. *)
Inductive reply : Type :=
| No_reply
| Reply (ok success : bool).

Record Env : Type := mkEnv {
  client : option Client;
  db : db_outcome;
  fetch : string -> reply
}.

(** [publishPumpControl(type)] (lines 649 to 701): the state after it, what
    it returned and what it sent. The line the publish callback logs later
    is not part of the call. *)
Definition publishPumpControl (c : option Client) (type : string) (st : State)
  : State * bool * list effect :=
  match c with
  | None => (fst (addLog Client_not_initialized st), false, [])
  | Some cl =>
      if negb (connected cl)
      then (fst (addLog (Not_connected (reconnecting cl)) st), false, [])
      else
        let payload := toUpperCase type in
        if publish_throws cl
        then (fst (addLog Publish_failed st), false, [])
        else (st, true, [Mqtt_publish "d02/cmd" payload])
  end.

(** The row [controlPump] saves (lines 717 to 747). *)
Definition save_command (d : db_outcome) (type : string) (st : State)
  : State * list effect :=
  let pumpType :=
    if String.eqb type "pompa" then "irrigation"
    else if String.eqb type "sedot" then "suction"
    else "unknown" in
  match d with
  | Db_unavailable => (st, [])
  | Db_refused =>
      (fst (addLog Command_not_saved st),
       [Db_insert (toUpperCase type) pumpType "manual"])
  | Db_saved =>
      (fst (addLog Command_logged st),
       [Db_insert (toUpperCase type) pumpType "manual"])
  end.

(** The update of the pumps for the eye, made at once (lines 753 to 761). *)
Definition optimistic_update (type : string) : M unit :=
  if String.eqb type "pompa" then
    setPumps (fun prev =>
      {| irrigation := Bool true; suction := suction prev |})
  else if String.eqb type "sedot" then
    setPumps (fun prev =>
      {| irrigation := irrigation prev; suction := Bool true |})
  else if String.eqb type "stop" then
    setPumps (fun _ =>
      {| irrigation := Bool false; suction := Bool false |}) ;;;
    addLog All_pumps_stopped
  else ret tt.

(** The fallback through the relay (lines 763 to 798). *)
Definition relay_fallback (f : string -> reply) (type : string) (st : State)
  : State * list effect :=
  let st1 := fst (addLog Using_serverless_API st) in
  let st2 :=
    match f type with
    | No_reply => fst (addLog API_error st1)
    | Reply false _ => fst (addLog API_error st1)
    | Reply true true =>
        fst ((setPumps (fun prev =>
                if String.eqb type "pompa"
                then {| irrigation := Bool true; suction := suction prev |}
                else {| irrigation := irrigation prev; suction := Bool true |})
              ;;; addLog API_ok) st1)
    | Reply true false => fst (addLog Control_failed st1)
    end in
  (st2, [Http_post "/api/pump" type 300]).

(** The part of [controlPump] that runs before the relay is tried: the log
    line, the saved row, the publish and the update for the eye (lines 705
    to 761). *)
Definition controlPump_publish (e : Env) (type : string) (st : State)
  : State * bool * list effect :=
  let st1 := fst (addLog (Control_pump type) st) in
  let '(st2, saved) := save_command (db e) type st1 in
  let '(st3, sentViaMqtt, sent) := publishPumpControl (client e) type st2 in
  let st4 := fst (optimistic_update type st3) in
  (st4, sentViaMqtt, (saved ++ sent)%list).

(** [controlPump(type)] (lines 704 to 804). *)
Definition controlPump (e : Env) (type : string) (st : State)
  : State * list effect :=
  let '(st4, sentViaMqtt, out) := controlPump_publish e type st in
  let '(st5, posted) :=
    if negb sentViaMqtt then relay_fallback (fetch e) type st4
    else (st4, []) in
  (fst (setShowPopup false st5), (out ++ posted)%list).

(** The publish of [publishPumpControl] goes through: there is a client, it
    is connected and its [publish] does not throw. *)
Definition can_publish (c : option Client) : bool :=
  match c with
  | Some cl => connected cl && negb (publish_throws cl)
  | None => false
  end.

(** An effect that carries a command towards the device. *)
Definition goes_out (x : effect) : bool :=
  match x with
  | Db_insert _ _ _ => false
  | Mqtt_publish _ _ | Http_post _ _ _ => true
  end.

End Dispatch.

(** ** The pump relay route: [POST] of [app/api/pump/route.ts] *)

Module Relay.

Import Text Number JS Dispatch.

(** What becomes of the route's one publish: the broker is not reached (an
    error, or no connection within the time allowed), or it is reached and
    the publish fails, is not confirmed in time, or is confirmed. *)
Inductive broker_outcome : Type :=
| Connect_error
| Connect_timeout
| Publish_error
| Publish_timeout
| Published.

Record Env : Type := mkEnv {
  supabase_configured : bool;
  MQTT_TOPIC_env : option string;
  broker : broker_outcome
}.

(** The answer of the route: a JSON body with a status and a [success]
    member; or none of the route's making, when an exception leaves the
    [connect] listener. *)
Inductive response : Type :=
| Json (status : nat) (success : bool)
| Listener_throws.

(** [process.env.MQTT_TOPIC || 'd02/cmd'] *)
Definition MQTT_TOPIC (e : Env) : string :=
  match MQTT_TOPIC_env e with
  | Some t => if is_empty t then "d02/cmd" else t
  | None => "d02/cmd"
  end.

(** [command?.toUpperCase()]: nothing for [undefined] and [null], the text
    in capitals for a string; any other value has no such method. *)
Definition upper_of (command : value) : result (option string) :=
  match command with
  | Undefined | Null => Ok None
  | Str s => Ok (Some (toUpperCase s))
  | _ => Throw TypeError
  end.

(** [['START', 'STOP', 'POMPA', 'SEDOT'].includes(x)] *)
Definition is_command (x : option string) : bool :=
  match x with
  | Some s =>
      existsb (String.eqb s) ["START"; "STOP"; "POMPA"; "SEDOT"]
  | None => false
  end.

(** The text the route publishes for the command [cmd] (in capitals). *)
Definition payload_of (cmd : string) (duration_seconds : value)
  : result string :=
  if String.eqb cmd "START" || String.eqb cmd "POMPA" then
    positive <-r gt duration_seconds 0 ;;
    if positive then d <-r ToString duration_seconds ;; Ok ("POMPA:" ++ d)
    else Ok "POMPA"
  else if String.eqb cmd "STOP" then Ok "STOP"
  else Ok cmd.

(** The statements of the route up to the broker connection: the body is
    read and taken apart, the database client made, the command checked.
    On the left an answer given there; on the right the command in capitals
    and the duration the route goes on with. *)
Definition check_command (e : Env) (body : result value)
  : response + (string * value) :=
  match
    (b <-r body ;;
     command <-r get b "command" ;;
     d <-r get b "duration_seconds" ;;
     let duration_seconds := match d with Undefined => Num 0 | _ => d end in
     _ <-r (if supabase_configured e then Ok tt else Throw OtherError) ;;
     up <-r upper_of command ;;
     Ok (up, duration_seconds))
  with
  | Throw _ => inl (Json 500 false)
  | Ok (up, duration_seconds) =>
      if negb (is_command up) then inl (Json 400 false)
      else
        match up with
        | Some cmd => inr (cmd, duration_seconds)
        | None => inl (Json 400 false)
        end
  end.

(** [POST(request)]: the answer and what the route sent. Whether the row of
    a confirmed command is saved does not change the answer. *)
Definition POST (e : Env) (body : result value) : response * list effect :=
  match check_command e body with
  | inl r => (r, [])
  | inr (cmd, duration_seconds) =>
      match broker e with
      | Connect_error | Connect_timeout => (Json 500 false, [])
      | after_connect =>
          match payload_of cmd duration_seconds with
          | Throw _ => (Listener_throws, [])
          | Ok payload =>
              match after_connect with
              | Published =>
                  let pumpType :=
                    if String.eqb cmd "POMPA" || String.eqb cmd "START"
                    then "irrigation" else "suction" in
                  (Json 200 true,
                   [Mqtt_publish (MQTT_TOPIC e) payload;
                    Db_insert cmd pumpType "api"])
              | _ => (Json 500 false, [Mqtt_publish (MQTT_TOPIC e) payload])
              end
          end
      end
  end.

(** [response.ok]: the status is from 200 to 299. *)
Definition ok_status (status : nat) : bool :=
  (200 <=? status)%nat && (status <=? 299)%nat.

(** What the page's [fetch] brings back from an answer of the route. With
    no answer of the route's making the page is left without a reply it can
    use, which it treats as it treats a reply that is not [ok]. *)
Definition reply_of (r : response) : reply :=
  match r with
  | Json status success => Reply (ok_status status) success
  | Listener_throws => No_reply
  end.

(** The page's [fetch] when the route with the environment [e] serves it:
    the body holds the command and the duration 300. *)
Definition fetch_from (e : Env) (type : string) : reply :=
  reply_of (fst (POST e
    (Ok (Obj [("command", Str type); ("duration_seconds", Num 300)])))).

End Relay.

(** ** The formats of a telemetry payload, and the order they are tried in *)

Module Formats.

Import Text Pattern JS Page.

Inductive format : Type :=
| Json
| Prefixed
| Ultra_short
| Summary
| Key_value
| Compact
| Status.

(** The test the handler makes for each format. *)
Definition test (f : format) (payloadStr : string) : bool :=
  match f with
  | Json => startsWith payloadStr "{"
  | Prefixed =>
      includes payloadStr "STM32_DATA_"
      || includes payloadStr "P" && includes payloadStr "_"
  | Ultra_short => is_ultra_short payloadStr
  | Summary =>
      includes payloadStr "BME:" && includes payloadStr "Soil:"
      && includes payloadStr "Water:"
  | Key_value =>
      includes payloadStr "st=" && includes payloadStr "at="
      && includes payloadStr "p="
  | Compact => includes payloadStr "temp=" && includes payloadStr "hum="
  | Status => includes payloadStr "status=" && includes payloadStr "uptime="
  end.

(** The statements the handler runs for each format. *)
Definition branch (f : format) : string -> M unit :=
  match f with
  | Json => json_branch
  | Prefixed => stm32_simple
  | Ultra_short => stm32_ultra
  | Summary => stm32_bme280
  | Key_value => stm32_comprehensive
  | Compact => stm32_compact
  | Status => stm32_status
  end.

(** The first format of [order] whose test the payload passes. *)
Definition first_match (order : list format) (payloadStr : string)
  : option format :=
  find (fun f => test f payloadStr) order.

(** A decoder that tries the formats in [order]. *)
Definition decode_in (order : list format) (payloadStr : string) : M unit :=
  match first_match order payloadStr with
  | Some f => branch f payloadStr
  | None => addLog (Unknown_data_format payloadStr)
  end.

(** The order of the [if]/[else if] chain of the handler. *)
Definition code_order : list format :=
  [Json; Prefixed; Ultra_short; Summary; Key_value; Compact; Status].

(** The order the specification gives: the JSON object, the key=value
    format, the BME summary, the prefixed positional format, the ultra-short
    positional format, the status format. *)
Definition spec_order : list format :=
  [Json; Key_value; Summary; Prefixed; Ultra_short; Status].

End Formats.

(** ** The text formats as their examples in the handler write them *)

Module Wire.

Import Text.

(** Every character of [s] is of the class [f]. *)
Fixpoint every (f : ascii -> bool) (s : string) : bool :=
  match s with
  | EmptyString => true
  | String c rest => f c && every f rest
  end.

(** The character [c] occurs in [s]. *)
Fixpoint occurs (c : ascii) (s : string) : bool :=
  match s with
  | EmptyString => false
  | String a rest => Ascii.eqb c a || occurs c rest
  end.

(** The text [b] does not begin with a character of the class [f]. *)
Definition head_off (f : ascii -> bool) (b : string) : bool :=
  match b with
  | EmptyString => true
  | String c _ => negb (f c)
  end.

(** A number as the formats write it: one or more digits. *)
Definition is_digits (d : string) : bool :=
  negb (Number.is_empty d) && every is_digit d.

(** ["P701T21H52W12A26H62"] (line 488) *)
Definition ultra_short (p st_ sh wl at_ ah : string) : string :=
  "P" ++ p ++ "T" ++ st_ ++ "H" ++ sh ++ "W" ++ wl ++ "A" ++ at_
  ++ "H" ++ ah.

(** ["STM32_DATA_P701_ST21_SH52_WL12_AT26_AH62_C1"] (line 462) *)
Definition prefixed (p st_ sh wl at_ ah c : string) : string :=
  "STM32_DATA_P" ++ p ++ "_ST" ++ st_ ++ "_SH" ++ sh ++ "_WL" ++ wl
  ++ "_AT" ++ at_ ++ "_AH" ++ ah ++ "_C" ++ c.

(** ["st=25,at=27,sh=65,ah=55,p=825,wl=18,c=1"] (line 564) *)
Definition key_value (st_ at_ sh ah p wl c : string) : string :=
  "st=" ++ st_ ++ ",at=" ++ at_ ++ ",sh=" ++ sh ++ ",ah=" ++ ah
  ++ ",p=" ++ p ++ ",wl=" ++ wl ++ ",c=" ++ c.

(** What [parseInt(d) || prev] stores for the digits [d]: their number,
    unless it is zero. *)
Definition reading (d : string) (prev : JS.value) : JS.value :=
  JS.or_else (JS.Num (Number.of_Z (Number.digits_val d))) prev.

End Wire.

(** ** Payloads and states used as examples *)

Module Examples.

Import Text JS Page Dispatch.

(** JSON text written with apostrophes for its double quotes. *)
Fixpoint json (s : string) : string :=
  match s with
  | EmptyString => EmptyString
  | String c rest =>
      String (if Ascii.eqb c "'" then "034"%char else c) (json rest)
  end.

(** The payload of [test_mqtt_parse.js]. *)
Definition testPayload : string :=
  json ("{'ts':1288664,'mode':'AUTO','bme':{'t':25.02,'p':997,'h':57.2},"
        ++ "'ds18b20':[-127.00,0.00,0.00],'soil':[100,100,100],"
        ++ "'water':[0.1,1.8],'valve':[0,0,0],'pump':[0,0]}").

(** A payload that passes the test of the prefixed format and the test of
    the key=value format. *)
Definition two_formats : string := "STM32_DATA_P701_ST21,st=25,at=27,p=825".

(** The state after [testPayload]: its tag is [stm32-json]. *)
Definition after_json : State :=
  after_message "d02/telemetry" "d02/telemetry" testPayload initial.

(** A nested JSON payload whose series are empty. *)
Definition empty_series : string :=
  json "{'bme':{'t':26.5,'p':1000,'h':50},'ds18b20':[],'soil':[],'water':[]}".

(** A legacy JSON payload cut down to one member. *)
Definition truncated_legacy : string := json "{'bme_t':25}".


(** The members of [testPayload], latest first, and those of its [bme]. *)
Definition testProps : list (string * value) :=
  [("pump", Arr [Num 0; Num 0]);
   ("valve", Arr [Num 0; Num 0; Num 0]);
   ("water", Arr [Num 0.1; Num 1.8]);
   ("soil", Arr [Num 100; Num 100; Num 100]);
   ("ds18b20", Arr [Num (-127); Num 0; Num 0]);
   ("bme", Obj [("h", Num 57.2); ("p", Num 997); ("t", Num 25.02)]);
   ("mode", Str "AUTO"); ("ts", Num 1288664)].

Definition testBme : list (string * value) :=
  [("h", Num 57.2); ("p", Num 997); ("t", Num 25.02)].

(** A key=value payload whose water level reads 0. *)
Definition zero_water : string := "st=25,at=27,p=825,wl=0".

(** A nested JSON payload without the air humidity, and its members. *)
Definition no_humidity : string := json "{'bme':{'t':25,'p':1000}}".

Definition no_humidity_props : list (string * value) :=
  [("bme", Obj [("p", Num 1000); ("t", Num 25)])].

(** A JSON payload of the old flat shape, and its members. *)
Definition flat_object : string :=
  json "{'pressure':900,'soilTemp':22,'waterLevel':null}".

Definition flat_props : list (string * value) :=
  [("waterLevel", Null); ("soilTemp", Num 22); ("pressure", Num 900)].

(** A BME summary that names a mode with an underscore. *)
Definition summary_with_underscore : string :=
  "BME: 25.1C, 1013hPa, 65% | Soil: 60%, 58%, 62% | Water: 35.5%, 40.2%"
  ++ " | Mode: AUTO_1".

(** The BME summary of the handler's comment (line 511). *)
Definition summary : string :=
  "BME: 25.1C, 1013hPa, 65% | Soil: 60%, 58%, 62% | Water: 35.5%, 40.2%"
  ++ " | Pompa: ON, OFF | V1: ON | V2: OFF | V3: ON".

(** A message of the status format. *)
Definition status_message : string := "status=online,uptime=145".

(** A page whose client is connected, and one with no client; the relay
    does not answer. *)
Definition online : Dispatch.Env :=
  {| client := Some {| connected := true; reconnecting := false;
                       publish_throws := false |};
     db := Db_saved;
     fetch := fun _ => No_reply |}.

Definition offline : Dispatch.Env :=
  {| client := None; db := Db_saved; fetch := fun _ => No_reply |}.

(** A relay that reaches its broker. *)
Definition relay_up : Relay.Env :=
  {| Relay.supabase_configured := true;
     Relay.MQTT_TOPIC_env := None;
     Relay.broker := Relay.Published |}.

(** A page with no client, served by [relay_up]. *)
Definition offline_relayed : Dispatch.Env :=
  {| client := None; db := Db_saved; fetch := Relay.fetch_from relay_up |}.

(** A page whose client has lost its connection, served by [relay_up]. *)
Definition reconnecting_relayed : Dispatch.Env :=
  {| client := Some {| connected := false; reconnecting := true;
                       publish_throws := false |};
     db := Db_saved;
     fetch := Relay.fetch_from relay_up |}.


(** The body [controlPump] posts to the relay, as the route reads it. *)
Definition request_body (type : string) : result value :=
  Ok (Obj [("command", Str type); ("duration_seconds", Num 300)]).

End Examples.

(** ** The avatar: the health of the plant ([ShallotAvatar.tsx])

    The component takes four numbers, as its interface declares. *)

Module Avatar.

Record Props : Type := mkProps {
  airTemp : float;
  airHumidity : float;
  soilHumidity : float;
  soilTemp : float
}.

Section Health.

Variable p : Props.

Definition tempTooHigh : bool := PrimFloat.ltb 35 (airTemp p).
Definition tempHot : bool := PrimFloat.ltb 32 (airTemp p).
Definition tempTooCold : bool := PrimFloat.ltb (airTemp p) 15.
Definition soilDry : bool := PrimFloat.ltb (soilHumidity p) 50.
Definition soilCritical : bool := PrimFloat.ltb (soilHumidity p) 30.
Definition airDry : bool := PrimFloat.ltb (airHumidity p) 50.

Definition healthy : bool :=
  negb tempHot && negb soilDry && negb airDry && negb tempTooCold.

(** What [setSweat] is given. *)
Definition sweat : bool :=
  PrimFloat.ltb 32 (airTemp p) || PrimFloat.ltb 30 (soilTemp p).

Definition currentState : string :=
  if tempTooHigh && soilCritical then "CRITICAL"
  else if tempTooHigh then "OVERHEATED"
  else if soilCritical then "THIRSTY"
  else if soilDry || airDry || tempHot then "STRESSED"
  else if PrimFloat.ltb (airTemp p) 15 then "COLD"
  else "HEALTHY".

Definition bulbColor : string :=
  if soilCritical then "#653850"
  else if soilDry then "#774160"
  else if tempTooHigh then "#873D68"
  else "#AF6C9E".

Definition leafColor : string :=
  if healthy then "#8BBC6D"
  else if tempTooCold then "#60A5FA"
  else if tempHot || airDry then "#83B963"
  else if soilCritical then "#96C37C"
  else "#9BCE7A".

Definition isWilting : bool := soilCritical || tempTooHigh.
Definition isStressed : bool := tempHot || soilDry || airDry.
Definition isShaking : bool := tempTooHigh && soilCritical.
Definition isShivering : bool := tempTooCold.

Definition eyeState : string :=
  if soilCritical then "dizzy"
  else if tempTooHigh then "worried"
  else if tempTooCold then "cold"
  else if isStressed then "sad"
  else "happy".

Definition mouthState : string :=
  if soilCritical then "shocked"
  else if tempTooHigh then "panting"
  else if tempTooCold then "chattering"
  else if isStressed then "worried"
  else "smile".

(** The hearts: [healthy && soilHumidity > 70 && airTemp >= 25 &&
    airTemp <= 30]. *)
Definition hearts : bool :=
  healthy && PrimFloat.ltb 70 (soilHumidity p)
  && PrimFloat.leb 25 (airTemp p) && PrimFloat.leb (airTemp p) 30.

End Health.

End Avatar.

(** ** The test script ([test_mqtt_parse.js]) *)

Module TestScript.

Import Text Number JS Page.

(** What the script works out of a parsed payload of the STM32 shape
    (lines 20 to 53): [sensorData], [pumpData] and [valveData]. *)
Definition decode (data : value)
  : result (Sensors * Pumps * Valves) :=
  ds18b20 <-r get data "ds18b20" ;;
  let soilTemps := or_else ds18b20 (Arr []) in
  soil_ <-r get data "soil" ;;
  let soilMoisture := or_else soil_ (Arr []) in
  water_ <-r get data "water" ;;
  let waterLevels := or_else water_ (Arr []) in
  valve_ <-r get data "valve" ;;
  let valves_ := or_else valve_ (Arr [Num 0; Num 0; Num 0]) in
  pump_ <-r get data "pump" ;;
  let pumps_ := or_else pump_ (Arr [Num 0; Num 0]) in
  validSoilTemps <-r filter soilTemps (fun temp => gt temp (-100)) ;;
  bme <-r get data "bme" ;;
  avgSoilTemp <-r (some <-r has_items validSoilTemps ;;
                   if some then mean validSoilTemps else get bme "t") ;;
  p <-r get bme "p" ;;
  t <-r get bme "t" ;;
  h <-r get bme "h" ;;
  sh <-r mean_or soilMoisture (Num 0) ;;
  wl <-r mean_or waterLevels (Num 0) ;;
  let sensorData :=
    {| pressure := p; airTemp := t; airHumidity := h;
       soilTemp := avgSoilTemp; soilHumidity := sh; waterLevel := wl;
       ds_t := soilTemps; soil := soilMoisture; water := waterLevels |} in
  p0 <-r get_index pumps_ 0 ;;
  p1 <-r get_index pumps_ 1 ;;
  let pumpData :=
    {| irrigation := Bool (is_one p0); suction := Bool (is_one p1) |} in
  v0 <-r get_index valves_ 0 ;;
  v1 <-r get_index valves_ 1 ;;
  v2 <-r get_index valves_ 2 ;;
  let valveData :=
    {| valve1 := Bool (is_one v0); valve2 := Bool (is_one v1);
       valve3 := Bool (is_one v2) |} in
  Ok (sensorData, pumpData, valveData).

End TestScript.

(** * Properties of the decoder and of the dispatcher *)

Import Text Number JS Pattern Page Dispatch Formats Series Examples.

(** ** Statements and their results *)

Lemma addLog_ok (l : log) (st : State) : snd (addLog l st) = Ok tt.
Proof. reflexivity. Qed.

Lemma try_catch_logs_ok (body : M unit) (l1 : exn -> log) (l2 : log)
  (st : State) :
  snd (try_catch body (fun e => addLog (l1 e) ;;; addLog l2) st) = Ok tt.
Proof.
  unfold try_catch. destruct (body st) as [st' [[]|e]]; reflexivity.
Qed.

(** ** The order of the formats *)

(** C1, as the code has it: the decoder takes the first format, in the order
    of its own chain of tests, whose test the payload passes: the JSON
    object, the prefixed positional format, the ultra-short format, the BME
    summary, the key=value format, the compact format, the status format. *)
Theorem C1_decode_takes_first_in_code_order (payloadStr : string) (st : State) :
  decode payloadStr st = decode_in code_order payloadStr st.
Proof.
  unfold decode, decode_in, first_match, code_order.
  cbn [find test branch].
  repeat match goal with
         | |- context [if ?b then _ else _] => destruct b; try reflexivity
         end.
Qed.

(** C1, against the order of the specification: a payload with the prefix
    [STM32_DATA_] and the keys [st=], [at=], [p=] is decoded as the prefixed
    positional format, where the order of the specification makes it the
    key=value format. *)
Lemma C1_spec_order_differs :
  first_match spec_order two_formats = Some Key_value
  /\ first_match code_order two_formats = Some Prefixed
  /\ dataSource (fst (decode two_formats initial)) = "stm32-simple"
  /\ dataSource (fst (decode_in spec_order two_formats initial))
     = "stm32-comprehensive"
  /\ pressure (sensors (fst (decode two_formats initial))) = Num 701
  /\ pressure (sensors (fst (decode_in spec_order two_formats initial)))
     = Num 825.
Proof. vm_compute. repeat split; reflexivity. Qed.

(** ** The data-source tag *)




(** ** The payload of the test file *)

(** C4, as the code computes it: the payload of [test_mqtt_parse.js] on the
    telemetry topic gives air temperature 25.02, pressure 997, air humidity
    57.2, soil temperature 0 (the mean of the two entries above -100), soil
    humidity 100, both pumps and the three valves off and the tag
    [stm32-json]; the water level is (0.1 + 1.8) / 2 in binary64, which is
    0.9500000000000001. *)
Theorem C4_testPayload_decoded (telemetry : string) (st : State) :
  let st' := after_message telemetry "d02/telemetry" testPayload st in
  airTemp (sensors st') = Num 25.02
  /\ pressure (sensors st') = Num 997
  /\ airHumidity (sensors st') = Num 57.2
  /\ soilTemp (sensors st') = Num 0
  /\ soilHumidity (sensors st') = Num 100
  /\ waterLevel (sensors st') = Num 0.9500000000000001
  /\ pumps st' = {| irrigation := Bool false; suction := Bool false |}
  /\ valves st' = {| valve1 := Bool false; valve2 := Bool false;
                     valve3 := Bool false |}
  /\ dataSource st' = "stm32-json".
Proof.
  unfold after_message, on_message.
  replace (String.eqb "d02/telemetry" telemetry
           || String.eqb "d02/telemetry" "d02/status"
           || String.eqb "d02/telemetry" "d02/telemetry"
           || String.eqb "d02/telemetry" "test")
    with true by (destruct (String.eqb "d02/telemetry" telemetry); reflexivity).
  vm_compute. repeat split; reflexivity.
Qed.

(** C4, the water level: the decoded value is not the number 0.95. *)
Lemma C4_water_level_is_not_0_95 :
  waterLevel (sensors after_json) = Num 0.9500000000000001
  /\ PrimFloat.eqb 0.9500000000000001 0.95 = false
  /\ NumberToString 0.9500000000000001 = "0.9500000000000001".
Proof. vm_compute. repeat split; reflexivity. Qed.

(** ** The dispatcher *)

(** C7, as the code has it: [controlPump] checks no command name. A command
    whose name in capitals is none of START, STOP, POMPA, SEDOT is published
    on [d02/cmd] in capitals when the client is connected and the publish
    does not throw, and is posted to the relay otherwise; it is the relay
    route that refuses it, with status 400 (500 when its database client
    cannot be made), before it connects to the broker. *)
Theorem C7_commands_are_forwarded_unchecked (e : Dispatch.Env)
  (re : Relay.Env) (type : string) (st : State)
  (Hout : Relay.is_command (Some (toUpperCase type)) = false) :
  let sendable :=
    match client e with
    | Some c => connected c && negb (publish_throws c)
    | None => false
    end in
  let out := snd (controlPump e type st) in
  (sendable = true -> In (Mqtt_publish "d02/cmd" (toUpperCase type)) out)
  /\ (sendable = false -> In (Http_post "/api/pump" type 300) out)
  /\ snd (Relay.POST re (request_body type)) = []
  /\ fst (Relay.POST re (request_body type))
     = Relay.Json (if Relay.supabase_configured re then 400 else 500) false.
Proof.
  cbv zeta. repeat split.
  - intros Hs. unfold controlPump, controlPump_publish.
    destruct (save_command (db e) type _) as [st2 saved].
    unfold publishPumpControl.
    destruct (client e) as [c|]; [|discriminate].
    destruct (connected c); [|discriminate].
    destruct (publish_throws c); [discriminate|].
    cbn. rewrite !in_app_iff. left. right. left. reflexivity.
  - intros Hs. unfold controlPump, controlPump_publish.
    destruct (save_command (db e) type _) as [st2 saved].
    unfold publishPumpControl, relay_fallback.
    destruct (client e) as [c|].
    + destruct (connected c); cbn.
      * destruct (publish_throws c); [|discriminate].
        cbn. rewrite !in_app_iff. right. left. reflexivity.
      * rewrite !in_app_iff. right. left. reflexivity.
    + cbn. rewrite !in_app_iff. right. left. reflexivity.
  - unfold Relay.POST, Relay.check_command, request_body.
    cbn -[Relay.is_command toUpperCase].
    destruct (Relay.supabase_configured re);
      cbn -[Relay.is_command toUpperCase]; [|reflexivity].
    rewrite Hout. reflexivity.
  - unfold Relay.POST, Relay.check_command, request_body.
    cbn -[Relay.is_command toUpperCase].
    destruct (Relay.supabase_configured re);
      cbn -[Relay.is_command toUpperCase]; [|reflexivity].
    rewrite Hout. reflexivity.
Qed.

Lemma C7_commands_are_forwarded_unchecked_witness :
  In (Mqtt_publish "d02/cmd" "AUTO") (snd (controlPump online "auto" initial))
  /\ In (Http_post "/api/pump" "auto" 300)
       (snd (controlPump offline "auto" initial))
  /\ Relay.POST relay_up (request_body "auto") = (Relay.Json 400 false, []).
Proof.
  split; [|split].
  - exact (proj1 (C7_commands_are_forwarded_unchecked online relay_up "auto"
                    initial eq_refl) eq_refl).
  - exact (proj1 (proj2 (C7_commands_are_forwarded_unchecked offline relay_up
                           "auto" initial eq_refl)) eq_refl).
  - reflexivity.
Defined.

(** C7, against the claim: a command outside the vocabulary goes out, on the
    broker when the page is connected and to the relay when it is not. *)
Lemma C7_unknown_command_goes_out :
  snd (controlPump online "bogus" initial)
  = [Db_insert "BOGUS" "unknown" "manual"; Mqtt_publish "d02/cmd" "BOGUS"]
  /\ snd (controlPump offline "bogus" initial)
     = [Db_insert "BOGUS" "unknown" "manual";
        Http_post "/api/pump" "bogus" 300].
Proof. vm_compute. split; reflexivity. Qed.

(** C8, what the code does: [controlPump] with [stop] turns both pumps off
    once it has saved the row and tried the publish, whatever the client is
    and whatever became of the publish and of the saved row; the irrigation
    pump is still off when it returns, and the suction pump is off unless
    the publish did not go through and the relay answered with success, in
    which case it is shown as on. *)
Theorem C8_stop_turns_pumps_off_unless_relayed (e : Dispatch.Env)
  (st : State) :
  pumps (fst (fst (controlPump_publish e "stop" st)))
  = {| irrigation := Bool false; suction := Bool false |}
  /\ pumps (fst (controlPump e "stop" st))
     = {| irrigation := Bool false;
          suction := Bool (match can_publish (client e), fetch e "stop" with
                           | false, Reply true true => true
                           | _, _ => false
                           end) |}.
Proof.
  unfold controlPump, controlPump_publish.
  destruct (save_command (db e) "stop" _) as [st2 saved].
  unfold publishPumpControl, can_publish, relay_fallback.
  destruct (client e) as [[c r t]|]; cbn [connected publish_throws].
  - destruct c, t; cbn [negb andb fst snd];
      (split; [reflexivity|]);
      try reflexivity;
      destruct (fetch e "stop") as [|[] []]; reflexivity.
  - cbn [negb fst snd]. split; [reflexivity|].
    destruct (fetch e "stop") as [|[] []]; reflexivity.
Qed.

(** C8, where the code goes against it: a page whose client has lost its
    connection and whose post the relay serves ends [stop] with the suction
    pump shown as on. *)
Lemma C8_stop_through_the_relay_turns_suction_on :
  pumps (fst (controlPump reconnecting_relayed "stop" initial))
  = {| irrigation := Bool false; suction := Bool true |}
  /\ snd (controlPump reconnecting_relayed "stop" initial)
     = [Db_insert "STOP" "unknown" "manual"; Http_post "/api/pump" "stop" 300].
Proof. vm_compute. split; reflexivity. Qed.

(** ** Numbers *)

Lemma SFcompare_not_both (a b : spec_float) :
  SFleb a b = true -> SFltb b a = false.
Proof.
  unfold SFleb, SFltb.
  destruct a as [sa|sa| |sa ma ea], b as [sb|sb| |sb mb eb]; cbn;
    try discriminate; try reflexivity;
    try (destruct sa; discriminate || reflexivity);
    try (destruct sb; discriminate || reflexivity);
    try (destruct sa, sb; discriminate || reflexivity).
  destruct sa, sb; try discriminate; try reflexivity.
  - rewrite (Z.compare_antisym ea eb).
    destruct (ea ?= eb)%Z; cbn; try discriminate; try reflexivity.
    change (PosDef.Pos.compare_cont Eq mb ma) with (Pos.compare mb ma).
    change (PosDef.Pos.compare_cont Eq ma mb) with (Pos.compare ma mb).
    rewrite (Pos.compare_antisym ma mb).
    destruct (ma ?= mb)%positive; cbn; discriminate || reflexivity.
  - rewrite (Z.compare_antisym ea eb).
    destruct (ea ?= eb)%Z; cbn; try discriminate; try reflexivity.
    change (PosDef.Pos.compare_cont Eq mb ma) with (Pos.compare mb ma).
    change (PosDef.Pos.compare_cont Eq ma mb) with (Pos.compare ma mb).
    rewrite (Pos.compare_antisym ma mb).
    destruct (ma ?= mb)%positive; cbn; discriminate || reflexivity.
Qed.

(** A number that is at most [c] is not above [c]. *)
Lemma leb_not_ltb (x c : float) :
  PrimFloat.leb x c = true -> PrimFloat.ltb c x = false.
Proof.
  rewrite leb_spec, ltb_spec. apply SFcompare_not_both.
Qed.

(** ** Series *)

Lemma add_nums (a b : float) : add (Num a) (Num b) = Ok (Num (a + b)).
Proof. reflexivity. Qed.

Lemma reduce_items_nums (l : list float) (acc : float) :
  reduce_items add (Num acc) (map Num l)
  = Ok (Num (fold_left PrimFloat.add l acc)).
Proof.
  revert acc. induction l as [|x l IH]; intros acc; [reflexivity|].
  cbn [map reduce_items fold_left]. rewrite add_nums. cbn [rbind]. apply IH.
Qed.

Lemma mean_nums (l : list float) : mean (nums l) = Ok (Num (average l)).
Proof.
  unfold mean, nums, reduce. rewrite reduce_items_nums.
  cbn [rbind get_length]. rewrite length_map. reflexivity.
Qed.

Lemma mean_or_nums (l : list float) (d : value) :
  mean_or (nums l) d = Ok (average_or l d).
Proof.
  destruct l as [|x l]; [reflexivity|].
  unfold mean_or. cbn [has_items nums map rbind].
  change (Arr (Num x :: map Num l)) with (nums (x :: l)).
  apply mean_nums.
Qed.

Lemma filter_nums (l : list float) (c : float) :
  filter (nums l) (fun temp => gt temp c)
  = Ok (nums (List.filter (fun x => PrimFloat.ltb c x) l)).
Proof.
  unfold filter, nums.
  assert (H : filter_items (fun temp => gt temp c) (map Num l)
              = Ok (map Num (List.filter (fun x => PrimFloat.ltb c x) l))).
  { induction l as [|x l IH]; [reflexivity|].
    cbn [map filter_items List.filter].
    change (gt (Num x) c) with (Ok (A:=bool) (PrimFloat.ltb c x)).
    cbn [rbind]. rewrite IH. cbn [rbind].
    destruct (PrimFloat.ltb c x); reflexivity. }
  rewrite H. reflexivity.
Qed.

Lemma or_else_series (v : value) (l : list float) :
  is_series v l -> or_else v (Arr []) = nums l.
Proof.
  intros [->|[-> ->]]; reflexivity.
Qed.

Lemma valid_above (temps : list float) (x : float) :
  In x (valid temps) -> PrimFloat.leb x (-100) = false.
Proof.
  unfold valid. rewrite filter_In. intros [_ H].
  destruct (PrimFloat.leb x (-100)) eqn:E; [|reflexivity].
  apply leb_not_ltb in E. congruence.
Qed.

(** ** What statements leave alone *)

Section Keeps.

Context {B : Type} (f : State -> B).

Lemma keeps_ret {A : Type} (a : A) : keeps f (ret a).
Proof. intros st. reflexivity. Qed.

Lemma keeps_eval {A : Type} (r : result A) : keeps f (eval r).
Proof. intros st. reflexivity. Qed.

Lemma keeps_bind {A C : Type} (m : M A) (k : A -> M C) :
  keeps f m -> (forall a, keeps f (k a)) -> keeps f (bind m k).
Proof.
  intros Hm Hk st. unfold bind. specialize (Hm st).
  destruct (m st) as [st' [a|e]]; cbn in *.
  - rewrite Hk. exact Hm.
  - exact Hm.
Qed.

Lemma keeps_try_catch (body : M unit) (handler : exn -> M unit) :
  keeps f body -> (forall e, keeps f (handler e)) ->
  keeps f (try_catch body handler).
Proof.
  intros Hm Hk st. unfold try_catch. specialize (Hm st).
  destruct (body st) as [st' [a|e]]; cbn in *.
  - exact Hm.
  - rewrite Hk. exact Hm.
Qed.

Lemma keeps_if {A : Type} (b : bool) (m1 m2 : M A) :
  keeps f m1 -> keeps f m2 -> keeps f (if b then m1 else m2).
Proof. destruct b; auto. Qed.

End Keeps.

Lemma keeps_readDataSource {B : Type} (f : State -> B) :
  keeps f readDataSource.
Proof. intros st. reflexivity. Qed.

(** Each setter changes its own part of the state only. *)
Lemma setSensors_keeps (g : Sensors -> Sensors) :
  keeps pumps (setSensors g) /\ keeps valves (setSensors g)
  /\ keeps dataSource (setSensors g) /\ keeps logs (setSensors g)
  /\ keeps showPopup (setSensors g).
Proof. repeat split. Qed.

Lemma setPumps_keeps (g : Pumps -> Pumps) :
  keeps sensors (setPumps g) /\ keeps valves (setPumps g)
  /\ keeps dataSource (setPumps g) /\ keeps logs (setPumps g)
  /\ keeps showPopup (setPumps g).
Proof. repeat split. Qed.

Lemma setValves_keeps (g : Valves -> Valves) :
  keeps sensors (setValves g) /\ keeps pumps (setValves g)
  /\ keeps dataSource (setValves g) /\ keeps logs (setValves g)
  /\ keeps showPopup (setValves g).
Proof. repeat split. Qed.

Lemma setDataSource_keeps (tag : string) :
  keeps sensors (setDataSource tag) /\ keeps pumps (setDataSource tag)
  /\ keeps valves (setDataSource tag) /\ keeps logs (setDataSource tag)
  /\ keeps showPopup (setDataSource tag).
Proof. repeat split. Qed.

Lemma addLog_keeps (l : log) :
  keeps sensors (addLog l) /\ keeps pumps (addLog l)
  /\ keeps valves (addLog l) /\ keeps dataSource (addLog l)
  /\ keeps showPopup (addLog l).
Proof. repeat split. Qed.

(** Goals [keeps f m] for statements [m] made of the above. *)
Ltac keeps_step :=
  match goal with
  | |- keeps _ (bind _ _) => apply keeps_bind; [|intros ?]
  | |- keeps _ (try_catch _ _) => apply keeps_try_catch; [|intros ?]
  | |- keeps _ (if _ then _ else _) => apply keeps_if
  | |- keeps _ (match ?x with _ => _ end) => destruct x
  | |- keeps _ (ret _) => apply keeps_ret
  | |- keeps _ (eval _) => apply keeps_eval
  | |- keeps _ readDataSource => apply keeps_readDataSource
  | |- keeps _ (setSensors _) => apply setSensors_keeps
  | |- keeps _ (setPumps _) => apply setPumps_keeps
  | |- keeps _ (setValves _) => apply setValves_keeps
  | |- keeps _ (setDataSource _) => apply setDataSource_keeps
  | |- keeps _ (addLog _) => apply addLog_keeps
  end.

Ltac keeps_all := repeat keeps_step.

(** ** The lines of the log *)


Section Logs_only.

Context (P : log -> Prop).






End Logs_only.



(** ** Relations kept from statement to statement *)

Section Steps.

Context {B : Type} (f : State -> B) (Q : B -> B -> Prop).
Hypothesis Q_refl : forall x, Q x x.
Hypothesis Q_trans : forall x y z, Q x y -> Q y z -> Q x z.

Lemma steps_keeps {A : Type} (m : M A) : keeps f m -> steps (on f Q) m.
Proof. intros H st. unfold on. rewrite H. apply Q_refl. Qed.

Lemma steps_bind {A C : Type} (m : M A) (k : A -> M C) :
  steps (on f Q) m -> (forall a, steps (on f Q) (k a)) ->
  steps (on f Q) (bind m k).
Proof.
  intros Hm Hk st. unfold bind. specialize (Hm st).
  destruct (m st) as [st' [a|e]]; cbn in *.
  - exact (Q_trans _ _ _ Hm (Hk a st')).
  - exact Hm.
Qed.

Lemma steps_try_catch (body : M unit) (handler : exn -> M unit) :
  steps (on f Q) body -> (forall e, steps (on f Q) (handler e)) ->
  steps (on f Q) (try_catch body handler).
Proof.
  intros Hm Hk st. unfold try_catch. specialize (Hm st).
  destruct (body st) as [st' [a|e]]; cbn in *.
  - exact Hm.
  - exact (Q_trans _ _ _ Hm (Hk e st')).
Qed.

Lemma steps_if {A : Type} (b : bool) (m1 m2 : M A) :
  steps (on f Q) m1 -> steps (on f Q) m2 ->
  steps (on f Q) (if b then m1 else m2).
Proof. destruct b; auto. Qed.

End Steps.

(** Goals [steps (on f Q) m]: [refl] and [trans] prove that [Q] is a
    preorder; what is left are the statements that change [f]. *)
Ltac steps_with refl trans :=
  repeat match goal with
  | |- steps _ (bind _ _) => apply (steps_bind _ _ trans); [|intros ?]
  | |- steps _ (try_catch _ _) =>
      apply (steps_try_catch _ _ trans); [|intros ?]
  | |- steps _ (if _ then _ else _) => apply steps_if
  | |- steps _ (match ?x with _ => _ end) => destruct x
  | |- steps _ _ => apply (steps_keeps _ _ refl); solve [keeps_all]
  end.

(** ** The handler on a telemetry topic *)

Lemma on_message_telemetry (telemetry topic payloadStr : string) :
  is_telemetry_topic telemetry topic = true ->
  on_message telemetry topic payloadStr
  = try_catch
      (addLog (Received topic (head 80 payloadStr)) ;;; decode payloadStr)
      (fun parseError =>
         addLog (Failed_to_parse parseError) ;;;
         addLog (Raw_payload (head 100 payloadStr))).
Proof.
  unfold is_telemetry_topic, on_message. intros H.
  apply andb_true_iff in H. destruct H as [H Ht].
  apply andb_true_iff in H. destruct H as [H Hs].
  apply negb_true_iff in Ht, Hs. rewrite Ht, Hs.
  apply orb_true_iff in H. destruct H as [H|H]; rewrite H.
  - reflexivity.
  - rewrite !orb_true_r. reflexivity.
Qed.

(** After a telemetry message that the decoder takes without an exception,
    the state is the decoder's. *)
Lemma after_message_decode (telemetry topic payloadStr : string) (st : State) :
  is_telemetry_topic telemetry topic = true ->
  forall {B : Type} (f : State -> B),
    keeps f (addLog (Received topic (head 80 payloadStr))) ->
    (forall e, keeps f (addLog (Failed_to_parse e) ;;;
                        addLog (Raw_payload (head 100 payloadStr)))) ->
    f (after_message telemetry topic payloadStr st)
    = f (fst (decode payloadStr
                (fst (addLog (Received topic (head 80 payloadStr)) st)))).
Proof.
  intros H B f Hr Hc. unfold after_message.
  rewrite (on_message_telemetry _ _ _ H).
  unfold try_catch, bind at 1. cbn [addLog fst snd].
  match goal with |- context [decode payloadStr ?s] =>
    destruct (decode payloadStr s) as [st' [[]|e]] end; cbn [fst].
  - reflexivity.
  - apply Hc.
Qed.

(** The nested JSON branch on a payload whose series are arrays of numbers
    (or are not there): the sensors it stores. *)
Lemma stm32_json_sensors (props bprops : list (string * value))
  (temps soils waters : list float) (st : State) :
  lookup "bme" props = Obj bprops ->
  is_series (lookup "ds18b20" props) temps ->
  is_series (lookup "soil" props) soils ->
  is_series (lookup "water" props) waters ->
  sensors (fst (stm32_json (Obj props) st))
  = {| pressure := lookup "p" bprops;
       soilTemp := average_or (valid temps) (lookup "t" bprops);
       soilHumidity := average_or soils (Num 0);
       waterLevel := average_or waters (Num 0);
       airTemp := lookup "t" bprops;
       airHumidity := lookup "h" bprops;
       ds_t := nums temps; soil := nums soils; water := nums waters |}.
Proof.
  intros Hb Ht Hs Hw. unfold stm32_json.
  cbn [get]. unfold bind at 1. cbn [eval].
  rewrite (or_else_series _ _ Ht).
  unfold bind at 1. cbn [eval]. rewrite (or_else_series _ _ Hs).
  unfold bind at 1. cbn [eval]. rewrite (or_else_series _ _ Hw).
  unfold bind at 1. cbn [eval].
  unfold bind at 1. cbn [eval].
  rewrite filter_nums. unfold bind at 1. cbn [eval].
  unfold bind at 1. cbn [eval]. rewrite Hb.
  fold (valid temps).
  assert (Ha : (some <-r has_items (nums (valid temps)) ;;
                if some then mean (nums (valid temps))
                else get (Obj bprops) "t")
               = Ok (average_or (valid temps) (lookup "t" bprops))).
  { destruct (valid temps) as [|x l] eqn:E; [reflexivity|].
    cbn [has_items nums map rbind].
    change (Arr (Num x :: map Num l)) with (nums (x :: l)).
    rewrite mean_nums. reflexivity. }
  rewrite Ha. unfold bind at 1. cbn [eval].
  cbn [get]. do 3 (unfold bind at 1; cbn [eval]).
  rewrite !mean_or_nums. do 2 (unfold bind at 1; cbn [eval]).
  unfold bind at 1.
  match goal with
  | |- context [setSensors ?g st] =>
      change (setSensors g st) with
        (mkState (g (sensors st)) (pumps st) (valves st) (dataSource st)
           (logs st) (showPopup st), Ok tt)
  end.
  cbv iota beta.
  match goal with
  | |- sensors (fst (?m ?s)) = _ =>
      assert (Hk : keeps sensors m) by keeps_all; rewrite Hk
  end.
  reflexivity.
Qed.

Lemma nested_json_sensors (telemetry topic payloadStr : string)
  (props bprops : list (string * value)) (temps soils waters : list float)
  (st : State) :
  is_telemetry_topic telemetry topic = true ->
  startsWith payloadStr "{" = true ->
  JSON.parse payloadStr = Ok (Obj props) ->
  lookup "bme" props = Obj bprops ->
  is_defined (lookup "t" bprops) = true ->
  is_series (lookup "ds18b20" props) temps ->
  is_series (lookup "soil" props) soils ->
  is_series (lookup "water" props) waters ->
  sensors (after_message telemetry topic payloadStr st)
  = {| pressure := lookup "p" bprops;
       soilTemp := average_or (valid temps) (lookup "t" bprops);
       soilHumidity := average_or soils (Num 0);
       waterLevel := average_or waters (Num 0);
       airTemp := lookup "t" bprops;
       airHumidity := lookup "h" bprops;
       ds_t := nums temps; soil := nums soils; water := nums waters |}.
Proof.
  intros Htopic Hjson Hparse Hbme Ht Htemps Hsoils Hwaters.
  rewrite (after_message_decode _ _ _ _ Htopic sensors);
    [|keeps_all|intros e; keeps_all].
  unfold decode. rewrite Hjson. unfold json_branch.
  rewrite Hparse. unfold bind at 1. cbn [eval].
  unfold is_stm32_json. cbn [typeof_object get rbind].
  rewrite Hbme. cbn [truthy rbind get]. rewrite Ht.
  unfold bind at 1. cbn [eval].
  apply stm32_json_sensors; assumption.
Qed.

(** ** Series and their means *)

(** C2, as the code has it: in the nested JSON branch an empty or missing
    soil moisture or water level series gives 0, and a soil temperature
    series with no entry above -100 gives the air temperature of the
    payload; a series with an entry gives the sum of its entries, added from
    the left in binary64, divided by their number. The previous values are
    not kept. *)
Theorem C2_series_give_mean_or_default (telemetry topic payloadStr : string)
  (props bprops : list (string * value)) (temps soils waters : list float)
  (st : State)
  (Htopic : is_telemetry_topic telemetry topic = true)
  (Hjson : startsWith payloadStr "{" = true)
  (Hparse : JSON.parse payloadStr = Ok (Obj props))
  (Hbme : lookup "bme" props = Obj bprops)
  (Ht : is_defined (lookup "t" bprops) = true)
  (Htemps : is_series (lookup "ds18b20" props) temps)
  (Hsoils : is_series (lookup "soil" props) soils)
  (Hwaters : is_series (lookup "water" props) waters) :
  let s := sensors (after_message telemetry topic payloadStr st) in
  soilHumidity s = average_or soils (Num 0)
  /\ waterLevel s = average_or waters (Num 0)
  /\ soilTemp s = average_or (valid temps) (airTemp s).
Proof.
  cbv zeta.
  rewrite (nested_json_sensors _ _ _ _ _ _ _ _ st Htopic Hjson Hparse Hbme Ht
             Htemps Hsoils Hwaters).
  repeat split.
Qed.

Lemma C2_series_give_mean_or_default_witness :
  let s := sensors after_json in
  soilHumidity s = average_or [100; 100; 100]%float (Num 0)
  /\ waterLevel s = average_or [0.1; 1.8]%float (Num 0)
  /\ soilTemp s = average_or (valid [-127; 0; 0]%float) (airTemp s).
Proof.
  exact (C2_series_give_mean_or_default "d02/telemetry" "d02/telemetry"
           testPayload testProps testBme [-127; 0; 0]%float
           [100; 100; 100]%float [0.1; 1.8]%float initial
           eq_refl eq_refl eq_refl eq_refl eq_refl
           (or_introl eq_refl) (or_introl eq_refl) (or_introl eq_refl)).
Defined.

(** C2, against the claim: with empty series the soil humidity goes from 70
    to 0, the water level from 10 to 0 and the soil temperature from 25 to
    the air temperature 26.5 of the payload. *)
Lemma C2_empty_series_replace_values :
  let s := sensors (after_message "d02/telemetry" "d02/telemetry"
                      empty_series initial) in
  soilHumidity (sensors initial) = Num 70 /\ soilHumidity s = Num 0
  /\ waterLevel (sensors initial) = Num 10 /\ waterLevel s = Num 0
  /\ soilTemp (sensors initial) = Num 25 /\ soilTemp s = Num 26.5.
Proof. vm_compute. repeat split; reflexivity. Qed.

(** C5: in the nested JSON branch, an entry of the soil temperature series
    that is at most -100 is not among the entries averaged; the soil
    temperature is the mean of the entries above -100, and when every entry
    is at most -100 it is the air temperature of the payload. *)
Theorem C5_fault_entries_excluded (telemetry topic payloadStr : string)
  (props bprops : list (string * value)) (temps soils waters : list float)
  (st : State)
  (Htopic : is_telemetry_topic telemetry topic = true)
  (Hjson : startsWith payloadStr "{" = true)
  (Hparse : JSON.parse payloadStr = Ok (Obj props))
  (Hbme : lookup "bme" props = Obj bprops)
  (Ht : is_defined (lookup "t" bprops) = true)
  (Htemps : is_series (lookup "ds18b20" props) temps)
  (Hsoils : is_series (lookup "soil" props) soils)
  (Hwaters : is_series (lookup "water" props) waters) :
  let s := sensors (after_message telemetry topic payloadStr st) in
  (forall x, In x (valid temps) -> PrimFloat.leb x (-100) = false)
  /\ (valid temps <> [] -> soilTemp s = Num (average (valid temps)))
  /\ ((forall x, In x temps -> PrimFloat.leb x (-100) = true) ->
      soilTemp s = lookup "t" bprops /\ airTemp s = lookup "t" bprops).
Proof.
  cbv zeta.
  rewrite (nested_json_sensors _ _ _ _ _ _ _ _ st Htopic Hjson Hparse Hbme Ht
             Htemps Hsoils Hwaters).
  cbn [soilTemp airTemp]. split; [|split].
  - apply valid_above.
  - destruct (valid temps); [congruence|reflexivity].
  - intros Hall. split; [|reflexivity].
    assert (E : valid temps = []).
    { unfold valid. clear -Hall. induction temps as [|x l IH]; [reflexivity|].
      cbn [List.filter].
      rewrite (leb_not_ltb x (-100) (Hall x (or_introl eq_refl))).
      apply IH. intros y Hy. apply Hall. right. exact Hy. }
    rewrite E. reflexivity.
Qed.

Lemma C5_fault_entries_excluded_witness :
  let s := sensors after_json in
  (forall x, In x (valid [-127; 0; 0]%float) -> PrimFloat.leb x (-100) = false)
  /\ (valid [-127; 0; 0]%float <> [] ->
      soilTemp s = Num (average (valid [-127; 0; 0]%float)))
  /\ ((forall x, In x [-127; 0; 0]%float -> PrimFloat.leb x (-100) = true) ->
      soilTemp s = lookup "t" testBme /\ airTemp s = lookup "t" testBme).
Proof.
  exact (C5_fault_entries_excluded "d02/telemetry" "d02/telemetry"
           testPayload testProps testBme [-127; 0; 0]%float
           [100; 100; 100]%float [0.1; 1.8]%float initial
           eq_refl eq_refl eq_refl eq_refl eq_refl
           (or_introl eq_refl) (or_introl eq_refl) (or_introl eq_refl)).
Defined.

(** ** Broken payloads *)

Lemma kept_or_read_refl (v : value) : kept_or_read v v.
Proof. left. reflexivity. Qed.

Lemma kept_or_read_trans (x y z : value) :
  kept_or_read x y -> kept_or_read y z -> kept_or_read x z.
Proof.
  intros [->|Hy] [->|Hz]; try (left; reflexivity); right; assumption.
Qed.

Lemma or_else_kept_or_read (x : float) (v : value) :
  kept_or_read v (or_else (Num x) v).
Proof.
  unfold or_else. destruct (truthy (Num x)) eqn:E.
  - right. exists x. split; [reflexivity|exact E].
  - left. reflexivity.
Qed.

Lemma readings_kept_or_read_refl (s : Sensors) : readings_kept_or_read s s.
Proof. repeat split; apply kept_or_read_refl. Qed.

Lemma readings_kept_or_read_trans (x y z : Sensors) :
  readings_kept_or_read x y -> readings_kept_or_read y z ->
  readings_kept_or_read x z.
Proof.
  intros (H1 & H2 & H3 & H4 & H5 & H6) (K1 & K2 & K3 & K4 & K5 & K6).
  repeat split; eapply kept_or_read_trans; eassumption.
Qed.

Lemma pumps_kept_or_switched_refl (p : Pumps) : pumps_kept_or_switched p p.
Proof. split; left; reflexivity. Qed.

Lemma pumps_kept_or_switched_trans (x y z : Pumps) :
  pumps_kept_or_switched x y -> pumps_kept_or_switched y z ->
  pumps_kept_or_switched x z.
Proof.
  intros [H1 H2] [K1 K2]. split.
  - destruct H1 as [H1|H1], K1 as [K1|K1];
      try (right; rewrite ?K1; assumption); try (right; assumption).
    left. congruence.
  - destruct H2 as [H2|H2], K2 as [K2|K2];
      try (right; rewrite ?K2; assumption); try (right; assumption).
    left. congruence.
Qed.

(** C6, the part the code keeps: no exception leaves the handler, whatever
    the topic, the payload and the state; a payload on a telemetry topic
    that begins with a brace and is not JSON text leaves the sensors, the
    pumps, the valves and the tag as they are, the log gaining the line of
    the reception and the two lines of the failure; and a payload that does
    not begin with a brace, however broken, keeps each of the six readings
    unless it gives a number for it that is neither zero nor NaN, keeps
    each pump state unless it gives a boolean for it, and keeps the
    valves. *)
Theorem C6_handler_never_throws (telemetry topic payloadStr : string)
  (st : State) :
  let st' := after_message telemetry topic payloadStr st in
  snd (on_message telemetry topic payloadStr st) = Ok tt
  /\ (forall e,
        is_telemetry_topic telemetry topic = true ->
        startsWith payloadStr "{" = true ->
        JSON.parse payloadStr = Throw e ->
        sensors st' = sensors st /\ pumps st' = pumps st
        /\ valves st' = valves st /\ dataSource st' = dataSource st
        /\ logs st'
           = firstn 10 (Raw_payload (head 100 payloadStr)
               :: firstn 10 (Failed_to_parse e
                    :: firstn 10 (Received topic (head 80 payloadStr)
                         :: logs st))))
  /\ (startsWith payloadStr "{" = false ->
      readings_kept_or_read (sensors st) (sensors st')
      /\ pumps_kept_or_switched (pumps st) (pumps st')
      /\ valves st' = valves st).
Proof.
  cbv zeta. split; [|split].
  - unfold on_message.
    destruct (String.eqb topic telemetry || String.eqb topic "d02/status"
              || String.eqb topic "d02/telemetry" || String.eqb topic "test").
    + apply try_catch_logs_ok.
    + reflexivity.
  - intros e Htopic Hjson Hparse. unfold after_message.
    rewrite (on_message_telemetry _ _ _ Htopic).
    unfold try_catch, bind at 1. cbn [addLog fst snd].
    unfold decode. rewrite Hjson. unfold json_branch. rewrite Hparse.
    unfold bind at 1. cbn [eval].
    repeat split.
  - intros Htext. unfold after_message. split; [|split].
    + assert (H : steps (on sensors readings_kept_or_read)
                    (on_message telemetry topic payloadStr)).
      { unfold on_message, decode. rewrite Htext.
        unfold status_topic, test_topic, stm32_simple, stm32_ultra,
          stm32_bme280, stm32_comprehensive, stm32_compact, stm32_status.
        steps_with readings_kept_or_read_refl readings_kept_or_read_trans;
          intros ?; unfold on, six_fields, parseInt_or;
          cbn [fst sensors setSensors pressure soilTemp soilHumidity
               waterLevel airTemp airHumidity];
          repeat split;
          first [apply or_else_kept_or_read | apply kept_or_read_refl]. }
      exact (H st).
    + assert (H : steps (on pumps pumps_kept_or_switched)
                    (on_message telemetry topic payloadStr)).
      { unfold on_message, decode. rewrite Htext.
        unfold status_topic, test_topic, stm32_simple, stm32_ultra,
          stm32_bme280, stm32_comprehensive, stm32_compact, stm32_status.
        steps_with pumps_kept_or_switched_refl pumps_kept_or_switched_trans;
          intros ?; unfold on;
          cbn [fst pumps setPumps irrigation suction];
          split; first [left; reflexivity | right; eexists; reflexivity]. }
      exact (H st).
    + assert (H : keeps valves (on_message telemetry topic payloadStr)).
      { unfold on_message, decode. rewrite Htext.
        unfold status_topic, test_topic, stm32_simple, stm32_ultra,
          stm32_bme280, stm32_comprehensive, stm32_compact, stm32_status.
        keeps_all. }
      apply H.
Qed.

Lemma C6_handler_never_throws_witness :
  let st' := after_message "d02/telemetry" "d02/telemetry" "{hello" initial in
  sensors st' = sensors initial /\ pumps st' = pumps initial
  /\ valves st' = valves initial /\ dataSource st' = dataSource initial
  /\ logs st'
     = firstn 10 (Raw_payload (head 100 "{hello")
         :: firstn 10 (Failed_to_parse SyntaxError
              :: firstn 10 (Received "d02/telemetry" (head 80 "{hello")
                   :: logs initial)))
  /\ readings_kept_or_read (sensors initial)
       (sensors (after_message "d02/telemetry" "d02/telemetry"
                   "STM32_DATA_P701_STxx" initial)).
Proof.
  pose proof (proj1 (proj2 (C6_handler_never_throws "d02/telemetry"
                              "d02/telemetry" "{hello" initial))
                SyntaxError eq_refl eq_refl eq_refl) as H.
  pose proof (proj1 (proj2 (proj2 (C6_handler_never_throws "d02/telemetry"
                                     "d02/telemetry" "STM32_DATA_P701_STxx"
                                     initial)) eq_refl)) as K.
  cbv zeta in *. tauto.
Defined.

(** C6, where the code goes against it: a legacy JSON payload cut down to
    its first member replaces the pressure and the air humidity by
    [undefined], the soil humidity by NaN and the state of the irrigation
    pump by [undefined]; the sensor grid, which could be drawn before, can
    no longer be. *)
Lemma C6_truncated_payload_replaces_values :
  let st' := after_message "d02/telemetry" "d02/telemetry"
               truncated_legacy initial in
  pressure (sensors initial) = Num 825
  /\ pressure (sensors st') = Undefined
  /\ soilHumidity (sensors st') = Num nan
  /\ irrigation (pumps st') = Undefined
  /\ dataSource st' = "mqtt-json-legacy"
  /\ render_readings (sensors initial) = Ok tt
  /\ render_readings (sensors st') = Throw TypeError.
Proof. vm_compute. repeat split; reflexivity. Qed.

(** ** Readings of zero *)

Lemma parseInt_or_zero (t : string) (prev : value) :
  PrimFloat.eqb (parseInt t) 0 = true -> parseInt_or t prev = prev.
Proof.
  intros H. unfold parseInt_or, or_else. cbn [truthy]. rewrite H. reflexivity.
Qed.

Lemma text_or_present (cap : option string) (d d' : string) :
  present cap = true -> text_or cap d = text_or cap d'.
Proof.
  destruct cap as [c|]; cbn; [|discriminate].
  destruct (is_empty c); [discriminate|reflexivity].
Qed.

(** C9: in the prefixed positional, the ultra-short and the key=value
    format, a field whose capture is absent, or reads as zero, keeps the
    value the sensor had. *)
Theorem C9_zero_reading_keeps_value (payloadStr : string) (st : State) :
  let old := sensors st in
  let clean := replace payloadStr "STM32_DATA_" "" in
  let a := sensors (fst (stm32_simple payloadStr st)) in
  let b := sensors (fst (stm32_ultra payloadStr st)) in
  let c := sensors (fst (stm32_comprehensive payloadStr st)) in
  ((zero_or_absent (capture_digits "P" clean) -> pressure a = pressure old)
   /\ (zero_or_absent (capture_digits "ST" clean) -> soilTemp a = soilTemp old)
   /\ (zero_or_absent (capture_digits "SH" clean) ->
       soilHumidity a = soilHumidity old)
   /\ (zero_or_absent (capture_digits "WL" clean) ->
       waterLevel a = waterLevel old)
   /\ (zero_or_absent (capture_digits "AT" clean) -> airTemp a = airTemp old)
   /\ (zero_or_absent (capture_digits "AH" clean) ->
       airHumidity a = airHumidity old))
  /\ ((zero_or_absent (capture_digits "P" payloadStr) ->
       pressure b = pressure old)
      /\ (zero_or_absent (capture_digits "T" payloadStr) ->
          soilTemp b = soilTemp old)
      /\ (zero_or_absent (capture_digits "H" payloadStr) ->
          soilHumidity b = soilHumidity old)
      /\ (zero_or_absent (capture_digits "W" payloadStr) ->
          waterLevel b = waterLevel old)
      /\ (zero_or_absent (capture_digits "A" payloadStr) ->
          airTemp b = airTemp old)
      /\ (zero_or_absent (capture_digits_at_end "H" payloadStr) ->
          airHumidity b = airHumidity old))
  /\ ((zero_or_absent (capture_digits "p=" payloadStr) ->
       pressure c = pressure old)
      /\ (zero_or_absent (capture_digits "st=" payloadStr) ->
          soilTemp c = soilTemp old)
      /\ (zero_or_absent (capture_digits "sh=" payloadStr) ->
          soilHumidity c = soilHumidity old)
      /\ (zero_or_absent (capture_digits "wl=" payloadStr) ->
          waterLevel c = waterLevel old)
      /\ (zero_or_absent (capture_digits "at=" payloadStr) ->
          airTemp c = airTemp old)
      /\ (zero_or_absent (capture_digits "ah=" payloadStr) ->
          airHumidity c = airHumidity old)).
Proof.
  cbv zeta. unfold stm32_simple, stm32_ultra, stm32_comprehensive.
  split; [|split].
  - destruct (present (capture_digits "P" _)) eqn:Hp;
      [|repeat split; reflexivity].
    destruct (present (capture_digits "ST" _)) eqn:Hs;
      [|repeat split; reflexivity].
    cbn [andb]. unfold zero_or_absent, bind, setSensors, setDataSource, addLog.
    cbn [fst snd sensors six_fields pressure soilTemp soilHumidity waterLevel
         airTemp airHumidity].
    rewrite (text_or_present _ "" "0" Hp), (text_or_present _ "" "0" Hs).
    repeat split; intros H; apply parseInt_or_zero; exact H.
  - destruct (present (capture_digits "P" _)) eqn:Hp;
      [|repeat split; reflexivity].
    destruct (present (capture_digits "T" _)) eqn:Hs;
      [|repeat split; reflexivity].
    cbn [andb]. unfold zero_or_absent, bind, setSensors, setDataSource, addLog.
    cbn [fst snd sensors six_fields pressure soilTemp soilHumidity waterLevel
         airTemp airHumidity].
    rewrite (text_or_present _ "" "0" Hp), (text_or_present _ "" "0" Hs).
    repeat split; intros H; apply parseInt_or_zero; exact H.
  - destruct (present (capture_digits "st=" _)) eqn:Hs;
      [|repeat split; reflexivity].
    destruct (present (capture_digits "at=" _)) eqn:Ha;
      [|repeat split; reflexivity].
    destruct (present (capture_digits "p=" _)) eqn:Hp;
      [|repeat split; reflexivity].
    cbn [andb]. unfold zero_or_absent, bind, setSensors, setDataSource, addLog.
    cbn [fst snd sensors six_fields pressure soilTemp soilHumidity waterLevel
         airTemp airHumidity].
    rewrite (text_or_present _ "" "0" Hp), (text_or_present _ "" "0" Hs),
      (text_or_present _ "" "0" Ha).
    repeat split; intros H; apply parseInt_or_zero; exact H.
Qed.

Lemma C9_zero_reading_keeps_value_witness :
  waterLevel (sensors (fst (stm32_comprehensive zero_water initial)))
  = waterLevel (sensors initial).
Proof.
  exact (proj1 (proj2 (proj2 (proj2 (proj2 (proj2
           (C9_zero_reading_keeps_value zero_water initial))))))
           eq_refl).
Defined.

(** ** JSON objects of no known shape *)





(** * Further properties of the page, the relay route and the avatar *)

(** ** The length of the log *)

Lemma stays_short_refl (l : list log) : stays_short l l.
Proof. intros H. exact H. Qed.

Lemma stays_short_trans (x y z : list log) :
  stays_short x y -> stays_short y z -> stays_short x z.
Proof. unfold stays_short. auto. Qed.

Lemma addLog_short (l : log) (st : State) :
  (List.length (logs (fst (addLog l st))) <= 10)%nat.
Proof.
  unfold addLog. cbn [fst logs]. rewrite length_firstn. apply Nat.le_min_l.
Qed.

(** X1: after a message, whatever its topic and payload, the log holds at
    most ten lines. *)
Theorem log_holds_at_most_ten_lines (telemetry topic payloadStr : string)
  (st : State) :
  (List.length (logs (after_message telemetry topic payloadStr st)) <= 10)%nat.
Proof.
  unfold after_message, on_message.
  destruct (String.eqb topic telemetry || String.eqb topic "d02/status"
            || String.eqb topic "d02/telemetry" || String.eqb topic "test").
  - unfold try_catch, bind at 1.
    cbn [fst snd]. change (snd (addLog ?l st)) with (Ok tt).
    set (st1 := fst (addLog (Received topic (head 80 payloadStr)) st)).
    assert (H1 : (List.length (logs st1) <= 10)%nat) by apply addLog_short.
    match goal with
    | |- context [match addLog _ st with _ => _ end] =>
        change (addLog (Received topic (head 80 payloadStr)) st)
          with (st1, Ok tt)
    end.
    cbv iota beta.
    match goal with
    | |- context [?body st1] =>
        assert (Hb : steps (on logs stays_short) body)
    end.
    { unfold status_topic, test_topic, decode, json_branch,
        stm32_json, legacy_json, simple_json, stm32_simple, stm32_ultra,
        stm32_bme280, stm32_comprehensive, stm32_compact, stm32_status.
      steps_with stays_short_refl stays_short_trans;
        intros ? _; apply addLog_short. }
    specialize (Hb st1 H1).
    match goal with
    | |- context [?body st1] => destruct (body st1) as [st2 [[]|e]]
    end; cbn [fst snd] in *.
    + exact Hb.
    + apply addLog_short.
  - apply addLog_short.
Qed.

(** ** The tags the handler sets *)

Lemma tag_among_refl (tags : list string) (t : string) : tag_among tags t t.
Proof. left. reflexivity. Qed.

Lemma tag_among_trans (tags : list string) (x y z : string) :
  tag_among tags x y -> tag_among tags y z -> tag_among tags x z.
Proof.
  unfold tag_among. intros [->|Hy] [->|Hz]; auto.
Qed.

Lemma setDataSource_among (tags : list string) (tag : string) :
  In tag tags -> steps (on dataSource (tag_among tags)) (setDataSource tag).
Proof. intros H st. right. exact H. Qed.

(** X2: a message leaves the tag as it is or sets it to one of the ten tags
    [stm32-json], [mqtt-json-legacy], [mqtt-json-simple], [stm32-simple],
    [stm32-ultra], [stm32-bme280], [stm32-comprehensive], [stm32-compact],
    [stm32-status], [mqtt-test]; the tags [mqtt-json] and [fallback], which
    the header of the page has a label for, are not among them. *)
Theorem handler_sets_only_its_tags (telemetry topic payloadStr : string)
  (st : State) :
  let tag := dataSource (after_message telemetry topic payloadStr st) in
  (tag = dataSource st \/ In tag handler_tags)
  /\ existsb (String.eqb "mqtt-json") handler_tags = false
  /\ existsb (String.eqb "fallback") handler_tags = false.
Proof.
  cbv zeta.
  assert (H : steps (on dataSource (tag_among handler_tags))
                (on_message telemetry topic payloadStr)).
  { unfold on_message, status_topic, test_topic, decode, json_branch,
      stm32_json, legacy_json, simple_json, stm32_simple, stm32_ultra,
      stm32_bme280, stm32_comprehensive, stm32_compact, stm32_status.
    steps_with (tag_among_refl handler_tags) (tag_among_trans handler_tags);
      apply setDataSource_among; cbn; tauto. }
  split; [exact (H st)|split; reflexivity].
Qed.

(** ** What a message can change, by topic and by format *)

(** A goal [f (fst (m st)) = f st] where the statements [m] keep [f]. *)
Ltac frame_by_keeps :=
  match goal with
  | |- ?f (fst (?m ?st)) = ?f ?st =>
      let Hk := fresh in
      assert (Hk : keeps f m) by (unfold status_topic, test_topic; keeps_all);
      apply Hk
  end.

(** X3: only a message on a telemetry topic (the configured topic or
    [d02/telemetry], when it is neither [d02/status] nor [test]) can change
    sensors, valves or tag, except that a message on [test] can set the tag;
    and such a message changes the valves only when its payload begins with
    a brace. *)
Theorem sensors_and_valves_change_on_telemetry_only
  (telemetry topic payloadStr : string) (st : State) :
  let st' := after_message telemetry topic payloadStr st in
  (is_telemetry_topic telemetry topic = false ->
   sensors st' = sensors st /\ valves st' = valves st
   /\ (String.eqb topic "test" = false -> dataSource st' = dataSource st)
   /\ (String.eqb topic "d02/status" = false -> pumps st' = pumps st))
  /\ (startsWith payloadStr "{" = false -> valves st' = valves st).
Proof.
  cbv zeta. unfold after_message, on_message, is_telemetry_topic. split.
  - intros H.
    destruct (String.eqb topic "d02/status") eqn:Es.
    + rewrite !orb_true_r. cbn [orb]. cbv iota.
      repeat split; try discriminate; try intros _; frame_by_keeps.
    + destruct (String.eqb topic "test") eqn:Et.
      * rewrite !orb_true_r. cbv iota.
        repeat split; try discriminate; try intros _; frame_by_keeps.
      * cbn [negb andb] in H. rewrite !andb_true_r in H.
        apply orb_false_iff in H. destruct H as [H1 H2]. rewrite H1, H2.
        cbn [orb]. repeat split.
  - intros Hj.
    match goal with |- valves (fst (?m st)) = _ =>
      assert (Hk : keeps valves m); [|apply Hk] end.
    apply keeps_if; [|apply addLog_keeps].
    apply keeps_try_catch; [|intros e; keeps_all].
    apply keeps_bind; [apply addLog_keeps|intros _].
    apply keeps_if; [unfold status_topic; keeps_all|].
    apply keeps_if; [unfold test_topic; keeps_all|].
    unfold decode. rewrite Hj.
    unfold stm32_simple, stm32_ultra, stm32_bme280, stm32_comprehensive,
      stm32_compact, stm32_status.
    keeps_all.
Qed.

Lemma sensors_and_valves_change_on_telemetry_only_witness :
  valves (after_message "d02/telemetry" "d02/telemetry" status_message
            after_json) = valves after_json
  /\ sensors (after_message "d02/telemetry" "d02/status"
                "pump_irrigation=ON" after_json) = sensors after_json.
Proof.
  split.
  - exact (proj2 (sensors_and_valves_change_on_telemetry_only "d02/telemetry"
                    "d02/telemetry" status_message after_json) eq_refl).
  - exact (proj1 (proj1 (sensors_and_valves_change_on_telemetry_only
                           "d02/telemetry" "d02/status" "pump_irrigation=ON"
                           after_json) eq_refl)).
Defined.

(** ** Readings that stay numbers *)

Lemma stay_numbers_refl (s : Sensors) : stay_numbers s s.
Proof. intros H. exact H. Qed.

Lemma stay_numbers_trans (x y z : Sensors) :
  stay_numbers x y -> stay_numbers y z -> stay_numbers x z.
Proof. unfold stay_numbers. auto. Qed.

Lemma stay_booleans_refl (p : Pumps) : stay_booleans p p.
Proof. intros H. exact H. Qed.

Lemma stay_booleans_trans (x y z : Pumps) :
  stay_booleans x y -> stay_booleans y z -> stay_booleans x z.
Proof. unfold stay_booleans. auto. Qed.

Lemma or_else_number (x : float) (v : value) :
  typeof_number v = true -> typeof_number (or_else (Num x) v) = true.
Proof.
  intros H. unfold or_else. destruct (truthy (Num x)); [reflexivity|exact H].
Qed.

Lemma all_numbers_fields (s : Sensors) :
  all_numbers s = true ->
  typeof_number (pressure s) = true /\ typeof_number (soilTemp s) = true
  /\ typeof_number (soilHumidity s) = true
  /\ typeof_number (waterLevel s) = true
  /\ typeof_number (airTemp s) = true /\ typeof_number (airHumidity s) = true.
Proof.
  unfold all_numbers. rewrite !andb_true_iff. tauto.
Qed.

Lemma all_numbers_render (s : Sensors) :
  all_numbers s = true -> render_readings s = Ok tt.
Proof.
  intros H. apply all_numbers_fields in H.
  destruct H as (_ & H2 & H3 & H4 & H5 & H6). unfold render_readings.
  destruct (soilTemp s), (soilHumidity s), (waterLevel s), (airTemp s),
    (airHumidity s); try discriminate; reflexivity.
Qed.

(** A goal [steps (on sensors stay_numbers) (setSensors g)] where each
    field of [g prev] is a number or, failing that, the field of [prev]. *)
Ltac numbers_stay :=
  let st := fresh "st" in
  let H := fresh "H" in
  intros st H; unfold on, stay_numbers in *; cbn [fst sensors setSensors];
  apply all_numbers_fields in H;
  destruct H as (? & ? & ? & ? & ? & ?);
  unfold all_numbers, six_fields, parseInt_or;
  cbn [pressure soilTemp soilHumidity waterLevel airTemp airHumidity];
  rewrite ?or_else_number by assumption;
  repeat match goal with H : _ = true |- _ => rewrite H end;
  reflexivity.

(** X4: a payload that does not begin with a brace keeps readings that are
    numbers numbers, so that the sensor grid of the page, which calls
    [toFixed] on them, can still be drawn; and it keeps pump states that
    are booleans booleans. *)
Theorem text_payloads_keep_the_state_typed
  (telemetry topic payloadStr : string) (st : State)
  (Htext : startsWith payloadStr "{" = false) :
  let st' := after_message telemetry topic payloadStr st in
  (all_numbers (sensors st) = true ->
   all_numbers (sensors st') = true /\ render_readings (sensors st') = Ok tt)
  /\ (typeof_boolean (irrigation (pumps st))
      && typeof_boolean (suction (pumps st)) = true ->
      typeof_boolean (irrigation (pumps st'))
      && typeof_boolean (suction (pumps st')) = true).
Proof.
  cbv zeta. split.
  - assert (H : steps (on sensors stay_numbers)
                  (on_message telemetry topic payloadStr)).
    { unfold on_message, decode. rewrite Htext.
      unfold status_topic, test_topic, stm32_simple, stm32_ultra,
        stm32_bme280, stm32_comprehensive, stm32_compact, stm32_status.
      steps_with stay_numbers_refl stay_numbers_trans; numbers_stay. }
    intros Hn. specialize (H st Hn). fold (after_message telemetry topic
      payloadStr st) in H. split; [exact H|apply all_numbers_render, H].
  - assert (H : steps (on pumps stay_booleans)
                  (on_message telemetry topic payloadStr)).
    { unfold on_message, decode. rewrite Htext.
      unfold status_topic, test_topic, stm32_simple, stm32_ultra,
        stm32_bme280, stm32_comprehensive, stm32_compact, stm32_status.
      steps_with stay_booleans_refl stay_booleans_trans;
        intros ? Hb; unfold on, stay_booleans in *;
        cbn [fst pumps setPumps irrigation suction typeof_boolean andb] in *;
        try reflexivity; try exact Hb;
        apply andb_true_iff in Hb; destruct Hb as [Hb1 Hb2];
        rewrite ?Hb1, ?Hb2; reflexivity. }
    intros Hb. exact (H st Hb).
Qed.

Lemma text_payloads_keep_the_state_typed_witness :
  let st' := after_message "d02/telemetry" "d02/telemetry" zero_water
               initial in
  all_numbers (sensors st') = true /\ render_readings (sensors st') = Ok tt.
Proof.
  exact (proj1 (text_payloads_keep_the_state_typed "d02/telemetry"
                  "d02/telemetry" zero_water initial eq_refl) eq_refl).
Defined.

(** ** JSON payloads and the sensor grid *)

(** X5: after a nested JSON payload whose series are arrays of numbers, the
    sensor grid of the page can be drawn if the payload's [bme.t] and
    [bme.h] are numbers; if one of them is not (it is missing, or a text),
    [toFixed] is called on a value that has no such method, and the
    drawing throws. *)
Theorem nested_json_needs_temperature_and_humidity
  (telemetry topic payloadStr : string)
  (props bprops : list (string * value)) (temps soils waters : list float)
  (st : State)
  (Htopic : is_telemetry_topic telemetry topic = true)
  (Hjson : startsWith payloadStr "{" = true)
  (Hparse : JSON.parse payloadStr = Ok (Obj props))
  (Hbme : lookup "bme" props = Obj bprops)
  (Ht : is_defined (lookup "t" bprops) = true)
  (Htemps : is_series (lookup "ds18b20" props) temps)
  (Hsoils : is_series (lookup "soil" props) soils)
  (Hwaters : is_series (lookup "water" props) waters) :
  render_readings (sensors (after_message telemetry topic payloadStr st))
  = if typeof_number (lookup "t" bprops) && typeof_number (lookup "h" bprops)
    then Ok tt else Throw TypeError.
Proof.
  rewrite (nested_json_sensors _ _ _ _ _ _ _ _ st Htopic Hjson Hparse Hbme Ht
             Htemps Hsoils Hwaters).
  unfold render_readings.
  cbn [soilTemp soilHumidity waterLevel airTemp airHumidity].
  destruct (valid temps), soils, waters, (lookup "t" bprops),
    (lookup "h" bprops); reflexivity.
Qed.

Lemma nested_json_needs_temperature_and_humidity_witness :
  render_readings
    (sensors (after_message "d02/telemetry" "d02/telemetry" no_humidity
                initial))
  = Throw TypeError.
Proof.
  exact (nested_json_needs_temperature_and_humidity "d02/telemetry"
           "d02/telemetry" no_humidity no_humidity_props
           [("p", Num 1000); ("t", Num 25)] [] [] [] initial
           eq_refl eq_refl eq_refl eq_refl eq_refl
           (or_intror (conj eq_refl eq_refl))
           (or_intror (conj eq_refl eq_refl))
           (or_intror (conj eq_refl eq_refl))).
Defined.

(** X6: a JSON payload of the old flat shape (numbers [pressure] and
    [soilTemp], no [bme], no [bme_t]) stores each of its six readings that
    is neither missing nor [null] and keeps the others; it forgets the
    three series, leaves pumps and valves alone and sets the tag
    [mqtt-json-simple]. *)
Theorem simple_json_merges_readings (telemetry topic payloadStr : string)
  (props : list (string * value)) (st : State)
  (Htopic : is_telemetry_topic telemetry topic = true)
  (Hjson : startsWith payloadStr "{" = true)
  (Hparse : JSON.parse payloadStr = Ok (Obj props))
  (Hbme : truthy (lookup "bme" props) = false)
  (Hbme_t : truthy (lookup "bme_t" props) = false)
  (Hp : typeof_number (lookup "pressure" props) = true)
  (Hst : typeof_number (lookup "soilTemp" props) = true) :
  let st' := after_message telemetry topic payloadStr st in
  let old := sensors st in
  sensors st'
  = {| pressure := lookup "pressure" props;
       soilTemp := lookup "soilTemp" props;
       soilHumidity := nullish (lookup "soilHumidity" props) (soilHumidity old);
       waterLevel := nullish (lookup "waterLevel" props) (waterLevel old);
       airTemp := nullish (lookup "airTemp" props) (airTemp old);
       airHumidity := nullish (lookup "airHumidity" props) (airHumidity old);
       ds_t := Undefined; soil := Undefined; water := Undefined |}
  /\ pumps st' = pumps st /\ valves st' = valves st
  /\ dataSource st' = "mqtt-json-simple".
Proof.
  assert (E : forall s, decode payloadStr s = simple_json (Obj props) s).
  { intros s. unfold decode. rewrite Hjson. unfold json_branch.
    rewrite Hparse. unfold bind at 1. cbn [eval].
    unfold is_stm32_json. cbn [typeof_object get rbind]. rewrite Hbme.
    unfold bind at 1. cbn [eval].
    unfold is_legacy_json. cbn [typeof_object get rbind]. rewrite Hbme_t.
    unfold bind at 1. cbn [eval].
    unfold is_simple_json. cbn [typeof_object get rbind]. rewrite Hp.
    cbn [rbind]. rewrite Hst.
    unfold bind at 1. cbn [eval]. reflexivity. }
  cbv zeta.
  rewrite (after_message_decode _ _ _ _ Htopic sensors);
    [|keeps_all|intros e; keeps_all].
  rewrite (after_message_decode _ _ _ _ Htopic pumps);
    [|keeps_all|intros e; keeps_all].
  rewrite (after_message_decode _ _ _ _ Htopic valves);
    [|keeps_all|intros e; keeps_all].
  rewrite (after_message_decode _ _ _ _ Htopic dataSource);
    [|keeps_all|intros e; keeps_all].
  rewrite !E. unfold simple_json. cbn [get].
  unfold bind, eval, setSensors, setDataSource, addLog.
  cbn [fst snd sensors pumps valves dataSource logs showPopup].
  destruct (lookup "pressure" props); try discriminate.
  destruct (lookup "soilTemp" props); try discriminate.
  repeat split.
Qed.

Lemma simple_json_merges_readings_witness :
  let st' := after_message "d02/telemetry" "d02/telemetry" flat_object
               initial in
  waterLevel (sensors st') = Num 10 /\ pressure (sensors st') = Num 900
  /\ dataSource st' = "mqtt-json-simple".
Proof.
  pose proof (simple_json_merges_readings "d02/telemetry" "d02/telemetry"
                flat_object flat_props initial
                eq_refl eq_refl eq_refl eq_refl eq_refl eq_refl eq_refl) as H.
  cbv zeta in H. destruct H as (Hs & _ & _ & Ht).
  cbv zeta. rewrite Hs, Ht. repeat split.
Defined.

(** ** The dispatcher and the relay route *)

Lemma save_command_out (d : db_outcome) (type : string) (st : State) :
  List.filter goes_out (snd (save_command d type st)) = [].
Proof. destruct d; reflexivity. Qed.

Lemma save_command_keeps {B : Type} (f : State -> B) (d : db_outcome)
  (type : string) :
  (forall l, keeps f (addLog l)) ->
  forall st, f (fst (save_command d type st)) = f st.
Proof.
  intros H st. destruct d; cbn [save_command fst];
    try reflexivity; apply H.
Qed.

Lemma publishPumpControl_keeps {B : Type} (f : State -> B)
  (c : option Client) (type : string) :
  (forall l, keeps f (addLog l)) ->
  forall st, f (fst (fst (publishPumpControl c type st))) = f st.
Proof.
  intros H st. unfold publishPumpControl.
  destruct c as [cl|]; [|apply H].
  destruct (connected cl); cbn [negb]; [|apply H].
  destruct (publish_throws cl); [apply H|reflexivity].
Qed.

Lemma publishPumpControl_sent (c : option Client) (type : string)
  (st : State) :
  snd (fst (publishPumpControl c type st)) = can_publish c
  /\ snd (publishPumpControl c type st)
     = if can_publish c then [Mqtt_publish "d02/cmd" (toUpperCase type)]
       else [].
Proof.
  unfold publishPumpControl, can_publish.
  destruct c as [cl|]; [|split; reflexivity].
  destruct (connected cl), (publish_throws cl); split; reflexivity.
Qed.

(** X7: [publishPumpControl] answers [true] exactly when it has handed the
    command, in capitals, to the client for [d02/cmd]; and [controlPump]
    sends every command towards the device exactly once: by that publish,
    or else by one post to the relay. *)
Theorem each_command_goes_out_once (e : Dispatch.Env) (type : string)
  (st : State) :
  (snd (fst (publishPumpControl (client e) type st)) = true
   <-> snd (publishPumpControl (client e) type st)
       = [Mqtt_publish "d02/cmd" (toUpperCase type)])
  /\ List.filter goes_out (snd (controlPump e type st))
     = [if can_publish (client e)
        then Mqtt_publish "d02/cmd" (toUpperCase type)
        else Http_post "/api/pump" type 300].
Proof.
  split.
  - destruct (publishPumpControl_sent (client e) type st) as [H1 H2].
    rewrite H1, H2. destruct (can_publish (client e)); split;
      intros H; try reflexivity; discriminate H.
  - unfold controlPump, controlPump_publish.
    pose proof (save_command_out (db e) type
                  (fst (addLog (Control_pump type) st))) as Hs.
    destruct (save_command (db e) type _) as [st2 saved]. cbn [snd] in Hs.
    pose proof (publishPumpControl_sent (client e) type st2) as [H1 H2].
    destruct (publishPumpControl (client e) type st2) as [[st3 sent] out].
    cbn [fst snd] in H1, H2. subst sent out.
    destruct (can_publish (client e)); cbn [negb].
    + cbn [snd]. rewrite !filter_app, Hs. reflexivity.
    + unfold relay_fallback. cbn [snd].
      rewrite !filter_app, Hs. reflexivity.
Qed.

(** X8: [controlPump] never changes the sensors, the valves or the tag, and
    it closes the popup, whatever the command and whatever becomes of the
    saved row, the publish and the post. *)
Theorem controlPump_leaves_readings_alone (e : Dispatch.Env) (type : string)
  (st : State) :
  let st' := fst (controlPump e type st) in
  sensors st' = sensors st /\ valves st' = valves st
  /\ dataSource st' = dataSource st /\ showPopup st' = false.
Proof.
  cbv zeta.
  assert (H : forall {B : Type} (f : State -> B),
            (forall l, keeps f (addLog l)) ->
            (forall g, keeps f (setPumps g)) ->
            keeps f (setShowPopup false) ->
            f (fst (controlPump e type st)) = f st).
  { intros B f Hl Hp Hs. unfold controlPump, controlPump_publish.
    pose proof (save_command_keeps f (db e) type Hl
                  (fst (addLog (Control_pump type) st))) as H2.
    destruct (save_command (db e) type _) as [st2 saved]. cbn [fst] in H2.
    pose proof (publishPumpControl_keeps f (client e) type Hl st2) as H3.
    destruct (publishPumpControl (client e) type st2) as [[st3 sent] out].
    cbn [fst] in H3.
    assert (H4 : f (fst (optimistic_update type st3)) = f st3).
    { assert (Hk : keeps f (optimistic_update type)).
      { unfold optimistic_update.
        repeat first [ apply keeps_if | apply keeps_bind; [|intros ?]
                     | apply keeps_ret | apply Hp | apply Hl ]. }
      apply Hk. }
    set (st4 := fst (optimistic_update type st3)) in *.
    assert (H5 : forall s, f (fst (relay_fallback (fetch e) type s)) = f s).
    { intros s. unfold relay_fallback. cbn [fst].
      destruct (fetch e type) as [|[] []].
      - rewrite Hl. apply Hl.
      - assert (Hk : keeps f (setPumps (fun prev =>
                   if String.eqb type "pompa"
                   then {| irrigation := Bool true; suction := suction prev |}
                   else {| irrigation := irrigation prev;
                           suction := Bool true |}) ;;; addLog API_ok)).
        { apply keeps_bind; [apply Hp|intros _; apply Hl]. }
        rewrite Hk. apply Hl.
      - rewrite Hl. apply Hl.
      - rewrite Hl. apply Hl.
      - rewrite Hl. apply Hl. }
    destruct sent; cbn [negb fst].
    - rewrite Hs, H4, H3, H2. apply Hl.
    - specialize (H5 st4).
      destruct (relay_fallback (fetch e) type st4) as [st5 posted].
      cbn [fst] in *. rewrite Hs, H5, H4, H3, H2. apply Hl. }
  repeat split.
  - apply H; intros; try apply addLog_keeps; try apply setPumps_keeps.
    intros s; reflexivity.
  - apply H; intros; try apply addLog_keeps; try apply setPumps_keeps.
    intros s; reflexivity.
  - apply H; intros; try apply addLog_keeps; try apply setPumps_keeps.
    intros s; reflexivity.
  - unfold controlPump.
    destruct (controlPump_publish e type st) as [[st4 sent] out].
    destruct (if negb sent then _ else _) as [st5 posted]. reflexivity.
Qed.

(** X9: when the page cannot publish [stop] itself and the relay route,
    reaching its broker, serves the post, the device is sent [STOP], the
    route saves the row of a [suction] pump, and the page, which turned
    both pumps off, then shows the suction pump as on: it takes the success
    of any command but [pompa] for the start of the suction pump. *)
Theorem stop_through_the_relay_shows_suction_on (e : Dispatch.Env)
  (re : Relay.Env) (st : State)
  (Hoff : can_publish (client e) = false)
  (Hfetch : fetch e "stop" = Relay.fetch_from re "stop")
  (Hdb : Relay.supabase_configured re = true)
  (Hup : Relay.broker re = Relay.Published) :
  Relay.POST re (request_body "stop")
  = (Relay.Json 200 true,
     [Mqtt_publish (Relay.MQTT_TOPIC re) "STOP";
      Db_insert "STOP" "suction" "api"])
  /\ pumps (fst (fst (controlPump_publish e "stop" st)))
     = {| irrigation := Bool false; suction := Bool false |}
  /\ pumps (fst (controlPump e "stop" st))
     = {| irrigation := Bool false; suction := Bool true |}.
Proof.
  assert (HP : Relay.POST re (request_body "stop")
               = (Relay.Json 200 true,
                  [Mqtt_publish (Relay.MQTT_TOPIC re) "STOP";
                   Db_insert "STOP" "suction" "api"])).
  { unfold Relay.POST, Relay.check_command, request_body.
    cbn -[Relay.MQTT_TOPIC]. rewrite Hdb. cbn -[Relay.MQTT_TOPIC].
    rewrite Hup. reflexivity. }
  split; [exact HP|].
  assert (HF : fetch e "stop" = Reply true true).
  { rewrite Hfetch. unfold Relay.fetch_from.
    change (Ok (Obj [("command", Str "stop");
                     ("duration_seconds", Num 300)]))
      with (request_body "stop").
    rewrite HP. reflexivity. }
  unfold controlPump, controlPump_publish.
  destruct (save_command (db e) "stop" _) as [st2 saved].
  pose proof (publishPumpControl_sent (client e) "stop" st2) as [H1 _].
  destruct (publishPumpControl (client e) "stop" st2) as [[st3 sent] out].
  cbn [fst snd] in H1. rewrite Hoff in H1. subst sent.
  split; [reflexivity|].
  cbn [negb]. unfold relay_fallback. rewrite HF. reflexivity.
Qed.

Lemma stop_through_the_relay_shows_suction_on_witness :
  pumps (fst (controlPump offline_relayed "stop" initial))
  = {| irrigation := Bool false; suction := Bool true |}.
Proof.
  exact (proj2 (proj2 (stop_through_the_relay_shows_suction_on
                         offline_relayed relay_up initial
                         eq_refl eq_refl eq_refl eq_refl))).
Defined.

(** X10: whatever the body of the request, the relay route publishes
    nothing but [STOP], [SEDOT], [POMPA] or [POMPA:] with the duration, and
    only on its command topic; and it saves a row only for a command it has
    published and seen confirmed, with an answer of status 200. *)
Theorem relay_publishes_known_commands_only (e : Relay.Env)
  (body : result value) :
  (forall topic payload,
     In (Mqtt_publish topic payload) (snd (Relay.POST e body)) ->
     topic = Relay.MQTT_TOPIC e
     /\ (payload = "STOP" \/ payload = "SEDOT" \/ payload = "POMPA"
         \/ exists d, payload = "POMPA:" ++ d))
  /\ (forall command pump_type source,
        In (Db_insert command pump_type source) (snd (Relay.POST e body)) ->
        fst (Relay.POST e body) = Relay.Json 200 true
        /\ source = "api"
        /\ Relay.is_command (Some command) = true
        /\ exists payload,
             In (Mqtt_publish (Relay.MQTT_TOPIC e) payload)
               (snd (Relay.POST e body)))
  /\ (forall url command d,
        ~ In (Http_post url command d) (snd (Relay.POST e body))).
Proof.
  unfold Relay.POST.
  destruct (Relay.check_command e body) as [r|[cmd d]] eqn:E.
  - repeat split; intros; cbn in *; tauto.
  - assert (Hc : Relay.is_command (Some cmd) = true).
    { unfold Relay.check_command in E.
      destruct (b <-r body;; _) as [[up dd]|]; [|discriminate].
      destruct (Relay.is_command up) eqn:Eup; cbn [negb] in E;
        [|discriminate].
      destruct up as [c|]; [|discriminate].
      injection E as <- _. exact Eup. }
    assert (Hp : forall payload, Relay.payload_of cmd d = Ok payload ->
                 payload = "STOP" \/ payload = "SEDOT" \/ payload = "POMPA"
                 \/ exists x, payload = "POMPA:" ++ x).
    { intros payload. unfold Relay.payload_of.
      unfold Relay.is_command in Hc. cbn [existsb] in Hc.
      destruct (String.eqb_spec cmd "START") as [->|_].
      - cbn [orb]. destruct (gt d 0) as [[]|]; cbn [rbind];
          [|intros [= <-]; tauto|discriminate].
        destruct (ToString d); cbn [rbind]; [|discriminate].
        intros [= <-]. right. right. right. eexists. reflexivity.
      - destruct (String.eqb_spec cmd "STOP") as [->|_].
        + cbn. intros [= <-]. tauto.
        + destruct (String.eqb_spec cmd "POMPA") as [->|_].
          * cbn [orb String.eqb Ascii.eqb Bool.eqb].
            destruct (gt d 0) as [[]|]; cbn [rbind];
              [|intros [= <-]; tauto|discriminate].
            destruct (ToString d); cbn [rbind]; [|discriminate].
            intros [= <-]. right. right. right. eexists. reflexivity.
          * destruct (String.eqb_spec cmd "SEDOT") as [->|_];
              [|discriminate Hc].
            cbn. intros [= <-]. tauto. }
    destruct (Relay.broker e);
      try (repeat split; intros; cbn in *; tauto);
      destruct (Relay.payload_of cmd d) as [payload|] eqn:Ep;
      try (repeat split; intros; cbn in *; tauto).
    + split; [|split].
      * intros topic p [H|[]]. injection H as <- <-.
        split; [reflexivity|apply Hp; reflexivity].
      * intros c pt s [H|[]]. discriminate H.
      * intros url c x [H|[]]. discriminate H.
    + split; [|split].
      * intros topic p [H|[]]. injection H as <- <-.
        split; [reflexivity|apply Hp; reflexivity].
      * intros c pt s [H|[]]. discriminate H.
      * intros url c x [H|[]]. discriminate H.
    + split; [|split].
      * intros topic p [H|[H|[]]]; [|discriminate H].
        injection H as <- <-.
        split; [reflexivity|apply Hp; reflexivity].
      * intros c pt s [H|[H|[]]]; [discriminate H|].
        injection H as <- _ <-.
        repeat split; try assumption.
        exists payload. left. reflexivity.
      * intros url c x [H|[H|[]]]; discriminate H.
Qed.

(** ** The avatar *)

Lemma SFltb_trans (a b c : spec_float) :
  SFltb a b = true -> SFltb b c = true -> SFltb a c = true.
Proof.
  unfold SFltb.
  destruct a as [sa|sa| |sa ma ea], b as [sb|sb| |sb mb eb],
    c as [sc|sc| |sc mc ec]; cbn;
    try discriminate; try reflexivity;
    try (destruct sa; discriminate || reflexivity);
    try (destruct sb; discriminate || reflexivity);
    try (destruct sc; discriminate || reflexivity);
    try (destruct sa, sb; discriminate || reflexivity);
    try (destruct sa, sc; discriminate || reflexivity);
    try (destruct sb, sc; discriminate || reflexivity);
    try (destruct sa, sb, sc; discriminate || reflexivity).
  change (PosDef.Pos.compare_cont Eq ma mb) with (Pos.compare ma mb).
  change (PosDef.Pos.compare_cont Eq mb mc) with (Pos.compare mb mc).
  change (PosDef.Pos.compare_cont Eq ma mc) with (Pos.compare ma mc).
  destruct sa, sb, sc; try discriminate; try reflexivity;
    destruct (Z.compare_spec ea eb), (Z.compare_spec eb ec),
      (Z.compare_spec ea ec); subst; try discriminate; try reflexivity;
      try lia;
    destruct (Pos.compare_spec ma mb), (Pos.compare_spec mb mc),
      (Pos.compare_spec ma mc); subst; cbn; try discriminate;
      try reflexivity; try lia.
Qed.

Lemma ltb_trans (a b c : float) :
  PrimFloat.ltb a b = true -> PrimFloat.ltb b c = true ->
  PrimFloat.ltb a c = true.
Proof. rewrite !ltb_spec. apply SFltb_trans. Qed.

Lemma too_high_is_hot (p : Avatar.Props) :
  Avatar.tempTooHigh p = true -> Avatar.tempHot p = true.
Proof.
  unfold Avatar.tempTooHigh, Avatar.tempHot. apply ltb_trans. reflexivity.
Qed.

Lemma critical_is_dry (p : Avatar.Props) :
  Avatar.soilCritical p = true -> Avatar.soilDry p = true.
Proof.
  unfold Avatar.soilCritical, Avatar.soilDry. intros H.
  apply (ltb_trans _ 30 50 H). reflexivity.
Qed.

(** X11: the avatar shows one health in all its parts: the eyes are happy,
    the mouth smiles, the leaves have the green of a healthy plant and the
    state is [HEALTHY] exactly when the plant is healthy (the air not above
    32 degrees nor below 15, soil and air humidity not below 50); the eyes
    are dizzy exactly when the state is [CRITICAL] or [THIRSTY]; and the
    avatar shakes exactly when the state is [CRITICAL]. *)
Theorem avatar_parts_agree_on_health (p : Avatar.Props) :
  (Avatar.eyeState p = "happy" <-> Avatar.healthy p = true)
  /\ (Avatar.mouthState p = "smile" <-> Avatar.healthy p = true)
  /\ (Avatar.leafColor p = "#8BBC6D" <-> Avatar.healthy p = true)
  /\ (Avatar.currentState p = "HEALTHY" <-> Avatar.healthy p = true)
  /\ (Avatar.eyeState p = "dizzy"
      <-> Avatar.currentState p = "CRITICAL"
          \/ Avatar.currentState p = "THIRSTY")
  /\ (Avatar.isShaking p = true <-> Avatar.currentState p = "CRITICAL").
Proof.
  pose proof (too_high_is_hot p) as Hh.
  pose proof (critical_is_dry p) as Hd.
  unfold Avatar.eyeState, Avatar.mouthState, Avatar.leafColor,
    Avatar.currentState, Avatar.healthy, Avatar.isStressed, Avatar.isShaking.
  fold (Avatar.tempTooCold p).
  destruct (Avatar.tempTooHigh p), (Avatar.tempHot p),
    (Avatar.tempTooCold p), (Avatar.soilDry p), (Avatar.soilCritical p),
    (Avatar.airDry p);
    try (specialize (Hh eq_refl); discriminate Hh);
    try (specialize (Hd eq_refl); discriminate Hd);
    cbn; repeat split; intros H; try reflexivity; try discriminate H;
    try (destruct H as [H|H]; discriminate H); auto.
Qed.

Lemma nan_is_not_below (x c : float) :
  PrimFloat.is_nan x = true ->
  PrimFloat.ltb x c = false /\ PrimFloat.ltb c x = false.
Proof.
  unfold PrimFloat.is_nan. rewrite eqb_spec, !ltb_spec.
  unfold SFeqb, SFltb.
  destruct (Prim2SF x) as [s|s| |s m e]; cbn.
  - discriminate.
  - destruct s; discriminate.
  - intros _. split; [reflexivity|].
    destruct (Prim2SF c); reflexivity.
  - rewrite Z.compare_refl.
    change (PosDef.Pos.compare_cont Eq m m) with (Pos.compare m m).
    rewrite Pos.compare_refl. destruct s; discriminate.
Qed.

(** X12: readings that are not numbers do not show: when the air
    temperature, the air humidity and the soil humidity are NaN (which is
    what a missing reading compares as), the plant is healthy and happy,
    neither wilting nor shivering, though without the hearts. *)
Theorem avatar_takes_missing_readings_for_health (p : Avatar.Props)
  (Hat : PrimFloat.is_nan (Avatar.airTemp p) = true)
  (Hah : PrimFloat.is_nan (Avatar.airHumidity p) = true)
  (Hsh : PrimFloat.is_nan (Avatar.soilHumidity p) = true) :
  Avatar.healthy p = true /\ Avatar.currentState p = "HEALTHY"
  /\ Avatar.eyeState p = "happy" /\ Avatar.isWilting p = false
  /\ Avatar.isShivering p = false /\ Avatar.hearts p = false.
Proof.
  unfold Avatar.healthy, Avatar.currentState, Avatar.eyeState,
    Avatar.isWilting, Avatar.isShivering, Avatar.isStressed, Avatar.hearts,
    Avatar.healthy, Avatar.tempTooHigh, Avatar.tempHot, Avatar.tempTooCold,
    Avatar.soilDry, Avatar.soilCritical, Avatar.airDry.
  rewrite (proj2 (nan_is_not_below _ 35 Hat)),
    (proj2 (nan_is_not_below _ 32 Hat)), (proj1 (nan_is_not_below _ 15 Hat)),
    (proj1 (nan_is_not_below _ 50 Hsh)), (proj1 (nan_is_not_below _ 30 Hsh)),
    (proj1 (nan_is_not_below _ 50 Hah)), (proj2 (nan_is_not_below _ 70 Hsh)).
  repeat split.
Qed.

Lemma avatar_takes_missing_readings_for_health_witness :
  Avatar.currentState (Avatar.mkProps nan nan nan 25) = "HEALTHY".
Proof.
  exact (proj1 (proj2 (avatar_takes_missing_readings_for_health
                         (Avatar.mkProps nan nan nan 25)
                         eq_refl eq_refl eq_refl))).
Defined.

(** ** The test script and the handler *)

Lemma or_else_truthy (a d : value) :
  truthy d = true -> truthy (or_else a d) = true.
Proof. intros H. unfold or_else. destruct (truthy a) eqn:E; assumption. Qed.

Lemma get_index_truthy (v : value) (i : nat) :
  truthy v = true -> exists r, get_index v i = Ok r.
Proof.
  destruct v; cbn; try discriminate; intros _; eexists; reflexivity.
Qed.

Lemma bind_eval {A C : Type} (r : result A) (k : A -> M C) (st : State) :
  bind (eval r) k st
  = match r with
    | Ok a => k a st
    | Throw e => (st, Throw e)
    end.
Proof. destruct r; reflexivity. Qed.

(** A statement that cannot throw, followed by others. *)
Lemma bind_set {C : Type} (m : M unit) (k : unit -> M C) (st : State) :
  snd (m st) = Ok tt -> bind m k st = k tt (fst (m st)).
Proof.
  unfold bind. destruct (m st) as [st' [[]|e]]; cbn; [reflexivity|discriminate].
Qed.

(** X13: the nested JSON branch of the handler stores what the test script
    works out: when the script arrives at its [sensorData], [pumpData] and
    [valveData], these are the sensors, pumps and valves of the page after
    the branch, and the tag is [stm32-json]; when the script fails with an
    exception, the branch fails with the same and has changed nothing. *)
Theorem handler_stores_what_the_test_script_computes (data : value)
  (st : State) :
  let st' := fst (stm32_json data st) in
  match TestScript.decode data with
  | Ok (sensorData, pumpData, valveData) =>
      sensors st' = sensorData /\ pumps st' = pumpData
      /\ valves st' = valveData /\ dataSource st' = "stm32-json"
  | Throw e => st' = st /\ snd (stm32_json data st) = Throw e
  end.
Proof.
  cbv zeta. unfold stm32_json, TestScript.decode.
  repeat (rewrite bind_eval;
          match goal with
          | |- context [match ?r with Ok _ => _ | Throw _ => _ end] =>
              destruct r as [?|?]; cbn [rbind]; [|split; reflexivity]
          end).
  repeat match goal with
         | |- context [get_index (or_else ?x ?d) ?i] =>
             let r := fresh "r" in
             let E := fresh "E" in
             destruct (get_index_truthy (or_else x d) i
                         (or_else_truthy x d eq_refl)) as [r E];
             rewrite E
         end.
  cbn [rbind].
  rewrite bind_set by reflexivity. cbn [setSensors fst]. rewrite !bind_eval.
  rewrite bind_set by reflexivity. cbn [setPumps fst]. rewrite !bind_eval.
  rewrite bind_set by reflexivity. cbn [setValves fst].
  rewrite bind_set by reflexivity. cbn [setDataSource fst].
  match goal with
  | |- sensors (fst (?m ?s)) = _ /\ _ =>
      assert (Hs : keeps sensors m) by keeps_all;
      assert (Hp : keeps pumps m) by keeps_all;
      assert (Hv : keeps valves m) by keeps_all;
      assert (Hd : keeps dataSource m) by keeps_all;
      rewrite Hs, Hp, Hv, Hd
  end.
  repeat split.
Qed.

(** ** The text formats: what is written is what is read *)

Import Wire.

Lemma append_empty (s : string) : s ++ "" = s.
Proof. induction s as [|c s IH]; cbn; [reflexivity|rewrite IH; reflexivity]. Qed.

Lemma span_every (f : ascii -> bool) (a b : string) :
  every f a = true -> head_off f b = true -> span f (a ++ b) = (a, b).
Proof.
  intros Ha Hb. induction a as [|x a IH]; cbn [append].
  - destruct b as [|c r]; [reflexivity|].
    cbn [head_off] in Hb. apply negb_true_iff in Hb.
    cbn [span]. rewrite Hb. reflexivity.
  - cbn [every] in Ha. apply andb_true_iff in Ha. destruct Ha as [Hx Ha].
    cbn [span]. rewrite Hx, (IH Ha). reflexivity.
Qed.

Lemma run1_every (f : ascii -> bool) (a b : string) :
  Number.is_empty a = false -> every f a = true -> head_off f b = true ->
  run1 f (a ++ b) = Some (a, b).
Proof.
  intros Hn Ha Hb. unfold run1. rewrite (span_every f a b Ha Hb).
  destruct a; [discriminate|reflexivity].
Qed.

Lemma is_digits_parts (d : string) :
  is_digits d = true ->
  Number.is_empty d = false /\ every is_digit d = true.
Proof.
  unfold is_digits. intros H. apply andb_true_iff in H.
  destruct H as [H1 H2]. apply negb_true_iff in H1. split; assumption.
Qed.

Lemma search_hit {A : Type} (m : string -> option A) (s : string) (x : A) :
  m s = Some x -> search m s = Some x.
Proof. intros H. destruct s; cbn; rewrite H; reflexivity. Qed.

Lemma search_step {A : Type} (m : string -> option A) (c : ascii)
  (rest : string) :
  m (String c rest) = None -> search m (String c rest) = search m rest.
Proof. intros H. cbn. rewrite H. reflexivity. Qed.

Lemma search_skip {A : Type} (m : string -> option A) (g : ascii -> bool)
  (a b : string) :
  (forall c r, g c = true -> m (String c r) = None) ->
  every g a = true -> search m (a ++ b) = search m b.
Proof.
  intros Hm Ha. induction a as [|x a IH]; [reflexivity|].
  cbn in Ha. apply andb_true_iff in Ha. destruct Ha as [Hx Ha].
  cbn [append]. rewrite (search_step m x (a ++ b) (Hm x (a ++ b) Hx)).
  apply IH. exact Ha.
Qed.

(** A pattern that begins with a character that is no digit does not match
    where the text has a digit. *)
Lemma strip_prefix_digit (l0 : ascii) (lit r : string) (c : ascii) :
  is_digit l0 = false -> is_digit c = true ->
  strip_prefix (String l0 lit) (String c r) = None.
Proof.
  intros Hl Hc. cbn. destruct (Ascii.eqb_spec l0 c) as [->|_]; [|reflexivity].
  congruence.
Qed.

Lemma lit_digits_at_digit (l0 : ascii) (lit r : string) (c : ascii) :
  is_digit l0 = false -> is_digit c = true ->
  lit_digits_at (String l0 lit) (String c r) = None.
Proof.
  intros Hl Hc. unfold lit_digits_at.
  rewrite (strip_prefix_digit l0 lit r c Hl Hc). reflexivity.
Qed.

(** [lit] followed by the digits [d] and then by something else: the
    pattern [lit(\d+)] matches here and captures [d]. *)
Lemma lit_digits_at_here (lit d b : string) :
  is_digits d = true -> head_off is_digit b = true ->
  lit_digits_at lit (lit ++ d ++ b) = Some (d, b).
Proof.
  intros Hd Hb. apply is_digits_parts in Hd. destruct Hd as [Hn He].
  unfold lit_digits_at.
  assert (Hs : strip_prefix lit (lit ++ d ++ b) = Some (d ++ b)).
  { induction lit as [|x lit IH]; cbn; [reflexivity|].
    rewrite Ascii.eqb_refl. exact IH. }
  rewrite Hs. cbn [obind]. apply run1_every; assumption.
Qed.

Lemma capture_digits_here (lit d b : string) :
  is_digits d = true -> head_off is_digit b = true ->
  capture_digits lit (lit ++ d ++ b) = Some d.
Proof.
  intros Hd Hb. unfold capture_digits. apply search_hit.
  rewrite (lit_digits_at_here lit d b Hd Hb). reflexivity.
Qed.

Lemma capture_digits_step (lit : string) (c : ascii) (rest : string) :
  strip_prefix lit (String c rest) = None ->
  capture_digits lit (String c rest) = capture_digits lit rest.
Proof.
  intros H. unfold capture_digits. apply search_step.
  unfold lit_digits_at. rewrite H. reflexivity.
Qed.

Lemma capture_digits_skip (l0 : ascii) (lit d b : string) :
  is_digit l0 = false -> is_digits d = true ->
  capture_digits (String l0 lit) (d ++ b) = capture_digits (String l0 lit) b.
Proof.
  intros Hl Hd. apply is_digits_parts in Hd. destruct Hd as [_ Hd].
  unfold capture_digits. apply (search_skip _ is_digit); [|exact Hd].
  intros c r Hc. rewrite (lit_digits_at_digit l0 lit r c Hl Hc). reflexivity.
Qed.

Lemma lit_digits_at_last (lit d : string) :
  is_digits d = true -> lit_digits_at lit (lit ++ d) = Some (d, "").
Proof.
  intros Hd. pose proof (lit_digits_at_here lit d "" Hd eq_refl) as H.
  rewrite append_empty in H. exact H.
Qed.

Lemma capture_digits_last (lit d : string) :
  is_digits d = true -> capture_digits lit (lit ++ d) = Some d.
Proof.
  intros Hd. pose proof (capture_digits_here lit d "" Hd eq_refl) as H.
  rewrite append_empty in H. exact H.
Qed.

Lemma capture_digits_at_end_here (lit d : string) :
  is_digits d = true -> capture_digits_at_end lit (lit ++ d) = Some d.
Proof.
  intros Hd. unfold capture_digits_at_end. apply search_hit.
  rewrite (lit_digits_at_last lit d Hd). reflexivity.
Qed.

Lemma capture_digits_at_end_step (lit : string) (c : ascii) (rest : string) :
  strip_prefix lit (String c rest) = None ->
  capture_digits_at_end lit (String c rest) = capture_digits_at_end lit rest.
Proof.
  intros H. unfold capture_digits_at_end. apply search_step.
  unfold lit_digits_at. rewrite H. reflexivity.
Qed.

(** The pattern [lit(\d+)$] does not match where the digits after [lit]
    are followed by something else. *)
Lemma capture_digits_at_end_pass (l0 : ascii) (d : string) (c : ascii)
  (b : string) :
  is_digits d = true -> is_digit c = false ->
  capture_digits_at_end (String l0 "") (String l0 (d ++ String c b))
  = capture_digits_at_end (String l0 "") (d ++ String c b).
Proof.
  intros Hd Hc. unfold capture_digits_at_end. apply search_step.
  change (String l0 (d ++ String c b))
    with (String l0 "" ++ d ++ String c b).
  rewrite (lit_digits_at_here (String l0 "") d (String c b) Hd);
    [reflexivity|]. cbn. rewrite Hc. reflexivity.
Qed.

Lemma capture_digits_at_end_skip (l0 : ascii) (lit d b : string) :
  is_digit l0 = false -> is_digits d = true ->
  capture_digits_at_end (String l0 lit) (d ++ b)
  = capture_digits_at_end (String l0 lit) b.
Proof.
  intros Hl Hd. apply is_digits_parts in Hd. destruct Hd as [_ Hd].
  unfold capture_digits_at_end. apply (search_skip _ is_digit); [|exact Hd].
  intros c r Hc. rewrite (lit_digits_at_digit l0 lit r c Hl Hc). reflexivity.
Qed.

(** Walks a capture through a text made of literal characters and of digit
    strings, up to the place where the pattern matches. *)
Ltac walk :=
  cbn [append];
  repeat first
    [ rewrite capture_digits_step by reflexivity
    | rewrite capture_digits_skip by (reflexivity || assumption)
    | rewrite capture_digits_at_end_step by reflexivity
    | rewrite capture_digits_at_end_skip by (reflexivity || assumption)
    | rewrite capture_digits_at_end_pass by (reflexivity || assumption) ].

Lemma ultra_short_captures (p st_ sh wl at_ ah : string) :
  is_digits p = true -> is_digits st_ = true -> is_digits sh = true ->
  is_digits wl = true -> is_digits at_ = true -> is_digits ah = true ->
  let payloadStr := ultra_short p st_ sh wl at_ ah in
  is_ultra_short payloadStr = true
  /\ capture_digits "P" payloadStr = Some p
  /\ capture_digits "T" payloadStr = Some st_
  /\ capture_digits "H" payloadStr = Some sh
  /\ capture_digits "W" payloadStr = Some wl
  /\ capture_digits "A" payloadStr = Some at_
  /\ capture_digits_at_end "H" payloadStr = Some ah.
Proof.
  intros Hp Hst Hsh Hwl Hat Hah. cbv zeta. unfold ultra_short.
  set (t5 := "H" ++ ah).
  set (t4 := "A" ++ at_ ++ t5).
  set (t3 := "W" ++ wl ++ t4).
  set (t2 := "H" ++ sh ++ t3).
  set (t1 := "T" ++ st_ ++ t2).
  repeat split.
  - unfold is_ultra_short.
    rewrite (lit_digits_at_here "P" p t1 Hp eq_refl). cbn [obind snd].
    subst t1. rewrite (lit_digits_at_here "T" st_ t2 Hst eq_refl).
    cbn [obind snd].
    subst t2. rewrite (lit_digits_at_here "H" sh t3 Hsh eq_refl).
    cbn [obind snd].
    subst t3. rewrite (lit_digits_at_here "W" wl t4 Hwl eq_refl).
    cbn [obind snd].
    subst t4. rewrite (lit_digits_at_here "A" at_ t5 Hat eq_refl).
    cbn [obind snd].
    subst t5. rewrite (lit_digits_at_last "H" ah Hah).
    reflexivity.
  - exact (capture_digits_here "P" p t1 Hp eq_refl).
  - subst t1. walk. exact (capture_digits_here "T" st_ t2 Hst eq_refl).
  - subst t1 t2. walk. exact (capture_digits_here "H" sh t3 Hsh eq_refl).
  - subst t1 t2 t3. walk. exact (capture_digits_here "W" wl t4 Hwl eq_refl).
  - subst t1 t2 t3 t4. walk.
    exact (capture_digits_here "A" at_ t5 Hat eq_refl).
  - subst t1 t2 t3 t4 t5. walk.
    exact (capture_digits_at_end_here "H" ah Hah).
Qed.

Lemma prefixed_captures (p st_ sh wl at_ ah c : string) :
  is_digits p = true -> is_digits st_ = true -> is_digits sh = true ->
  is_digits wl = true -> is_digits at_ = true -> is_digits ah = true ->
  is_digits c = true ->
  let cleanData := replace (prefixed p st_ sh wl at_ ah c) "STM32_DATA_" "" in
  capture_digits "P" cleanData = Some p
  /\ capture_digits "ST" cleanData = Some st_
  /\ capture_digits "SH" cleanData = Some sh
  /\ capture_digits "WL" cleanData = Some wl
  /\ capture_digits "AT" cleanData = Some at_
  /\ capture_digits "AH" cleanData = Some ah
  /\ capture_digits "C" cleanData = Some c.
Proof.
  intros Hp Hst Hsh Hwl Hat Hah Hc. cbv zeta. unfold prefixed.
  set (t6 := "_C" ++ c).
  set (t5 := "_AH" ++ ah ++ t6).
  set (t4 := "_AT" ++ at_ ++ t5).
  set (t3 := "_WL" ++ wl ++ t4).
  set (t2 := "_SH" ++ sh ++ t3).
  set (t1 := "_ST" ++ st_ ++ t2).
  change (replace ("STM32_DATA_P" ++ p ++ t1) "STM32_DATA_" "")
    with ("P" ++ p ++ t1).
  repeat split.
  - exact (capture_digits_here "P" p t1 Hp eq_refl).
  - subst t1. walk. exact (capture_digits_here "ST" st_ t2 Hst eq_refl).
  - subst t1 t2. walk. exact (capture_digits_here "SH" sh t3 Hsh eq_refl).
  - subst t1 t2 t3. walk. exact (capture_digits_here "WL" wl t4 Hwl eq_refl).
  - subst t1 t2 t3 t4. walk.
    exact (capture_digits_here "AT" at_ t5 Hat eq_refl).
  - subst t1 t2 t3 t4 t5. walk.
    exact (capture_digits_here "AH" ah t6 Hah eq_refl).
  - subst t1 t2 t3 t4 t5 t6. walk.
    exact (capture_digits_last "C" c Hc).
Qed.

Lemma key_value_captures (st_ at_ sh ah p wl c : string) :
  is_digits st_ = true -> is_digits at_ = true -> is_digits sh = true ->
  is_digits ah = true -> is_digits p = true -> is_digits wl = true ->
  is_digits c = true ->
  let payloadStr := key_value st_ at_ sh ah p wl c in
  capture_digits "st=" payloadStr = Some st_
  /\ capture_digits "at=" payloadStr = Some at_
  /\ capture_digits "sh=" payloadStr = Some sh
  /\ capture_digits "ah=" payloadStr = Some ah
  /\ capture_digits "p=" payloadStr = Some p
  /\ capture_digits "wl=" payloadStr = Some wl.
Proof.
  intros Hst Hat Hsh Hah Hp Hwl Hc. cbv zeta. unfold key_value.
  set (t6 := ",c=" ++ c).
  set (t5 := ",wl=" ++ wl ++ t6).
  set (t4 := ",p=" ++ p ++ t5).
  set (t3 := ",ah=" ++ ah ++ t4).
  set (t2 := ",sh=" ++ sh ++ t3).
  set (t1 := ",at=" ++ at_ ++ t2).
  repeat split.
  - exact (capture_digits_here "st=" st_ t1 Hst eq_refl).
  - subst t1. walk. exact (capture_digits_here "at=" at_ t2 Hat eq_refl).
  - subst t1 t2. walk. exact (capture_digits_here "sh=" sh t3 Hsh eq_refl).
  - subst t1 t2 t3. walk. exact (capture_digits_here "ah=" ah t4 Hah eq_refl).
  - subst t1 t2 t3 t4. walk.
    exact (capture_digits_here "p=" p t5 Hp eq_refl).
  - subst t1 t2 t3 t4 t5. walk.
    exact (capture_digits_here "wl=" wl t6 Hwl eq_refl).
Qed.

(** [parseInt] of a text of digits is the number they denote. *)
Lemma digit_is_plain (c : ascii) :
  is_digit c = true ->
  is_space c = false /\ Ascii.eqb c "+" = false /\ Ascii.eqb c "-" = false
  /\ Ascii.eqb "x" c = false /\ Ascii.eqb "X" c = false.
Proof.
  destruct c as [[] [] [] [] [] [] [] []]; cbn; intros H;
    try discriminate H; repeat split.
Qed.

Lemma parseInt_digits (d : string) :
  is_digits d = true -> parseInt d = of_Z (digits_val d).
Proof.
  intros Hd. pose proof (is_digits_parts d Hd) as [Hn He].
  destruct d as [|c r]; [discriminate|].
  cbn [every] in He. apply andb_true_iff in He. destruct He as [Hc Hr].
  pose proof (digit_is_plain c Hc) as (Hs & Hplus & Hminus & _ & _).
  unfold parseInt.
  assert (E1 : skip_spaces (String c r) = String c r).
  { unfold skip_spaces. cbn [span]. rewrite Hs. reflexivity. }
  rewrite E1.
  assert (E2 : scan_sign (String c r) = (false, String c r)).
  { unfold scan_sign.
    destruct (Ascii.eqb_spec c "+") as [->|_]; [discriminate|].
    destruct (Ascii.eqb_spec c "-") as [->|_]; [discriminate|].
    destruct c as [[] [] [] [] [] [] [] []]; try reflexivity;
      discriminate Hc. }
  rewrite E2.
  assert (E3 : strip_prefix "0x" (String c r) = None
               /\ strip_prefix "0X" (String c r) = None).
  { cbn [strip_prefix]. destruct (Ascii.eqb "0" c); [|split; reflexivity].
    destruct r as [|c2 r2]; [split; reflexivity|].
    cbn [every] in Hr. apply andb_true_iff in Hr. destruct Hr as [Hc2 _].
    pose proof (digit_is_plain c2 Hc2) as (_ & _ & _ & Hx & HX).
    rewrite Hx, HX. split; reflexivity. }
  destruct E3 as [E3 E4]. rewrite E3, E4.
  assert (E5 : run1 is_digit (String c r) = Some (String c r, "")).
  { pose proof (run1_every is_digit (String c r) "" Hn) as H.
    rewrite append_empty in H. apply H; [|reflexivity].
    cbn [every]. rewrite Hc, Hr. reflexivity. }
  rewrite E5. reflexivity.
Qed.

Lemma parseInt_or_reading (d : string) (prev : value) :
  is_digits d = true -> parseInt_or d prev = reading d prev.
Proof.
  intros Hd. unfold parseInt_or, reading. rewrite (parseInt_digits d Hd).
  reflexivity.
Qed.

Lemma includes_prefix (s lit : string) :
  String.prefix lit s = true -> includes s lit = true.
Proof. intros H. destruct s; cbn [includes]; rewrite H; reflexivity. Qed.

Lemma includes_cons (c : ascii) (s lit : string) :
  includes s lit = true -> includes (String c s) lit = true.
Proof. intros H. cbn [includes]. rewrite H. apply orb_true_r. Qed.

Lemma includes_app_r (a b lit : string) :
  includes b lit = true -> includes (a ++ b) lit = true.
Proof.
  intros H. induction a as [|c a IH]; [exact H|].
  cbn [append]. apply includes_cons. exact IH.
Qed.

Lemma includes_occurs (s : string) (c : ascii) (lit : string) :
  occurs c s = false -> includes s (String c lit) = false.
Proof.
  induction s as [|a s IH]; [reflexivity|].
  cbn [occurs includes String.prefix]. intros H.
  apply orb_false_iff in H. destruct H as [H1 H2].
  rewrite (IH H2), orb_false_r.
  destruct (Ascii.ascii_dec c a) as [->|Hne]; [|reflexivity].
  rewrite Ascii.eqb_refl in H1. discriminate.
Qed.

Lemma occurs_app (c : ascii) (a b : string) :
  occurs c (a ++ b) = occurs c a || occurs c b.
Proof.
  induction a as [|x a IH]; [reflexivity|].
  cbn [append occurs]. rewrite IH. apply orb_assoc.
Qed.

Lemma occurs_digits (c : ascii) (d : string) :
  is_digit c = false -> is_digits d = true -> occurs c d = false.
Proof.
  intros Hc Hd. apply is_digits_parts in Hd. destruct Hd as [_ Hd].
  induction d as [|x d IH]; [reflexivity|].
  cbn [every] in Hd. apply andb_true_iff in Hd. destruct Hd as [Hx Hd].
  cbn [occurs]. rewrite (IH Hd), orb_false_r.
  destruct (Ascii.eqb_spec c x) as [->|_]; [congruence|reflexivity].
Qed.

(** A goal [occurs c s = false] for a text [s] made of literal characters
    and of digit strings. *)
Ltac no_occurrence :=
  repeat first
    [ progress cbn [append occurs]
    | rewrite occurs_app
    | rewrite occurs_digits by (reflexivity || assumption) ];
  reflexivity.

Lemma text_or_digits (d other : string) :
  is_digits d = true -> text_or (Some d) other = d.
Proof.
  intros Hd. apply is_digits_parts in Hd. destruct Hd as [Hn _].
  cbn [text_or]. rewrite Hn. reflexivity.
Qed.

Lemma present_digits (d : string) : is_digits d = true -> present (Some d) = true.
Proof.
  intros Hd. apply is_digits_parts in Hd. destruct Hd as [Hn _].
  cbn [present]. rewrite Hn. reflexivity.
Qed.

(** X14: a payload of the ultra-short form, [P], [T], [H], [W], [A], [H]
    each followed by digits, on a telemetry topic: each of the six readings
    takes the number its digits denote, or keeps its value when that
    number is zero; the stored series are forgotten, the tag is
    [stm32-ultra], pumps and valves stay. *)
Theorem ultra_short_payload_is_read_back (telemetry topic : string)
  (p st_ sh wl at_ ah : string) (st : State)
  (Htopic : is_telemetry_topic telemetry topic = true)
  (Hp : is_digits p = true) (Hst : is_digits st_ = true)
  (Hsh : is_digits sh = true) (Hwl : is_digits wl = true)
  (Hat : is_digits at_ = true) (Hah : is_digits ah = true) :
  let st' := after_message telemetry topic
               (ultra_short p st_ sh wl at_ ah) st in
  let old := sensors st in
  sensors st'
  = {| pressure := reading p (pressure old);
       soilTemp := reading st_ (soilTemp old);
       soilHumidity := reading sh (soilHumidity old);
       waterLevel := reading wl (waterLevel old);
       airTemp := reading at_ (airTemp old);
       airHumidity := reading ah (airHumidity old);
       ds_t := Undefined; soil := Undefined; water := Undefined |}
  /\ dataSource st' = "stm32-ultra"
  /\ pumps st' = pumps st /\ valves st' = valves st.
Proof.
  destruct (ultra_short_captures p st_ sh wl at_ ah Hp Hst Hsh Hwl Hat Hah)
    as (Hu & C1 & C2 & C3 & C4 & C5 & C6).
  cbv zeta in Hu, C1, C2, C3, C4, C5, C6.
  set (payloadStr := ultra_short p st_ sh wl at_ ah) in *.
  assert (Hj : startsWith payloadStr "{" = false) by reflexivity.
  assert (Hs : includes payloadStr "STM32_DATA_" = false).
  { apply includes_occurs. subst payloadStr. unfold ultra_short.
    no_occurrence. }
  assert (H_ : includes payloadStr "_" = false).
  { apply includes_occurs. subst payloadStr. unfold ultra_short.
    no_occurrence. }
  assert (E : forall s, decode payloadStr s = stm32_ultra payloadStr s).
  { intros s. unfold decode. rewrite Hj, Hs, H_, Hu.
    rewrite andb_false_r. reflexivity. }
  cbv zeta.
  rewrite (after_message_decode _ _ _ _ Htopic sensors);
    [|keeps_all|intros e; keeps_all].
  rewrite (after_message_decode _ _ _ _ Htopic pumps);
    [|keeps_all|intros e; keeps_all].
  rewrite (after_message_decode _ _ _ _ Htopic valves);
    [|keeps_all|intros e; keeps_all].
  rewrite (after_message_decode _ _ _ _ Htopic dataSource);
    [|keeps_all|intros e; keeps_all].
  rewrite !E. unfold stm32_ultra. rewrite C1, C2, C3, C4, C5, C6.
  rewrite !present_digits by assumption. cbn [andb].
  rewrite !text_or_digits by assumption.
  unfold bind, setSensors, setDataSource, addLog, six_fields.
  cbn [fst snd sensors pumps valves dataSource].
  rewrite !parseInt_or_reading by assumption.
  repeat split.
Qed.

Lemma ultra_short_payload_is_read_back_witness :
  let st' := after_message "d02/telemetry" "d02/telemetry"
               "P701T21H52W0A26H62" initial in
  pressure (sensors st') = Num 701 /\ waterLevel (sensors st') = Num 10
  /\ airHumidity (sensors st') = Num 62 /\ dataSource st' = "stm32-ultra".
Proof.
  pose proof (ultra_short_payload_is_read_back "d02/telemetry"
                "d02/telemetry" "701" "21" "52" "0" "26" "62" initial
                eq_refl eq_refl eq_refl eq_refl eq_refl eq_refl eq_refl) as H.
  cbv zeta in H. destruct H as (Hs & Ht & _ & _).
  cbv zeta. change (ultra_short "701" "21" "52" "0" "26" "62")
    with "P701T21H52W0A26H62" in Hs, Ht.
  rewrite Hs, Ht. repeat split.
Defined.

Lemma prefix_here (lit r : string) : String.prefix lit (lit ++ r) = true.
Proof.
  induction lit as [|a lit IH]; cbn.
  - destruct r; reflexivity.
  - destruct (Ascii.ascii_dec a a) as [_|H]; [exact IH|contradiction].
Qed.

(** A goal [includes s lit = true] for a text [s] made of literal
    characters and of digit strings. *)
Ltac find_here :=
  cbn [append];
  repeat first
    [ match goal with
      | |- includes _ ?lit = true =>
          apply includes_prefix; exact (prefix_here lit _)
      end
    | apply includes_cons
    | apply includes_app_r ].

(** X15: a payload of the prefixed form, [STM32_DATA_] and then [P], [_ST],
    [_SH], [_WL], [_AT], [_AH], [_C] each followed by digits, on a telemetry
    topic: each of the six readings takes the number its digits denote, or
    keeps its value when that number is zero; the stored series are
    forgotten, the tag is [stm32-simple], the log names the counter, pumps
    and valves stay. *)
Theorem prefixed_payload_is_read_back (telemetry topic : string)
  (p st_ sh wl at_ ah c : string) (st : State)
  (Htopic : is_telemetry_topic telemetry topic = true)
  (Hp : is_digits p = true) (Hst : is_digits st_ = true)
  (Hsh : is_digits sh = true) (Hwl : is_digits wl = true)
  (Hat : is_digits at_ = true) (Hah : is_digits ah = true)
  (Hc : is_digits c = true) :
  let st' := after_message telemetry topic
               (prefixed p st_ sh wl at_ ah c) st in
  let old := sensors st in
  sensors st'
  = {| pressure := reading p (pressure old);
       soilTemp := reading st_ (soilTemp old);
       soilHumidity := reading sh (soilHumidity old);
       waterLevel := reading wl (waterLevel old);
       airTemp := reading at_ (airTemp old);
       airHumidity := reading ah (airHumidity old);
       ds_t := Undefined; soil := Undefined; water := Undefined |}
  /\ dataSource st' = "stm32-simple"
  /\ pumps st' = pumps st /\ valves st' = valves st
  /\ hd System_initialized (logs st') = STM32_simple c.
Proof.
  destruct (prefixed_captures p st_ sh wl at_ ah c Hp Hst Hsh Hwl Hat Hah Hc)
    as (C1 & C2 & C3 & C4 & C5 & C6 & C7).
  cbv zeta in C1, C2, C3, C4, C5, C6, C7.
  set (payloadStr := prefixed p st_ sh wl at_ ah c) in *.
  assert (Hj : startsWith payloadStr "{" = false) by reflexivity.
  assert (Hs : includes payloadStr "STM32_DATA_" = true) by reflexivity.
  assert (E : forall s, decode payloadStr s = stm32_simple payloadStr s).
  { intros s. unfold decode. rewrite Hj, Hs. reflexivity. }
  cbv zeta.
  rewrite (after_message_decode _ _ _ _ Htopic sensors);
    [|keeps_all|intros e; keeps_all].
  rewrite (after_message_decode _ _ _ _ Htopic pumps);
    [|keeps_all|intros e; keeps_all].
  rewrite (after_message_decode _ _ _ _ Htopic valves);
    [|keeps_all|intros e; keeps_all].
  rewrite (after_message_decode _ _ _ _ Htopic dataSource);
    [|keeps_all|intros e; keeps_all].
  assert (El : logs (after_message telemetry topic payloadStr st)
               = logs (fst (decode payloadStr
                    (fst (addLog (Received topic (head 80 payloadStr)) st))))).
  { unfold after_message. rewrite (on_message_telemetry _ _ _ Htopic).
    unfold try_catch, bind at 1. cbn [addLog fst snd].
    rewrite E. unfold stm32_simple. rewrite C1, C2.
    rewrite !present_digits by assumption. reflexivity. }
  rewrite El.
  rewrite !E. unfold stm32_simple. rewrite C1, C2, C3, C4, C5, C6, C7.
  rewrite !present_digits by assumption. cbn [andb].
  rewrite !text_or_digits by assumption.
  unfold bind, setSensors, setDataSource, addLog, six_fields.
  cbn [fst snd sensors pumps valves dataSource logs firstn hd].
  rewrite !parseInt_or_reading by assumption.
  repeat split.
Qed.

Lemma prefixed_payload_is_read_back_witness :
  let st' := after_message "d02/telemetry" "d02/telemetry"
               "STM32_DATA_P701_ST21_SH52_WL12_AT26_AH62_C1" initial in
  pressure (sensors st') = Num 701 /\ airHumidity (sensors st') = Num 62
  /\ dataSource st' = "stm32-simple".
Proof.
  pose proof (prefixed_payload_is_read_back "d02/telemetry"
                "d02/telemetry" "701" "21" "52" "12" "26" "62" "1" initial
                eq_refl eq_refl eq_refl eq_refl eq_refl eq_refl eq_refl
                eq_refl) as H.
  cbv zeta in H. destruct H as (Hs & Ht & _).
  cbv zeta. change (prefixed "701" "21" "52" "12" "26" "62" "1")
    with "STM32_DATA_P701_ST21_SH52_WL12_AT26_AH62_C1" in Hs, Ht.
  rewrite Hs, Ht. repeat split.
Defined.

(** X16: a payload of the key=value form, [st=], [at=], [sh=], [ah=],
    [p=], [wl=], [c=] each followed by digits and set apart by commas, on a
    telemetry topic: it is not taken for one of the formats tried before,
    and each of the six readings takes the number its digits denote, or
    keeps its value when that number is zero; the stored series are
    forgotten, the tag is [stm32-comprehensive], pumps and valves stay. *)
Theorem key_value_payload_is_read_back (telemetry topic : string)
  (st_ at_ sh ah p wl c : string) (st : State)
  (Htopic : is_telemetry_topic telemetry topic = true)
  (Hst : is_digits st_ = true) (Hat : is_digits at_ = true)
  (Hsh : is_digits sh = true) (Hah : is_digits ah = true)
  (Hp : is_digits p = true) (Hwl : is_digits wl = true)
  (Hc : is_digits c = true) :
  let payloadStr := key_value st_ at_ sh ah p wl c in
  let st' := after_message telemetry topic payloadStr st in
  let old := sensors st in
  first_match code_order payloadStr = Some Key_value
  /\ sensors st'
     = {| pressure := reading p (pressure old);
          soilTemp := reading st_ (soilTemp old);
          soilHumidity := reading sh (soilHumidity old);
          waterLevel := reading wl (waterLevel old);
          airTemp := reading at_ (airTemp old);
          airHumidity := reading ah (airHumidity old);
          ds_t := Undefined; soil := Undefined; water := Undefined |}
  /\ dataSource st' = "stm32-comprehensive"
  /\ pumps st' = pumps st /\ valves st' = valves st.
Proof.
  destruct (key_value_captures st_ at_ sh ah p wl c Hst Hat Hsh Hah Hp Hwl Hc)
    as (C1 & C2 & C3 & C4 & C5 & C6).
  cbv zeta in C1, C2, C3, C4, C5, C6. cbv zeta.
  set (payloadStr := key_value st_ at_ sh ah p wl c) in *.
  assert (Hj : startsWith payloadStr "{" = false) by reflexivity.
  assert (Hs : includes payloadStr "STM32_DATA_" = false).
  { apply includes_occurs. subst payloadStr. unfold key_value.
    no_occurrence. }
  assert (HP : includes payloadStr "P" = false).
  { apply includes_occurs. subst payloadStr. unfold key_value.
    no_occurrence. }
  assert (Hu : is_ultra_short payloadStr = false) by reflexivity.
  assert (Hb : includes payloadStr "BME:" = false).
  { apply includes_occurs. subst payloadStr. unfold key_value.
    no_occurrence. }
  assert (H1 : includes payloadStr "st=" = true).
  { subst payloadStr. unfold key_value. find_here. }
  assert (H2 : includes payloadStr "at=" = true).
  { subst payloadStr. unfold key_value. find_here. }
  assert (H3 : includes payloadStr "p=" = true).
  { subst payloadStr. unfold key_value. find_here. }
  assert (E : forall s, decode payloadStr s = stm32_comprehensive payloadStr s).
  { intros s. unfold decode. rewrite Hj, Hs, HP, Hu, Hb, H1, H2, H3.
    reflexivity. }
  split.
  { unfold first_match, code_order. cbn [find test].
    rewrite Hj, Hs, HP, Hu, Hb, H1, H2, H3. reflexivity. }
  rewrite (after_message_decode _ _ _ _ Htopic sensors);
    [|keeps_all|intros e; keeps_all].
  rewrite (after_message_decode _ _ _ _ Htopic pumps);
    [|keeps_all|intros e; keeps_all].
  rewrite (after_message_decode _ _ _ _ Htopic valves);
    [|keeps_all|intros e; keeps_all].
  rewrite (after_message_decode _ _ _ _ Htopic dataSource);
    [|keeps_all|intros e; keeps_all].
  rewrite !E. unfold stm32_comprehensive. rewrite C1, C2, C3, C4, C5, C6.
  rewrite !present_digits by assumption. cbn [andb].
  rewrite !text_or_digits by assumption.
  unfold bind, setSensors, setDataSource, addLog, six_fields.
  cbn [fst snd sensors pumps valves dataSource].
  rewrite !parseInt_or_reading by assumption.
  repeat split.
Qed.

Lemma key_value_payload_is_read_back_witness :
  let st' := after_message "d02/telemetry" "d02/telemetry"
               "st=25,at=27,sh=65,ah=55,p=825,wl=18,c=1" initial in
  soilHumidity (sensors st') = Num 65 /\ waterLevel (sensors st') = Num 18
  /\ dataSource st' = "stm32-comprehensive".
Proof.
  pose proof (key_value_payload_is_read_back "d02/telemetry"
                "d02/telemetry" "25" "27" "65" "55" "825" "18" "1" initial
                eq_refl eq_refl eq_refl eq_refl eq_refl eq_refl eq_refl
                eq_refl) as H.
  cbv zeta in H. destruct H as (_ & Hs & Ht & _).
  cbv zeta. change (key_value "25" "27" "65" "55" "825" "18" "1")
    with "st=25,at=27,sh=65,ah=55,p=825,wl=18,c=1" in Hs, Ht.
  rewrite Hs, Ht. repeat split.
Defined.

(** ** The text formats: what they drop and what they leave alone *)

Lemma decode_first_match (payloadStr : string) (st : State) :
  decode payloadStr st
  = match first_match code_order payloadStr with
    | Some f => branch f payloadStr st
    | None => addLog (Unknown_data_format payloadStr) st
    end.
Proof.
  unfold decode, first_match, code_order. cbn [find test branch].
  repeat match goal with
         | |- context [if ?b then _ else _] => destruct b; try reflexivity
         end.
Qed.

(** The state after a telemetry message whose decoding throws nothing. *)
Lemma after_message_ok (telemetry topic payloadStr : string) (st : State) :
  is_telemetry_topic telemetry topic = true ->
  snd (decode payloadStr
         (fst (addLog (Received topic (head 80 payloadStr)) st))) = Ok tt ->
  after_message telemetry topic payloadStr st
  = fst (decode payloadStr
           (fst (addLog (Received topic (head 80 payloadStr)) st))).
Proof.
  intros Htopic Hok. unfold after_message.
  rewrite (on_message_telemetry _ _ _ Htopic).
  unfold try_catch, bind at 1. cbn [addLog fst snd] in *.
  destruct (decode payloadStr _) as [st' [[]|e]]; [reflexivity|].
  discriminate Hok.
Qed.

(** X17: a payload with the prefix [STM32_DATA_], or with a [P] and an
    underscore anywhere in it, in which [P] or [ST] is not followed by
    digits, is dropped without a word: the state stays as it is but for the
    line of the reception, no later format is tried and the line of the
    unknown format is not written. *)
Theorem prefixed_test_swallows_other_payloads
  (telemetry topic payloadStr : string) (st : State)
  (Htopic : is_telemetry_topic telemetry topic = true)
  (Htext : startsWith payloadStr "{" = false)
  (Htest : test Prefixed payloadStr = true)
  (Hnone : present (capture_digits "P"
                      (replace payloadStr "STM32_DATA_" ""))
           && present (capture_digits "ST"
                         (replace payloadStr "STM32_DATA_" "")) = false) :
  after_message telemetry topic payloadStr st
  = fst (addLog (Received topic (head 80 payloadStr)) st).
Proof.
  assert (E : forall s, decode payloadStr s = (s, Ok tt)).
  { intros s. unfold decode. rewrite Htext. cbn [test] in Htest.
    rewrite Htest. unfold stm32_simple. rewrite Hnone. reflexivity. }
  rewrite (after_message_ok _ _ _ _ Htopic); rewrite E; reflexivity.
Qed.

Lemma prefixed_test_swallows_other_payloads_witness :
  after_message "d02/telemetry" "d02/telemetry" summary_with_underscore
    initial
  = fst (addLog (Received "d02/telemetry" (head 80 summary_with_underscore))
           initial).
Proof.
  exact (prefixed_test_swallows_other_payloads "d02/telemetry"
           "d02/telemetry" summary_with_underscore initial
           eq_refl eq_refl eq_refl eq_refl).
Defined.

(** X18: a BME summary that the decoder takes as such gives the soil the
    temperature of the air: both take the number read after [BME:] when it
    is neither zero nor NaN, and both keep their values when it is; the
    pumps change only when the summary has a [Pompa:] part; the valves
    stay, whatever the summary says of them; the tag is [stm32-bme280]. *)
Theorem summary_copies_air_temperature_to_soil
  (telemetry topic payloadStr : string) (b1 b2 b3 : string) (st : State)
  (Htopic : is_telemetry_topic telemetry topic = true)
  (Hfirst : first_match code_order payloadStr = Some Summary)
  (Hbme : match_bme payloadStr = Some (b1, b2, b3)) :
  let st' := after_message telemetry topic payloadStr st in
  let t := Num (parseFloat b1) in
  soilTemp (sensors st') = or_else t (soilTemp (sensors st))
  /\ airTemp (sensors st') = or_else t (airTemp (sensors st))
  /\ (truthy t = true -> soilTemp (sensors st') = airTemp (sensors st'))
  /\ (match_pompa payloadStr = None -> pumps st' = pumps st)
  /\ valves st' = valves st
  /\ dataSource st' = "stm32-bme280".
Proof.
  assert (E : forall s, decode payloadStr s = stm32_bme280 payloadStr s).
  { intros s. rewrite decode_first_match, Hfirst. reflexivity. }
  assert (Hok : forall s, snd (stm32_bme280 payloadStr s) = Ok tt).
  { intros s. unfold stm32_bme280. rewrite Hbme.
    destruct (match_pompa payloadStr) as [[p1 p2]|]; reflexivity. }
  cbv zeta.
  rewrite (after_message_ok _ _ _ _ Htopic); rewrite E; [|apply Hok].
  unfold stm32_bme280. rewrite Hbme.
  destruct (match_pompa payloadStr) as [[p1 p2]|];
    unfold bind, setSensors, setPumps, setDataSource, addLog, ret;
    cbn [fst snd sensors pumps valves dataSource soilTemp airTemp];
    repeat split; try discriminate;
    intros Ht; unfold or_else; rewrite Ht; reflexivity.
Qed.

Lemma summary_copies_air_temperature_to_soil_witness :
  let st' := after_message "d02/telemetry" "d02/telemetry" summary initial in
  soilTemp (sensors st') = Num 25.1 /\ airTemp (sensors st') = Num 25.1
  /\ valves st' = valves initial /\ dataSource st' = "stm32-bme280".
Proof.
  pose proof (summary_copies_air_temperature_to_soil "d02/telemetry"
                "d02/telemetry" summary "25.1" "1013" "65" initial
                eq_refl eq_refl eq_refl) as H.
  cbv zeta in H. destruct H as (H1 & H2 & _ & _ & H5 & H6).
  cbv zeta. rewrite H1, H2, H5, H6. repeat split.
Defined.

(** X19: what the last formats leave alone. A payload taken as the compact
    format never changes pressure, water level, pumps or valves; one taken
    as the status format changes no sensor, pump or valve; and a payload of
    no format changes nothing but the log, which gains the line of the
    unknown format. *)
Theorem compact_status_and_unknown_payloads
  (telemetry topic payloadStr : string) (st : State)
  (Htopic : is_telemetry_topic telemetry topic = true) :
  let st' := after_message telemetry topic payloadStr st in
  (first_match code_order payloadStr = Some Compact ->
   pressure (sensors st') = pressure (sensors st)
   /\ waterLevel (sensors st') = waterLevel (sensors st)
   /\ pumps st' = pumps st /\ valves st' = valves st)
  /\ (first_match code_order payloadStr = Some Status ->
      sensors st' = sensors st /\ pumps st' = pumps st
      /\ valves st' = valves st)
  /\ (first_match code_order payloadStr = None ->
      st' = fst ((addLog (Received topic (head 80 payloadStr)) ;;;
                  addLog (Unknown_data_format payloadStr)) st)).
Proof.
  cbv zeta. split; [|split]; intros Hfirst.
  - assert (E : forall s, decode payloadStr s = stm32_compact payloadStr s).
    { intros s. rewrite decode_first_match, Hfirst. reflexivity. }
    assert (Hok : forall s, snd (stm32_compact payloadStr s) = Ok tt).
    { intros s. unfold stm32_compact.
      destruct (present _ && present _); reflexivity. }
    rewrite (after_message_ok _ _ _ _ Htopic); rewrite E; [|apply Hok].
    unfold stm32_compact.
    destruct (present _ && present _); repeat split.
  - assert (E : forall s, decode payloadStr s = stm32_status payloadStr s).
    { intros s. rewrite decode_first_match, Hfirst. reflexivity. }
    assert (Hok : forall s, snd (stm32_status payloadStr s) = Ok tt).
    { intros s. unfold stm32_status.
      destruct (present _ && present _); [|reflexivity].
      unfold bind, addLog, readDataSource. cbn [fst snd dataSource].
      destruct (negb _ && negb _); reflexivity. }
    rewrite (after_message_ok _ _ _ _ Htopic); rewrite E; [|apply Hok].
    repeat split;
      match goal with
      | |- ?f (fst (?m ?s)) = ?f ?st0 =>
          let Hk := fresh in
          assert (Hk : keeps f m) by (unfold stm32_status; keeps_all);
          rewrite Hk; reflexivity
      end.
  - assert (E : forall s, decode payloadStr s
                          = addLog (Unknown_data_format payloadStr) s).
    { intros s. rewrite decode_first_match, Hfirst. reflexivity. }
    rewrite (after_message_ok _ _ _ _ Htopic); rewrite E; reflexivity.
Qed.

Lemma compact_status_and_unknown_payloads_witness :
  after_message "d02/telemetry" "d02/telemetry" "hello" initial
  = fst ((addLog (Received "d02/telemetry" (head 80 "hello")) ;;;
          addLog (Unknown_data_format "hello")) initial).
Proof.
  exact (proj2 (proj2 (compact_status_and_unknown_payloads "d02/telemetry"
                         "d02/telemetry" "hello" initial eq_refl)) eq_refl).
Defined.

(** ** A message that arrives twice *)








Section Same_on.

Context {B : Type} (f : State -> B).

Lemma same_on_keeps {A : Type} (m : M A) : keeps f m -> same_on f m.
Proof. intros H st st'. left. split; apply H. Qed.





End Same_on.















